(** * leeforge/plugins: tenant lifecycle and organization tree

    A shallow embedding of the two service layers of the repository,

    - [tenant/tenant/service.go]   (package [tenant]: tenants and memberships),
    - [ou/organization/service.go] (package [organization]: the materialized
      path tree and its members),

    together with the collaborators they are wired to
    ([tenant/factory/ent_factory.go]: the role seeder and the user lookup).

    The Ent client is modelled as in-memory tables: a table is the list of
    its rows in insertion order, a query is a [filter], [First] takes the head
    of the result and [Only] demands exactly one row.  [Update().Where(p)]
    rewrites every row that satisfies [p].  Identifiers ([uuid.UUID]) are
    natural numbers with [uuid.Nil = 0]; instants ([time.Time]) are natural
    numbers.  Fresh identifiers and [time.Now()] are arguments of the
    operations that need them.

    What lies outside the two packages is kept abstract or left out:
    - the domain service ([core.DomainWriter]) is a type class over a state
      of its own, so every theorem holds for every implementation; the
      scenarios use the [mockDomainWriter] of tenant/plugin_test.go;
    - [uuid.Parse] and the uniqueness constraints of the organization
      tables are parameters (type classes);
    - [s.events.Publish] has no effect on the tables and its result is
      dropped by every caller, so the event bus is not part of the state;
    - a failure of the store that does not depend on the data (a lost
      connection) is an input of the operations whose theorems speak of
      failures: [Faults] for [CreateTenant], the modules [WithFaults] for
      [AddOrganizationMember], [DeleteTenant] and [RemoveMember], a flag
      for [ListOrganizationUserIDs] and [OnUserDeleted]; the other
      definitions are the runs in which the store answers;
    - the calls run in the platform domain, where the tenant scoping of
      queries ([coremod.WithoutTenant]) plays no part. *)

From Stdlib Require Import List String Ascii Bool Arith PeanoNat Lia.
From Stdlib Require Import ZArith Permutation Sorted.
Import ListNotations.

Set Implicit Arguments.

Local Open Scope string_scope.
Local Open Scope list_scope.

(** ** Identifiers, instants, errors *)

Definition UUID := nat.
Definition uuid_Nil : UUID := 0.
Definition Time := nat.
Definition uuid_eqb : UUID -> UUID -> bool := Nat.eqb.

(** The error values the two packages return.  The first group are the
    sentinels of [tenant/shared/errors.go], the second the sentinels of
    package [organization]; [ErrNew] is an [errors.New] made on the spot,
    [Wrap] is [fmt.Errorf("msg: %w", err)].  The [Ent*] values are what the
    Ent client reports: no row, more than one row for [Only], a violated
    constraint, and any other storage failure. *)
Inductive Error : Type :=
| ErrTenantNotFound
| ErrTenantCodeExists
| ErrInvalidTenant
| ErrMemberExists
| ErrMemberNotFound
| ErrPlatformDomainOnly
| ErrParentTenantInvalid
| ErrDomainContextMissing
| ErrInvalidDomainID
| ErrOrganizationNotFound
| ErrMemberAlreadyExists
| ErrNew (msg : string)
| EntNotFound
| EntNotSingular
| EntConstraint
| EntFault
| Wrap (msg : string) (e : Error).

Definition IsNotFound (e : Error) : bool :=
  match e with EntNotFound => true | _ => false end.

Definition IsConstraintError (e : Error) : bool :=
  match e with EntConstraint => true | _ => false end.

Inductive Result (A : Type) : Type :=
| Ok (a : A)
| Err (e : Error).
Arguments Ok {A} a.
Arguments Err {A} e.

Definition bindR {A B} (r : Result A) (k : A -> Result B) : Result B :=
  match r with
  | Ok a => k a
  | Err e => Err e
  end.

Notation "x <- r ;; k" := (bindR r (fun x => k))
  (at level 61, r at next level, right associativity).

Definition isOk {A} (r : Result A) : bool :=
  match r with Ok _ => true | Err _ => false end.

(** ** Query helpers of the Ent client *)

(** [Query()...First(ctx)]: the first row of the result, [NotFound] on none. *)
Definition First {A} (rows : list A) : Result A :=
  match rows with
  | [] => Err EntNotFound
  | r :: _ => Ok r
  end.

(** [Query()...Only(ctx)]: the one row of the result. *)
Definition Only {A} (rows : list A) : Result A :=
  match rows with
  | [] => Err EntNotFound
  | [r] => Ok r
  | _ :: _ :: _ => Err EntNotSingular
  end.

(** [Update().Where(p).Set...]: every row satisfying [p] is rewritten. *)
Definition updateWhere {A} (p : A -> bool) (f : A -> A) (rows : list A) : list A :=
  map (fun r => if p r then f r else r) rows.

(** [Query()...Order(...)]: the rows sorted by [le].  Rows that compare equal
    stay in table order. *)
Fixpoint insertBy {A} (le : A -> A -> bool) (x : A) (rows : list A) : list A :=
  match rows with
  | [] => [x]
  | y :: rest => if le x y then x :: rows else y :: insertBy le x rest
  end.

Definition OrderBy {A} (le : A -> A -> bool) (rows : list A) : list A :=
  fold_right (insertBy le) [] rows.

(** ** Go's [int]

    An [int] is a 64-bit integer in two's complement: the result of an
    addition, a subtraction or a multiplication is taken modulo [2^64] into
    the range from [-2^63] to [2^63 - 1], and a division truncates. *)
Definition wrapInt (z : Z) : Z :=
  ((z + 2 ^ 63) mod 2 ^ 64 - 2 ^ 63)%Z.

Definition int_add (a b : Z) : Z := wrapInt (a + b).
Definition int_sub (a b : Z) : Z := wrapInt (a - b).
Definition int_mul (a b : Z) : Z := wrapInt (a * b).
Definition int_div (a b : Z) : Z := wrapInt (Z.quot a b).

(** ** Paging

    [Query()...Offset(o).Limit(n)...All(ctx)] skips [o] rows of the ordered
    result and returns at most [n].  A negative [o] reaches the SQL
    statement as it is, and what happens then is the dialect's affair
    (SQLite reads it as 0, PostgreSQL refuses the statement): it is a
    parameter. *)
Class Dialect : Type := {
  negativeOffset : forall A : Type, Z -> Z -> list A -> Result (list A)
}.

Definition OffsetLimit `{Dialect} {A} (offset limit : Z) (rows : list A)
  : Result (list A) :=
  if (offset <? 0)%Z then negativeOffset offset limit rows
  else Ok (firstn (Z.to_nat limit) (skipn (Z.to_nat offset) rows)).

(** ** [ContainsFold]

    The predicate [XContainsFold(s)] of the Ent client: the column contains
    [s], letter case apart.  The letters A to Z are folded; what a store
    folds beyond them is the store's affair. *)
Definition foldCase (c : ascii) : ascii :=
  let n := nat_of_ascii c in
  if Nat.leb 65 n && Nat.leb n 90 then ascii_of_nat (n + 32) else c.

Fixpoint ToLower (s : string) : string :=
  match s with
  | EmptyString => EmptyString
  | String c rest => String (foldCase c) (ToLower rest)
  end.

Fixpoint Contains (s substr : string) : bool :=
  String.prefix substr s
  || match s with
     | EmptyString => false
     | String _ rest => Contains rest substr
     end.

Definition ContainsFold (column s : string) : bool :=
  Contains (ToLower column) (ToLower s).

(** ** [errors.Is]

    The sentinels are package variables made by [errors.New]: two of them
    are the same error only when they are the same variable.  An error made
    on the spot ([ErrNew], [Wrap], the errors of the Ent client) is a fresh
    value and is no sentinel. *)
Definition sameSentinel (a b : Error) : bool :=
  match a, b with
  | ErrTenantNotFound, ErrTenantNotFound
  | ErrTenantCodeExists, ErrTenantCodeExists
  | ErrInvalidTenant, ErrInvalidTenant
  | ErrMemberExists, ErrMemberExists
  | ErrMemberNotFound, ErrMemberNotFound
  | ErrPlatformDomainOnly, ErrPlatformDomainOnly
  | ErrParentTenantInvalid, ErrParentTenantInvalid
  | ErrDomainContextMissing, ErrDomainContextMissing
  | ErrInvalidDomainID, ErrInvalidDomainID
  | ErrOrganizationNotFound, ErrOrganizationNotFound
  | ErrMemberAlreadyExists, ErrMemberAlreadyExists => true
  | _, _ => false
  end.

(** [errors.Is(err, target)]: [target] is [err] or one of the errors [err]
    wraps. *)
Fixpoint errors_Is (err target : Error) : bool :=
  sameSentinel err target
  || match err with
     | Wrap _ inner => errors_Is inner target
     | _ => false
     end.

(** ** HTTP responses

    What a handler writes: the function of [framework/http/responder] it
    calls, with the payload or the message it passes. *)
Inductive Response (A : Type) : Type :=
| OK (result : A)
| BindError
| BadRequest (msg : string)
| Unauthorized (msg : string)
| Forbidden (msg : string)
| NotFound (msg : string)
| Conflict (msg : string)
| DatabaseError (msg : string).
Arguments OK {A} result.
Arguments BindError {A}.
Arguments BadRequest {A} msg.
Arguments Unauthorized {A} msg.
Arguments Forbidden {A} msg.
Arguments NotFound {A} msg.
Arguments Conflict {A} msg.
Arguments DatabaseError {A} msg.

(** ** [strings.TrimSpace]

    A Go string is a sequence of bytes, read as UTF-8.  [strings.TrimSpace]
    cuts the white space of Unicode from both ends: the ASCII characters
    tab, line feed, vertical tab, form feed, carriage return and space,
    and the characters U+0085, U+00A0, U+1680, U+2000 to U+200A, U+2028,
    U+2029, U+202F, U+205F and U+3000, which take two or three bytes. *)

Definition isSpace (c : ascii) : bool :=
  let n := nat_of_ascii c in
  Nat.eqb n 9 || Nat.eqb n 10 || Nat.eqb n 11 || Nat.eqb n 12
  || Nat.eqb n 13 || Nat.eqb n 32.

(** U+0085 is C2 85 and U+00A0 is C2 A0. *)
Definition isSpace2 (c1 c2 : ascii) : bool :=
  let n1 := nat_of_ascii c1 in
  let n2 := nat_of_ascii c2 in
  Nat.eqb n1 194 && (Nat.eqb n2 133 || Nat.eqb n2 160).

(** U+1680 is E1 9A 80; U+2000 to U+200A are E2 80 80 to E2 80 8A; U+2028,
    U+2029 and U+202F are E2 80 A8, E2 80 A9 and E2 80 AF; U+205F is
    E2 81 9F; U+3000 is E3 80 80. *)
Definition isSpace3 (c1 c2 c3 : ascii) : bool :=
  let n1 := nat_of_ascii c1 in
  let n2 := nat_of_ascii c2 in
  let n3 := nat_of_ascii c3 in
  (Nat.eqb n1 225 && Nat.eqb n2 154 && Nat.eqb n3 128)
  || (Nat.eqb n1 226 && Nat.eqb n2 128
      && ((Nat.leb 128 n3 && Nat.leb n3 138)
          || Nat.eqb n3 168 || Nat.eqb n3 169 || Nat.eqb n3 175))
  || (Nat.eqb n1 226 && Nat.eqb n2 129 && Nat.eqb n3 159)
  || (Nat.eqb n1 227 && Nat.eqb n2 128 && Nat.eqb n3 128).

Fixpoint trimLeft (s : string) : string :=
  match s with
  | EmptyString => EmptyString
  | String c rest =>
      if isSpace c then trimLeft rest
      else
        match rest with
        | EmptyString => s
        | String c2 rest2 =>
            if isSpace2 c c2 then trimLeft rest2
            else
              match rest2 with
              | EmptyString => s
              | String c3 rest3 =>
                  if isSpace3 c c2 c3 then trimLeft rest3 else s
              end
        end
  end.

(** The same from the other end, on the bytes in reverse order. *)
Fixpoint trimLeftRev (l : list ascii) : list ascii :=
  match l with
  | [] => []
  | c :: rest =>
      if isSpace c then trimLeftRev rest
      else
        match rest with
        | [] => l
        | c2 :: rest2 =>
            if isSpace2 c2 c then trimLeftRev rest2
            else
              match rest2 with
              | [] => l
              | c3 :: rest3 =>
                  if isSpace3 c3 c2 c then trimLeftRev rest3 else l
              end
        end
  end.

Definition trimRight (s : string) : string :=
  string_of_list_ascii (rev (trimLeftRev (rev (list_ascii_of_string s)))).

Definition TrimSpace (s : string) : string := trimRight (trimLeft s).

(** ** The ambient request context

    [acting] is [coremod.GetActingContext(ctx)]: [None] when there is no acting
    context, otherwise its [IsPlatformDomain()] flag.  [ctxUserID] is
    [core.GetUserID(ctx)] and [ctxDomainID] the raw string of
    [core.GetDomainID(ctx)]. *)
Record Context : Type := {
  acting : option bool;
  ctxUserID : option UUID;
  ctxDomainID : option string
}.

(** [uuid.Parse] belongs to [github.com/google/uuid]; the services only need
    that it maps a text to an identifier or fails. *)
Class UUIDText : Type := {
  uuid_Parse : string -> option UUID
}.

(** * Package [organization] (ou/organization/service.go) *)

Module organization.

(** Rows of [ent.Organization] and [ent.OrganizationMember], with the fields
    the service reads and writes. *)
Record Organization : Type := {
  oID : UUID;
  oDomainID : UUID;
  oParentID : option UUID;
  oCode : string;
  oName : string;
  oPath : string
}.

Record OrganizationMember : Type := {
  mID : UUID;
  mDomainID : UUID;
  mOrganizationID : UUID;
  mUserID : UUID;
  mIsPrimary : bool
}.

(** The two tables behind [s.client]. *)
Record Store : Type := {
  organizations : list Organization;
  members : list OrganizationMember
}.

Definition emptyStore : Store := {| organizations := []; members := [] |}.

(** The uniqueness constraints of the two tables are declared by the Ent
    schema of [leeforge/core]; the service only sees [Save] fail with a
    constraint error.  [organization_conflict rows r] says that inserting
    [r] next to [rows] violates a constraint, and likewise for members. *)
Class Schema : Type := {
  organization_conflict : list Organization -> Organization -> bool;
  member_conflict : list OrganizationMember -> OrganizationMember -> bool
}.

(** ou/organization/dto.go *)
Record CreateOrganizationRequest : Type := {
  reqCode : string;
  reqName : string;
  reqParentID : option UUID
}.

Record AddOrganizationMemberRequest : Type := {
  reqUserID : UUID;
  reqIsPrimary : bool
}.

Record OrganizationResponse : Type := {
  respID : UUID;
  respDomainID : UUID;
  respParentID : option UUID;
  respCode : string;
  respName : string;
  respPath : string
}.

Record OrganizationMemberResponse : Type := {
  mrespID : UUID;
  mrespOrganizationID : UUID;
  mrespUserID : UUID;
  mrespIsPrimary : bool
}.

(** A node of the tree.  [Children] is a slice of pointers to nodes; every
    node [GetOrganizationTree] makes is the value of one entry of its map
    [nodes], and a pointer to it is written as the key of that entry. *)
Record OrganizationTreeNode : Type := {
  nodeID : UUID;
  nodeDomainID : UUID;
  nodeParentID : option UUID;
  nodeCode : string;
  nodeName : string;
  nodePath : string;
  Children : list UUID
}.

(** The map [nodes]: its entries, the one written last first.  A lookup
    finds the entry written last for the key. *)
Definition NodeMap : Type := list (UUID * OrganizationTreeNode).

Definition nodes_get (nodes : NodeMap) (id : UUID) : option OrganizationTreeNode :=
  option_map snd (find (fun e => uuid_eqb (fst e) id) nodes).

Definition nodes_set (nodes : NodeMap) (id : UUID) (n : OrganizationTreeNode)
  : NodeMap :=
  (id, n) :: nodes.

Section Service.
Context {codec : UUIDText} {schema : Schema}.

Definition domainIDFromContext (ctx : Context) : Result UUID :=
  match ctxDomainID ctx with
  | None => Err ErrDomainContextMissing
  | Some rawDomainID =>
      match uuid_Parse rawDomainID with
      | None => Err ErrInvalidDomainID
      | Some domainID => Ok domainID
      end
  end.

Definition toOrganizationResponse (item : Organization) : OrganizationResponse :=
  {| respID := oID item;
     respDomainID := oDomainID item;
     respParentID := oParentID item;
     respCode := oCode item;
     respName := oName item;
     respPath := oPath item |}.

(** The query [IDEQ(id), DomainIDEQ(domainID)] on organizations. *)
Definition organizationInDomain (id domainID : UUID) (o : Organization) : bool :=
  uuid_eqb (oID o) id && uuid_eqb (oDomainID o) domainID.

(** [create.Save]: the row is appended unless the store refuses it. *)
Definition Organization_Save (st : Store) (item : Organization)
  : Store * Result Organization :=
  if organization_conflict (organizations st) item
  then (st, Err EntConstraint)
  else ({| organizations := organizations st ++ [item]; members := members st |},
        Ok item).

Definition CreateOrganization (newID : UUID) (ctx : Context)
    (req : option CreateOrganizationRequest) (st : Store)
  : Store * Result OrganizationResponse :=
  match req with
  | None => (st, Err (ErrNew "ou organization: request is nil"))
  | Some req =>
    match domainIDFromContext ctx with
    | Err e => (st, Err e)
    | Ok domainID =>
      let code := TrimSpace (reqCode req) in
      let name := TrimSpace (reqName req) in
      if String.eqb code "" || String.eqb name ""
      then (st, Err (ErrNew "ou organization: code and name are required"))
      else
        (* parent lookup: the parent id to set and the path prefix *)
        let lookup : Result (option UUID * string) :=
          match reqParentID req with
          | None => Ok (None, "")
          | Some parentID =>
              match Only (filter (organizationInDomain parentID domainID)
                                 (organizations st)) with
              | Err e =>
                  if IsNotFound e then Err ErrOrganizationNotFound else Err e
              | Ok parent => Ok (Some (oID parent), oPath parent)
              end
          end in
        match lookup with
        | Err e => (st, Err e)
        | Ok (parentID, pathPrefix) =>
            let path :=
              if negb (String.eqb pathPrefix "")
              then String.append (String.append pathPrefix "/") code
              else code in
            let row := {| oID := newID; oDomainID := domainID;
                          oParentID := parentID; oCode := code;
                          oName := name; oPath := path |} in
            match Organization_Save st row with
            | (st', Err e) => (st', Err e)
            | (st', Ok item) => (st', Ok (toOrganizationResponse item))
            end
        end
    end
  end.

(** The bulk update [DomainIDEQ, UserIDEQ, IsPrimaryEQ(true)] of
    [AddOrganizationMember]. *)
Definition primaryOf (domainID userID : UUID) (m : OrganizationMember) : bool :=
  uuid_eqb (mDomainID m) domainID && uuid_eqb (mUserID m) userID && mIsPrimary m.

Definition SetIsPrimary (b : bool) (m : OrganizationMember) : OrganizationMember :=
  {| mID := mID m; mDomainID := mDomainID m;
     mOrganizationID := mOrganizationID m; mUserID := mUserID m;
     mIsPrimary := b |}.

Definition AddOrganizationMember (newID : UUID) (ctx : Context)
    (organizationID : UUID) (req : option AddOrganizationMemberRequest)
    (st : Store)
  : Store * Result OrganizationMemberResponse :=
  match req with
  | None => (st, Err (ErrNew "ou organization: request is nil"))
  | Some req =>
    match domainIDFromContext ctx with
    | Err e => (st, Err e)
    | Ok domainID =>
      if uuid_eqb (reqUserID req) uuid_Nil
      then (st, Err (ErrNew "ou organization: user id is required"))
      else
        match Only (filter (organizationInDomain organizationID domainID)
                           (organizations st)) with
        | Err e =>
            (st, if IsNotFound e then Err ErrOrganizationNotFound else Err e)
        | Ok _ =>
            (* demote the existing primary rows of the user in the domain *)
            let demoted :=
              if reqIsPrimary req
              then updateWhere (primaryOf domainID (reqUserID req))
                               (SetIsPrimary false) (members st)
              else members st in
            let row := {| mID := newID; mDomainID := domainID;
                          mOrganizationID := organizationID;
                          mUserID := reqUserID req;
                          mIsPrimary := reqIsPrimary req |} in
            if member_conflict demoted row
            then ({| organizations := organizations st; members := demoted |},
                  Err ErrMemberAlreadyExists)
            else ({| organizations := organizations st;
                     members := demoted ++ [row] |},
                  Ok {| mrespID := mID row;
                        mrespOrganizationID := mOrganizationID row;
                        mrespUserID := mUserID row;
                        mrespIsPrimary := mIsPrimary row |})
        end
    end
  end.

Definition GetPrimaryOrganizationID (st : Store) (domainID userID : UUID)
  : Result UUID :=
  match Only (filter (primaryOf domainID userID) (members st)) with
  | Ok primary => Ok (mOrganizationID primary)
  | Err e =>
      if negb (IsNotFound e) then Err e
      else
        anyMember <- First (filter (fun m => uuid_eqb (mDomainID m) domainID
                                            && uuid_eqb (mUserID m) userID)
                                   (members st)) ;;
        Ok (mOrganizationID anyMember)
  end.

(** [uniqueUserIDs]: the loop over the members with its [seen] set and the
    [userIDs] slice it appends to. *)
Fixpoint uniqueUserIDs_loop (items : list OrganizationMember)
    (seen : list UUID) (userIDs : list UUID) : list UUID :=
  match items with
  | [] => userIDs
  | item :: rest =>
      if existsb (uuid_eqb (mUserID item)) seen
      then uniqueUserIDs_loop rest seen userIDs
      else uniqueUserIDs_loop rest (mUserID item :: seen)
                              (userIDs ++ [mUserID item])
  end.

Definition uniqueUserIDs (items : list OrganizationMember) : list UUID :=
  match items with
  | [] => []
  | _ => uniqueUserIDs_loop items [] []
  end.

(** [queryFails]: the query on the members fails; its error is returned as
    it is. *)
Definition ListOrganizationUserIDs (queryFails : bool) (st : Store)
    (domainID orgID : UUID) : Result (list UUID) :=
  if queryFails then Err EntFault
  else
    Ok (uniqueUserIDs
          (filter (fun m => uuid_eqb (mDomainID m) domainID
                            && uuid_eqb (mOrganizationID m) orgID)
                  (members st))).

(** [organizationEnt.PathHasPrefix(p)]: the stored path starts with [p]. *)
Definition PathHasPrefix (p : string) (o : Organization) : bool :=
  String.prefix p (oPath o).

Definition ListSubtreeUserIDs (st : Store) (domainID orgID : UUID)
  : Result (list UUID) :=
  match Only (filter (organizationInDomain orgID domainID)
                     (organizations st)) with
  | Err e => if IsNotFound e then Err ErrOrganizationNotFound else Err e
  | Ok org =>
      let nodes :=
        filter (fun o => uuid_eqb (oDomainID o) domainID
                         && PathHasPrefix (oPath org) o)
               (organizations st) in
      match nodes with
      | [] => Ok []
      | _ =>
          let orgIDs := map oID nodes in
          let found :=
            filter (fun m => uuid_eqb (mDomainID m) domainID
                             && existsb (uuid_eqb (mOrganizationID m)) orgIDs)
                   (members st) in
          Ok (uniqueUserIDs found)
      end
  end.

(** [Order(ent.Asc(organizationEnt.FieldPath))]: by path, byte by byte. *)
Definition byPath (a b : Organization) : bool :=
  String.leb (oPath a) (oPath b).

(** The organizations [GetOrganizationTree] reads. *)
Definition organizationsOf (st : Store) (domainID : UUID) : list Organization :=
  OrderBy byPath
    (filter (fun o => uuid_eqb (oDomainID o) domainID) (organizations st)).

Definition newTreeNode (item : Organization) : OrganizationTreeNode :=
  {| nodeID := oID item; nodeDomainID := oDomainID item;
     nodeParentID := oParentID item; nodeCode := oCode item;
     nodeName := oName item; nodePath := oPath item; Children := [] |}.

(** [parent.Children = append(parent.Children, node)] *)
Definition appendChild (parent : OrganizationTreeNode) (node : UUID)
  : OrganizationTreeNode :=
  {| nodeID := nodeID parent; nodeDomainID := nodeDomainID parent;
     nodeParentID := nodeParentID parent; nodeCode := nodeCode parent;
     nodeName := nodeName parent; nodePath := nodePath parent;
     Children := Children parent ++ [node] |}.

(** The body of the first loop: [nodes[item.ID] = &OrganizationTreeNode{...}]. *)
Definition addNode (nodes : NodeMap) (item : Organization) : NodeMap :=
  nodes_set nodes (oID item) (newTreeNode item).

(** The body of the second loop, on the map and the slice [roots].  The
    pointer [node := nodes[item.ID]] is the key [item.ID]. *)
Definition linkNode (state : NodeMap * list UUID) (item : Organization)
  : NodeMap * list UUID :=
  let nodes := fst state in
  let roots := snd state in
  let node := oID item in
  match oParentID item with
  | None => (nodes, roots ++ [node])
  | Some parentID =>
      match nodes_get nodes parentID with
      | None => (nodes, roots ++ [node])
      | Some parent =>
          (nodes_set nodes parentID (appendChild parent node), roots)
      end
  end.

(** [GetOrganizationTree]: the slice [roots] of pointers, and the nodes the
    pointers lead to. *)
Definition GetOrganizationTree (ctx : Context) (st : Store)
  : Result (list UUID * NodeMap) :=
  domainID <- domainIDFromContext ctx ;;
  let orgs := organizationsOf st domainID in
  let nodes := fold_left addNode orgs [] in
  let linked := fold_left linkNode orgs (nodes, []) in
  Ok (snd linked, fst linked).

End Service.

(** ** Vocabulary of the specification *)

(** The number of primary rows of a user in a domain. *)
Definition primaryCount (domainID userID : UUID) (st : Store) : nat :=
  List.length (filter (primaryOf domainID userID) (members st)).

(** Every (domain, user) pair has at most one primary row. *)
Definition primaryUnique (st : Store) : Prop :=
  forall d u, primaryCount d u st <= 1.

(** Every stored path is non-empty. *)
Definition pathsNonEmpty (st : Store) : Prop :=
  forall o, In o (organizations st) -> oPath o <> "".

(** The path of every node with a parent extends the path of a node with
    the parent's id in the same domain, as [CreateOrganization] builds
    it. *)
Definition pathsFollowParents (st : Store) : Prop :=
  forall o p,
    In o (organizations st) -> oParentID o = Some p ->
    exists parent,
      In parent (organizations st) /\ oID parent = p
      /\ oDomainID parent = oDomainID o
      /\ oPath o = String.append (String.append (oPath parent) "/") (oCode o).

(** [descendantOrSelf fuel rows root n]: following the parent references
    from [n] reaches the node [root] in at most [fuel] steps. *)
Fixpoint descendantOrSelf (fuel : nat) (rows : list Organization)
    (root : UUID) (n : Organization) : bool :=
  uuid_eqb (oID n) root ||
  match fuel with
  | 0 => false
  | S fuel' =>
      match oParentID n with
      | None => false
      | Some p =>
          existsb (fun o => uuid_eqb (oID o) p
                            && descendantOrSelf fuel' rows root o) rows
      end
  end.

(** The user ids assigned in [domainID] to the node [root] or to one of its
    descendants. *)
Definition subtreeUser (st : Store) (domainID root userID : UUID) : bool :=
  existsb
    (fun m =>
       uuid_eqb (mDomainID m) domainID && uuid_eqb (mUserID m) userID
       && existsb (fun o => uuid_eqb (oID o) (mOrganizationID m)
                            && uuid_eqb (oDomainID o) domainID
                            && descendantOrSelf (List.length (organizations st))
                                 (organizations st) root o)
                  (organizations st))
    (members st).

(** The calls of the package that change the store, for runs of calls. *)
Inductive Call : Type :=
| CallCreateOrganization (newID : UUID) (ctx : Context)
    (req : option CreateOrganizationRequest)
| CallAddOrganizationMember (newID : UUID) (ctx : Context)
    (organizationID : UUID) (req : option AddOrganizationMemberRequest).

Definition step `{UUIDText} `{Schema} (st : Store) (c : Call) : Store :=
  match c with
  | CallCreateOrganization newID ctx req =>
      fst (CreateOrganization newID ctx req st)
  | CallAddOrganizationMember newID ctx organizationID req =>
      fst (AddOrganizationMember newID ctx organizationID req st)
  end.

Definition run `{UUIDText} `{Schema} (st : Store) (calls : list Call) : Store :=
  fold_left step calls st.

(** A node is a root of the tree of [orgs] when it names no parent or
    names one that is not among [orgs]. *)
Definition isRootIn (orgs : list Organization) (o : Organization) : bool :=
  match oParentID o with
  | None => true
  | Some p => negb (existsb (fun x => uuid_eqb (oID x) p) orgs)
  end.

Definition childOf (parent : UUID) (o : Organization) : bool :=
  match oParentID o with
  | None => false
  | Some p => uuid_eqb p parent
  end.

(** The node [n] with the pointers [more] after its children. *)
Definition addChildren (n : OrganizationTreeNode) (more : list UUID)
  : OrganizationTreeNode :=
  {| nodeID := nodeID n; nodeDomainID := nodeDomainID n;
     nodeParentID := nodeParentID n; nodeCode := nodeCode n;
     nodeName := nodeName n; nodePath := nodePath n;
     Children := Children n ++ more |}.

(** The state of the second loop of [GetOrganizationTree] once it has gone
    through the organizations [done] of [orgs]: the roots found so far, and
    behind every key the node of the first loop with the children found so
    far. *)
Definition linked (orgs done : list Organization)
    (state : NodeMap * list UUID) : Prop :=
  snd state = map oID (filter (isRootIn orgs) done)
  /\ forall id,
       nodes_get (fst state) id
       = option_map
           (fun n => addChildren n (map oID (filter (childOf id) done)))
           (nodes_get (fold_left addNode orgs []) id).

(** ** Failures of the store

    [AddOrganizationMember] above is the run in which the store answers
    every query and write (it may still refuse the row).  Here is the same
    function with the failures of the store as an input: each flag makes
    one call of the client fail for a reason that is neither a missing row
    nor a constraint, and the error of the client is returned as it is.  A
    write that fails changes nothing; a write that went through before the
    failure stays. *)
Module WithFaults.

Record StoreFaults : Type := {
  organizationQueryFails : bool;  (* Organization.Query()...Only(ctx) *)
  demoteFails : bool;             (* OrganizationMember.Update()...Exec(ctx) *)
  memberSaveFails : bool          (* OrganizationMember.Create()...Save(ctx) *)
}.

Definition noStoreFaults : StoreFaults :=
  {| organizationQueryFails := false; demoteFails := false;
     memberSaveFails := false |}.

Section Service.
Context {codec : UUIDText} {schema : Schema}.

Definition AddOrganizationMember (f : StoreFaults) (newID : UUID)
    (ctx : Context)
    (organizationID : UUID) (req : option AddOrganizationMemberRequest)
    (st : Store)
  : Store * Result OrganizationMemberResponse :=
  match req with
  | None => (st, Err (ErrNew "ou organization: request is nil"))
  | Some req =>
    match domainIDFromContext ctx with
    | Err e => (st, Err e)
    | Ok domainID =>
      if uuid_eqb (reqUserID req) uuid_Nil
      then (st, Err (ErrNew "ou organization: user id is required"))
      else
        match (if organizationQueryFails f then Err EntFault
               else Only (filter (organizationInDomain organizationID domainID)
                                 (organizations st))) with
        | Err e =>
            (st, if IsNotFound e then Err ErrOrganizationNotFound else Err e)
        | Ok _ =>
            if reqIsPrimary req && demoteFails f then (st, Err EntFault)
            else
              (* demote the existing primary rows of the user in the domain *)
              let demoted :=
                if reqIsPrimary req
                then updateWhere (primaryOf domainID (reqUserID req))
                                 (SetIsPrimary false) (members st)
                else members st in
              let row := {| mID := newID; mDomainID := domainID;
                            mOrganizationID := organizationID;
                            mUserID := reqUserID req;
                            mIsPrimary := reqIsPrimary req |} in
              if member_conflict demoted row
              then ({| organizations := organizations st; members := demoted |},
                    Err ErrMemberAlreadyExists)
              else if memberSaveFails f
              then ({| organizations := organizations st; members := demoted |},
                    Err EntFault)
              else ({| organizations := organizations st;
                       members := demoted ++ [row] |},
                    Ok {| mrespID := mID row;
                          mrespOrganizationID := mOrganizationID row;
                          mrespUserID := mUserID row;
                          mrespIsPrimary := mIsPrimary row |})
        end
    end
  end.

End Service.
End WithFaults.

(** ** The HTTP handlers (ou/organization/handler.go)

    A handler reads the request (the URL parameter [id] as a text, the body
    as the value the JSON decoder yields, [None] when it fails), calls the
    service and writes one response. *)
Module Handler.
Section Handler.
Context {codec : UUIDText} {schema : Schema}.

Definition mapServiceError {A} (err : Error) : Response A :=
  if errors_Is err ErrDomainContextMissing
  then BadRequest "Missing domain context"
  else if errors_Is err ErrInvalidDomainID
  then BadRequest "Invalid domain context"
  else if errors_Is err ErrOrganizationNotFound
  then NotFound "Organization not found"
  else if errors_Is err ErrMemberAlreadyExists
  then Conflict "Organization member already exists"
  else DatabaseError "OU organization operation failed".

Definition CreateOrganization (newID : UUID) (ctx : Context)
    (body : option CreateOrganizationRequest) (st : Store)
  : Store * Response OrganizationResponse :=
  match body with
  | None => (st, BindError)
  | Some req =>
      match organization.CreateOrganization newID ctx (Some req) st with
      | (st', Err err) => (st', mapServiceError err)
      | (st', Ok result) => (st', OK result)
      end
  end.

Definition GetOrganizationTree (ctx : Context) (st : Store)
  : Response (list UUID * NodeMap) :=
  match organization.GetOrganizationTree ctx st with
  | Err err => mapServiceError err
  | Ok result => OK result
  end.

Definition AddOrganizationMember (f : WithFaults.StoreFaults) (newID : UUID)
    (ctx : Context) (id : string)
    (body : option AddOrganizationMemberRequest) (st : Store)
  : Store * Response OrganizationMemberResponse :=
  match uuid_Parse id with
  | None => (st, BadRequest "Invalid organization ID")
  | Some organizationID =>
      match body with
      | None => (st, BindError)
      | Some req =>
          match WithFaults.AddOrganizationMember f newID ctx organizationID
                  (Some req) st with
          | (st', Err err) => (st', mapServiceError err)
          | (st', Ok result) => (st', OK result)
          end
      end
  end.

End Handler.
End Handler.

End organization.

(** * Package [tenant] (tenant/tenant/service.go) *)

Module tenant.

(** ** Rows of the Ent client *)

(** [tenantuser.StatusActive]; the status is an enumerated string. *)
Definition StatusActive : string := "active".

(** Modelled from the spec: the column defaults, declared by the schema of
    [leeforge/core], that a builder falls back to when the field is not set
    (tenant status "active", membership role "member"). *)
Definition DefaultTenantStatus : string := "active".
Definition DefaultRole : string := "member".

(** A tenant row.  The row of the store also has the columns [created_at]
    and [updated_at], which the store fills in; they are left out, and so
    nothing below speaks about the time stamps of a row or of a response. *)
Record Tenant : Type := {
  tID : UUID;
  tCode : string;
  tName : string;
  tDescription : string;
  tStatus : string;
  tOwnerID : UUID;
  tParentTenantID : option UUID;
  tDeletedAt : option Time
}.

Record TenantUser : Type := {
  tuID : UUID;
  tuTenantID : UUID;
  tuUserID : UUID;
  tuRole : string;
  tuIsDefault : bool;
  tuStatus : string;
  tuDeletedAt : option Time;
  tuCreatedAt : Time
}.

(** A row of [ent.User], as the user lookup and the [WithUser] edge read it. *)
Record User : Type := {
  uID : UUID;
  uUsername : string;
  uEmail : string;
  uNickname : string;
  uStatus : string
}.

Record Role : Type := {
  rOwnerDomainID : UUID;
  rName : string;
  rCode : string;
  rIsSystem : bool;
  rPermissions : list string
}.

(** [DeletedAtIsNil()] and [DeletedAt.IsZero()]: a null column reads as the
    zero instant, and [time.Now()] is never the zero instant. *)
Definition IsZero (d : option Time) : bool :=
  match d with None => true | Some _ => false end.

(** ** The domain service ([core.DomainWriter])

    The interface is implemented outside the repository; the methods the
    service calls are the fields of the class, over a state [D] of the
    implementation's own. *)
Record ResolvedDomain : Type := {
  DomainID : UUID;
  TypeCode : string;
  Key : string;
  DisplayName : string
}.

Class DomainWriter (D : Type) : Type := {
  ResolveDomain : D -> string -> string -> Result ResolvedDomain;
  EnsureDomain : D -> string -> string -> string -> D * Result ResolvedDomain;
  CheckMembership : D -> UUID -> UUID -> Result bool;
  AddMembership : D -> UUID -> UUID -> string -> bool -> D * Result unit;
  RemoveMembership : D -> UUID -> UUID -> D * Result unit
}.

(** Everything the service can reach: the tables of [s.client] and the
    state of the domain service. *)
Record World (D : Type) : Type := {
  tenants : list Tenant;
  tenantUsers : list TenantUser;
  users : list User;
  roles : list Role;
  domains : D
}.

(** ** Requests and responses (tenant/tenant/dto.go) *)

Record CreateRequest : Type := {
  crCode : string;
  crName : string;
  crDescription : string;
  crStatus : string;
  crParentTenantID : string
}.

Record UpdateRequest : Type := {
  urName : string;
  urDescription : string;
  urStatus : string;
  urParentTenantID : string
}.

Record AddMemberRequest : Type := {
  amUserID : string;
  amRole : string
}.

(** [TenantDTO], without [CreatedAt] and [UpdatedAt] (see [Tenant]). *)
Record TenantDTO : Type := {
  dtoID : UUID;
  dtoCode : string;
  dtoName : string;
  dtoDescription : string;
  dtoStatus : string;
  dtoOwnerID : option UUID;
  dtoParentTenantID : option UUID;
  dtoDomainID : UUID
}.

Record ListFilters : Type := {
  lfPage : Z;
  lfPageSize : Z;
  lfQuery : string;
  lfStatus : string;
  lfIncludeDeleted : bool
}.

Record ListResult : Type := {
  Tenants : list TenantDTO;
  lrTotal : Z;
  lrPage : Z;
  lrPageSize : Z;
  lrTotalPages : Z
}.

Record MemberDTO : Type := {
  mdID : UUID;
  mdUsername : string;
  mdEmail : string;
  mdNickname : string;
  mdStatus : string;
  mdRole : string;
  mdIsDefault : bool
}.

Record MemberListResult : Type := {
  Members : list MemberDTO;
  mlTotal : Z;
  mlPage : Z;
  mlPageSize : Z;
  mlTotalPages : Z
}.

Record MyTenantDTO : Type := {
  mtID : UUID;
  mtCode : string;
  mtName : string;
  mtStatus : string;
  mtRole : string;
  mtIsDefault : bool
}.

(** tenant/shared/ports.go *)
Record UserInfo : Type := {
  uiID : UUID;
  uiUsername : string;
  uiEmail : string;
  uiNickname : string;
  uiStatus : string
}.

(** Storage failures that do not depend on the data (a lost connection, a
    failed commit) are inputs of [CreateTenant]: one flag per step that talks
    to the store.  The other operations are modelled on a store whose
    queries and writes go through; [WithFaults] below has [DeleteTenant] and
    [RemoveMember] with the failures of the store. *)
Record Faults : Type := {
  txBeginFails : bool;
  parentQueryFails : bool;
  tenantSaveFails : bool;
  seedFailsAt : option nat;
  ownerRowFails : bool;
  commitFails : bool
}.

Definition noFaults : Faults :=
  {| txBeginFails := false; parentQueryFails := false;
     tenantSaveFails := false; seedFailsAt := None;
     ownerRowFails := false; commitFails := false |}.

(** ** tenant/factory/ent_factory.go *)

(** [entRoleSeeder.SeedBaselineRoles]: the loop over the baseline roles.
    [failAt = Some i] makes the store fail at the [i]-th role. *)
Definition baseline : list (string * string) :=
  [("Owner", "owner"); ("Member", "member")].

Fixpoint SeedBaselineRoles_loop (failAt : option nat) (i : nat)
    (specs : list (string * string)) (rs : list Role) (domainID : UUID)
  : list Role * Result unit :=
  match specs with
  | [] => (rs, Ok tt)
  | (name, code) :: rest =>
      if match failAt with Some k => Nat.eqb k i | None => false end
      then (rs, Err EntFault)
      else
        let exists_ :=
          existsb (fun r => uuid_eqb (rOwnerDomainID r) domainID
                            && String.eqb (rCode r) code) rs in
        if exists_
        then SeedBaselineRoles_loop failAt (S i) rest rs domainID
        else SeedBaselineRoles_loop failAt (S i) rest
               (rs ++ [{| rOwnerDomainID := domainID; rName := name;
                          rCode := code; rIsSystem := true;
                          rPermissions := [] |}])
               domainID
  end.

Definition SeedBaselineRoles (failAt : option nat) (rs : list Role)
    (domainID : UUID) : list Role * Result unit :=
  SeedBaselineRoles_loop failAt 0 baseline rs domainID.

(** [entUserLookup.GetUser] *)
Definition GetUser (us : list User) (userID : UUID) : Result UserInfo :=
  u <- Only (filter (fun u => uuid_eqb (uID u) userID) us) ;;
  Ok {| uiID := uID u; uiUsername := uUsername u; uiEmail := uEmail u;
        uiNickname := uNickname u; uiStatus := uStatus u |}.

(** ** Setters of the update builders *)

Definition SetDeletedAt (d : option Time) (r : TenantUser) : TenantUser :=
  {| tuID := tuID r; tuTenantID := tuTenantID r; tuUserID := tuUserID r;
     tuRole := tuRole r; tuIsDefault := tuIsDefault r; tuStatus := tuStatus r;
     tuDeletedAt := d; tuCreatedAt := tuCreatedAt r |}.

Definition SetStatus (s : string) (r : TenantUser) : TenantUser :=
  {| tuID := tuID r; tuTenantID := tuTenantID r; tuUserID := tuUserID r;
     tuRole := tuRole r; tuIsDefault := tuIsDefault r; tuStatus := s;
     tuDeletedAt := tuDeletedAt r; tuCreatedAt := tuCreatedAt r |}.

Definition SetIsDefault (b : bool) (r : TenantUser) : TenantUser :=
  {| tuID := tuID r; tuTenantID := tuTenantID r; tuUserID := tuUserID r;
     tuRole := tuRole r; tuIsDefault := b; tuStatus := tuStatus r;
     tuDeletedAt := tuDeletedAt r; tuCreatedAt := tuCreatedAt r |}.

Definition SetRole (role : string) (r : TenantUser) : TenantUser :=
  {| tuID := tuID r; tuTenantID := tuTenantID r; tuUserID := tuUserID r;
     tuRole := role; tuIsDefault := tuIsDefault r; tuStatus := tuStatus r;
     tuDeletedAt := tuDeletedAt r; tuCreatedAt := tuCreatedAt r |}.

Definition SetTenantDeletedAt (d : option Time) (t : Tenant) : Tenant :=
  {| tID := tID t; tCode := tCode t; tName := tName t;
     tDescription := tDescription t; tStatus := tStatus t;
     tOwnerID := tOwnerID t; tParentTenantID := tParentTenantID t;
     tDeletedAt := d |}.

(** ** Queries on the membership table *)

(** [TenantIDEQ(tenantID), UserID(userID)] *)
Definition membershipOf (tenantID userID : UUID) (r : TenantUser) : bool :=
  uuid_eqb (tuTenantID r) tenantID && uuid_eqb (tuUserID r) userID.

(** [UserID(userID), IsDefault(true), DeletedAtIsNil()] *)
Definition defaultOf (userID : UUID) (r : TenantUser) : bool :=
  uuid_eqb (tuUserID r) userID && tuIsDefault r && IsZero (tuDeletedAt r).

(** [UserID(userID), DeletedAtIsNil(), StatusEQ(StatusActive)] *)
Definition activeOf (userID : UUID) (r : TenantUser) : bool :=
  uuid_eqb (tuUserID r) userID && IsZero (tuDeletedAt r)
  && String.eqb (tuStatus r) StatusActive.

(** [TenantIDEQ(tenantID), DeletedAtIsNil(), StatusEQ(StatusActive)] *)
Definition activeIn (tenantID : UUID) (r : TenantUser) : bool :=
  uuid_eqb (tuTenantID r) tenantID && IsZero (tuDeletedAt r)
  && String.eqb (tuStatus r) StatusActive.

(** [Order(Asc(created_at)).First]: the first row with the least creation
    time. *)
Fixpoint oldest_from (best : TenantUser) (rows : list TenantUser) : TenantUser :=
  match rows with
  | [] => best
  | r :: rest =>
      if Nat.ltb (tuCreatedAt r) (tuCreatedAt best)
      then oldest_from r rest
      else oldest_from best rest
  end.

Definition FirstOldest (rows : list TenantUser) : Result TenantUser :=
  match rows with
  | [] => Err EntNotFound
  | r :: rest => Ok (oldest_from r rest)
  end.

(** The membership row a fresh insert creates. *)
Definition newMembership (now : Time) (newID tenantID userID : UUID)
    (isDefault : bool) (roleName : string) : TenantUser :=
  {| tuID := newID; tuTenantID := tenantID; tuUserID := userID;
     tuRole := if negb (String.eqb roleName "") then roleName else DefaultRole;
     tuIsDefault := isDefault; tuStatus := StatusActive;
     tuDeletedAt := None; tuCreatedAt := now |}.

(** [ensureMembership] on the membership table. *)
Definition ensureMembership (now : Time) (newID : UUID)
    (rows : list TenantUser) (tenantID userID : UUID)
    (forceDefault : bool) (roleName : string) : Result (list TenantUser) :=
  match First (filter (membershipOf tenantID userID) rows) with
  | Ok existing =>
      if IsZero (tuDeletedAt existing)
         && String.eqb (tuStatus existing) StatusActive
      then Ok rows
      else Ok (updateWhere (fun r => uuid_eqb (tuID r) (tuID existing))
                 (fun r => SetStatus StatusActive (SetDeletedAt None r)) rows)
  | Err e =>
      if negb (IsNotFound e) then Err (Wrap "query membership" e)
      else
        let isDefault :=
          if negb forceDefault
          then negb (existsb (defaultOf userID) rows)
          else forceDefault in
        Ok (rows ++ [newMembership now newID tenantID userID isDefault roleName])
  end.

(** [ensureMembershipTx] on the membership table as the transaction sees
    it; [fault] makes its first query fail. *)
Definition ensureMembershipTx (fault : bool) (now : Time) (newID : UUID)
    (rows : list TenantUser) (tenantID userID : UUID)
    (forceDefault : bool) (roleName : string) : Result (list TenantUser) :=
  match (if fault then Err EntFault
         else First (filter (membershipOf tenantID userID) rows)) with
  | Ok existing =>
      Ok (updateWhere (fun r => uuid_eqb (tuID r) (tuID existing))
            (fun r =>
               let r1 := SetStatus StatusActive (SetDeletedAt None r) in
               let r2 := if forceDefault then SetIsDefault true r1 else r1 in
               if negb (String.eqb roleName "") then SetRole roleName r2 else r2)
            rows)
  | Err e =>
      if negb (IsNotFound e) then Err (Wrap "query membership" e)
      else
        let isDefault :=
          if negb forceDefault
          then negb (existsb (defaultOf userID) rows)
          else forceDefault in
        Ok (rows ++ [newMembership now newID tenantID userID isDefault roleName])
  end.

(** The flag of a freshly inserted row, as both variants compute it. *)
Definition freshDefault (rows : list TenantUser) (userID : UUID)
    (forceDefault : bool) : bool :=
  forceDefault || negb (existsb (defaultOf userID) rows).

Section Service.
Context {codec : UUIDText} {D : Type} {domainSvc : DomainWriter D}.

Definition withDomains (w : World D) (d : D) : World D :=
  {| tenants := tenants w; tenantUsers := tenantUsers w; users := users w;
     roles := roles w; domains := d |}.

Definition withTenantUsers (w : World D) (rows : list TenantUser) : World D :=
  {| tenants := tenants w; tenantUsers := rows; users := users w;
     roles := roles w; domains := domains w |}.

Definition withTenants (w : World D) (rows : list Tenant) : World D :=
  {| tenants := rows; tenantUsers := tenantUsers w; users := users w;
     roles := roles w; domains := domains w |}.

Definition requirePlatformDomain (ctx : Context) : Result unit :=
  match acting ctx with
  | Some true => Ok tt
  | _ => Err ErrPlatformDomainOnly
  end.

(** [toDTO].  The two time stamps it copies from the row are left out with
    the columns. *)
Definition toDTO (t : Tenant) (domainID : UUID) : TenantDTO :=
  {| dtoID := tID t; dtoCode := tCode t; dtoName := tName t;
     dtoDescription := tDescription t; dtoStatus := tStatus t;
     dtoOwnerID :=
       if negb (uuid_eqb (tOwnerID t) uuid_Nil) then Some (tOwnerID t) else None;
     dtoParentTenantID :=
       match tParentTenantID t with
       | Some p => if negb (uuid_eqb p uuid_Nil) then Some p else None
       | None => None
       end;
     dtoDomainID := domainID |}.

Definition resolveDomainIDSafe (d : D) (tenantCode : string) : UUID :=
  match ResolveDomain d "tenant" tenantCode with
  | Err _ => uuid_Nil
  | Ok dom => DomainID dom
  end.

(** [s.client.Tenant.Get(ctx, id)]: the row with that id, whatever its
    deletion mark. *)
Definition Tenant_Get (rows : list Tenant) (id : UUID) : Result Tenant :=
  Only (filter (fun t => uuid_eqb (tID t) id) rows).

(** The prologue shared by the operations that load the tenant by id. *)
Definition getTenant (rows : list Tenant) (id : UUID) : Result Tenant :=
  match Tenant_Get rows id with
  | Err e =>
      if IsNotFound e then Err ErrTenantNotFound else Err (Wrap "get tenant" e)
  | Ok t => Ok t
  end.

(** [fault] makes the parent query fail for a reason other than a missing
    row. *)
Definition resolveParentTenantID (fault : bool) (rows : list Tenant)
    (parentRef : string) (selfID : UUID) : Result (UUID * bool) :=
  let parentRef := TrimSpace parentRef in
  if String.eqb parentRef "" then Ok (uuid_Nil, false)
  else
    let query :=
      if fault then Err EntFault
      else
        match uuid_Parse parentRef with
        | Some parentID =>
            Only (filter (fun t => uuid_eqb (tID t) parentID
                                   && IsZero (tDeletedAt t)) rows)
        | None =>
            Only (filter (fun t => String.eqb (tCode t) parentRef
                                   && IsZero (tDeletedAt t)) rows)
        end in
    match query with
    | Err e =>
        if IsNotFound e then Err ErrParentTenantInvalid
        else Err (Wrap "resolve parent tenant" e)
    | Ok parentEntity =>
        if negb (uuid_eqb selfID uuid_Nil) && uuid_eqb (tID parentEntity) selfID
        then Err ErrParentTenantInvalid
        else Ok (tID parentEntity, true)
    end.

(** Modelled from the spec: the uniqueness of the tenant code, declared by
    the schema of [leeforge/core].  This is [builder.Save] of a tenant
    inside the transaction: a constraint error when the code is taken,
    [fault] for any other storage failure, else the row is appended. *)
Definition Tenant_Save (fault : bool) (rows : list Tenant) (row : Tenant)
  : Result (list Tenant) :=
  if existsb (fun t => String.eqb (tCode t) (tCode row)) rows
  then Err EntConstraint
  else if fault then Err EntFault
  else Ok (rows ++ [row]).

(** [CreateTenant].  The transaction [tx] owns a working copy of the tenant
    and membership tables: [txTenants] and [txMembers] below.  A rollback
    drops the copy, the commit installs it.  The domain service and the
    role seeder are called with [ctx] only and write on their own. *)
Definition CreateTenant (f : Faults) (now : Time)
    (tenantRowID memberRowID : UUID) (ctx : Context) (req : CreateRequest)
    (w : World D) : World D * Result TenantDTO :=
  match requirePlatformDomain ctx with
  | Err e => (w, Err e)
  | Ok _ =>
    let code := TrimSpace (crCode req) in
    let name := TrimSpace (crName req) in
    if String.eqb code "" || String.eqb name "" then (w, Err ErrInvalidTenant)
    else if txBeginFails f then (w, Err (Wrap "start transaction" EntFault))
    else
      match resolveParentTenantID (parentQueryFails f) (tenants w)
              (crParentTenantID req) uuid_Nil with
      | Err e => (w, Err e)
      | Ok (parentTenantID, hasParent) =>
        let status := TrimSpace (crStatus req) in
        let owner :=
          match ctxUserID ctx with
          | Some id => (id, true)
          | None => (uuid_Nil, false)
          end in
        let ownerID := fst owner in
        let hasOwner := snd owner in
        let row :=
          {| tID := tenantRowID; tCode := code; tName := name;
             tDescription := crDescription req;
             tStatus :=
               if negb (String.eqb status "") then status
               else DefaultTenantStatus;
             tOwnerID := ownerID;
             tParentTenantID :=
               if hasParent then Some parentTenantID else None;
             tDeletedAt := None |} in
        match Tenant_Save (tenantSaveFails f) (tenants w) row with
        | Err e =>
            (w, Err (if IsConstraintError e then ErrTenantCodeExists
                     else Wrap "create tenant" e))
        | Ok txTenants =>
          match EnsureDomain (domains w) "tenant" code name with
          | (d1, Err e) => (withDomains w d1, Err (Wrap "ensure domain" e))
          | (d1, Ok dom) =>
            match SeedBaselineRoles (seedFailsAt f) (roles w) (DomainID dom) with
            | (roles1, Err e) =>
                ({| tenants := tenants w; tenantUsers := tenantUsers w;
                    users := users w; roles := roles1; domains := d1 |},
                 Err (Wrap "seed baseline roles" e))
            | (roles1, Ok _) =>
              (* what is written outside the transaction so far *)
              let outside (d : D) : World D :=
                {| tenants := tenants w; tenantUsers := tenantUsers w;
                   users := users w; roles := roles1; domains := d |} in
              let commit (d : D) (txMembers : list TenantUser) :=
                if commitFails f
                then (outside d, Err (Wrap "commit tenant creation" EntFault))
                else ({| tenants := txTenants; tenantUsers := txMembers;
                         users := users w; roles := roles1; domains := d |},
                      Ok (toDTO row (DomainID dom))) in
              if hasOwner then
                match AddMembership d1 (DomainID dom) ownerID
                        "tenant_admin" true with
                | (d2, Err e) =>
                    (outside d2, Err (Wrap "add owner membership to domain" e))
                | (d2, Ok _) =>
                    match ensureMembershipTx (ownerRowFails f) now memberRowID
                            (tenantUsers w) tenantRowID ownerID true
                            "tenant_admin" with
                    | Err e =>
                        (outside d2,
                         Err (Wrap "create owner tenant-user record" e))
                    | Ok txMembers => commit d2 txMembers
                    end
                end
              else commit d1 (tenantUsers w)
            end
          end
        end
      end
  end.

Definition GetTenantByCode (w : World D) (code : string) : Result TenantDTO :=
  match Only (filter (fun t => String.eqb (tCode t) code
                               && IsZero (tDeletedAt t)) (tenants w)) with
  | Err e =>
      if IsNotFound e then Err ErrTenantNotFound
      else Err (Wrap "get tenant by code" e)
  | Ok t => Ok (toDTO t (resolveDomainIDSafe (domains w) (tCode t)))
  end.

(** [updater.Save] of [UpdateTenant]: the supplied fields are written to
    the row with the tenant's id. *)
Definition applyUpdate (req : UpdateRequest) (parent : UUID * bool)
    (t : Tenant) : Tenant :=
  {| tID := tID t; tCode := tCode t;
     tName := if negb (String.eqb (urName req) "")
              then TrimSpace (urName req) else tName t;
     tDescription := if negb (String.eqb (urDescription req) "")
                     then urDescription req else tDescription t;
     tStatus := if negb (String.eqb (urStatus req) "")
                then urStatus req else tStatus t;
     tOwnerID := tOwnerID t;
     tParentTenantID := if snd parent then Some (fst parent)
                        else tParentTenantID t;
     tDeletedAt := tDeletedAt t |}.

Definition UpdateTenant (ctx : Context) (id : UUID) (req : UpdateRequest)
    (w : World D) : World D * Result TenantDTO :=
  match requirePlatformDomain ctx with
  | Err e => (w, Err e)
  | Ok _ =>
    match getTenant (tenants w) id with
    | Err e => (w, Err e)
    | Ok t =>
      match resolveParentTenantID false (tenants w) (urParentTenantID req) id with
      | Err e => (w, Err e)
      | Ok parent =>
          let t' := applyUpdate req parent t in
          let rows :=
            updateWhere (fun r => uuid_eqb (tID r) (tID t))
                        (applyUpdate req parent) (tenants w) in
          (withTenants w rows,
           Ok (toDTO t' (resolveDomainIDSafe (domains w) (tCode t'))))
      end
    end
  end.

Definition DeleteTenant (now : Time) (ctx : Context) (id : UUID) (w : World D)
  : World D * Result unit :=
  match requirePlatformDomain ctx with
  | Err e => (w, Err e)
  | Ok _ =>
    match getTenant (tenants w) id with
    | Err e => (w, Err e)
    | Ok _ =>
        (withTenants w
           (updateWhere (fun r => uuid_eqb (tID r) id)
                        (SetTenantDeletedAt (Some now)) (tenants w)),
         Ok tt)
    end
  end.

(** The conflict loop of [AddMember] over the active members of the tenant,
    each with its [Edges.User] ([None] when the user row is gone). *)
Definition withUser (us : list User) (m : TenantUser) : TenantUser * option User :=
  (m, find (fun u => uuid_eqb (uID u) (tuUserID m)) us).

Fixpoint conflictLoop (existingMembers : list (TenantUser * option User))
    (userID : UUID) (u : UserInfo) : bool :=
  match existingMembers with
  | [] => false
  | (m, edge) :: rest =>
      match edge with
      | None => conflictLoop rest userID u
      | Some mu =>
          if uuid_eqb (tuUserID m) userID then conflictLoop rest userID u
          else if String.eqb (uUsername mu) (uiUsername u)
                  || String.eqb (uEmail mu) (uiEmail u)
               then true
               else conflictLoop rest userID u
      end
  end.

Definition AddMember (now : Time) (newID : UUID) (ctx : Context)
    (tenantID userID : UUID) (role : string) (w : World D)
  : World D * Result unit :=
  match requirePlatformDomain ctx with
  | Err e => (w, Err e)
  | Ok _ =>
    match getTenant (tenants w) tenantID with
    | Err e => (w, Err e)
    | Ok t =>
      match GetUser (users w) userID with
      | Err e => (w, Err e)
      | Ok u =>
        let existingMembers :=
          map (withUser (users w))
              (filter (activeIn (tID t)) (tenantUsers w)) in
        if conflictLoop existingMembers userID u then (w, Err ErrMemberExists)
        else
          let role := if String.eqb role "" then "member" else role in
          let domainID := resolveDomainIDSafe (domains w) (tCode t) in
          let joined :=
            if negb (uuid_eqb domainID uuid_Nil)
            then AddMembership (domains w) domainID userID role false
            else (domains w, Ok tt) in
          match joined with
          | (d1, Err e) =>
              (withDomains w d1, Err (Wrap "add domain membership" e))
          | (d1, Ok _) =>
              match ensureMembership now newID (tenantUsers w) (tID t) userID
                      false role with
              | Err e => (withDomains w d1, Err (Wrap "ensure membership" e))
              | Ok rows => (withTenantUsers (withDomains w d1) rows, Ok tt)
              end
          end
      end
    end
  end.

Definition RemoveMember (now : Time) (ctx : Context) (tenantID userID : UUID)
    (w : World D) : World D * Result unit :=
  match requirePlatformDomain ctx with
  | Err e => (w, Err e)
  | Ok _ =>
    match getTenant (tenants w) tenantID with
    | Err e => (w, Err e)
    | Ok t =>
      match First (filter (fun r => membershipOf (tID t) userID r
                                    && IsZero (tuDeletedAt r))
                          (tenantUsers w)) with
      | Err e =>
          (w, if IsNotFound e then Err ErrMemberNotFound
              else Err (Wrap "get membership" e))
      | Ok membership =>
          let removed :=
            updateWhere (fun r => uuid_eqb (tuID r) (tuID membership))
                        (SetDeletedAt (Some now)) (tenantUsers w) in
          let domainID := resolveDomainIDSafe (domains w) (tCode t) in
          let d1 :=
            if negb (uuid_eqb domainID uuid_Nil)
            then fst (RemoveMembership (domains w) domainID userID)
            else domains w in
          let reassigned :=
            if tuIsDefault membership then
              match FirstOldest (filter (activeOf userID) removed) with
              | Ok alt =>
                  updateWhere (fun r => uuid_eqb (tuID r) (tuID alt))
                              (SetIsDefault true) removed
              | Err _ => removed
              end
            else removed in
          (withTenantUsers (withDomains w d1) reassigned, Ok tt)
      end
    end
  end.

Definition IsMember (w : World D) (tenantID userID : UUID) : Result bool :=
  match getTenant (tenants w) tenantID with
  | Err e => Err e
  | Ok t =>
      let domainID := resolveDomainIDSafe (domains w) (tCode t) in
      if negb (uuid_eqb domainID uuid_Nil)
      then CheckMembership (domains w) domainID userID
      else Ok (existsb (fun r => membershipOf (tID t) userID r
                                 && IsZero (tuDeletedAt r)
                                 && String.eqb (tuStatus r) StatusActive)
                       (tenantUsers w))
  end.

(** [GetTenant]: the tenant with the id, deleted or not. *)
Definition GetTenant (w : World D) (id : UUID) : Result TenantDTO :=
  match getTenant (tenants w) id with
  | Err e => Err e
  | Ok t => Ok (toDTO t (resolveDomainIDSafe (domains w) (tCode t)))
  end.

Definition GetDomainID (w : World D) (tenantCode : string) : Result UUID :=
  match ResolveDomain (domains w) "tenant" tenantCode with
  | Err e => Err (Wrap "resolve domain" e)
  | Ok dom => Ok (DomainID dom)
  end.

(** [OnUserDeleted].  [data] is the outcome of the type assertion of the
    event data to a pointer to [userDeletedPayload]: [Some userID] when the
    event carries a payload of that type, [None] for any other value.  The
    type is declared in the body of the function, so no caller can build a
    value of it: for every event of a running program [data] is [None].
    [listFails]: the query for the memberships fails.  Every membership
    found is deleted by its id; an update that fails ([updateFails], by
    the id of the row) is logged and skipped. *)
Definition OnUserDeleted (listFails : bool) (updateFails : UUID -> bool)
    (now : Time) (data : option UUID) (w : World D)
  : World D * Result unit :=
  match data with
  | None => (w, Ok tt)
  | Some userID =>
      if listFails then (w, Err (Wrap "list user memberships" EntFault))
      else
        let memberships :=
          filter (fun r => uuid_eqb (tuUserID r) userID
                           && IsZero (tuDeletedAt r))
                 (tenantUsers w) in
        (withTenantUsers w
           (fold_left
              (fun rows m =>
                 if updateFails (tuID m) then rows
                 else updateWhere (fun r => uuid_eqb (tuID r) (tuID m))
                                  (SetDeletedAt (Some now)) rows)
              memberships (tenantUsers w)),
         Ok tt)
  end.

(** ** The listings *)

Context {dialect : Dialect}.

(** [Order(Desc(created_at))] on memberships. *)
Definition newestFirst (a b : TenantUser) : bool :=
  Nat.leb (tuCreatedAt b) (tuCreatedAt a).

(** The loop of [ListMembers] over the items with their [Edges.User]. *)
Fixpoint memberDTOs (items : list (TenantUser * option User)) : list MemberDTO :=
  match items with
  | [] => []
  | (item, edge) :: rest =>
      match edge with
      | None => memberDTOs rest
      | Some u =>
          {| mdID := uID u; mdUsername := uUsername u; mdEmail := uEmail u;
             mdNickname := uNickname u; mdStatus := uStatus u;
             mdRole := tuRole item; mdIsDefault := tuIsDefault item |}
            :: memberDTOs rest
      end
  end.

Definition ListMembers (ctx : Context) (tenantID : UUID) (page pageSize : Z)
    (w : World D) : Result MemberListResult :=
  match requirePlatformDomain ctx with
  | Err e => Err e
  | Ok _ =>
    match getTenant (tenants w) tenantID with
    | Err e => Err e
    | Ok t =>
      let page := if (page <? 1)%Z then 1%Z else page in
      let pageSize := if (pageSize <? 1)%Z then 20%Z else pageSize in
      let pageSize := if (pageSize >? 100)%Z then 100%Z else pageSize in
      let query := filter (activeIn (tID t)) (tenantUsers w) in
      let total := Z.of_nat (List.length query) in
      let offset := int_mul (int_sub page 1) pageSize in
      match OffsetLimit offset pageSize (OrderBy newestFirst query) with
      | Err e => Err (Wrap "list members" e)
      | Ok items =>
          let dtos := memberDTOs (map (withUser (users w)) items) in
          let totalPages :=
            int_div (int_sub (int_add total pageSize) 1) pageSize in
          Ok {| Members := dtos; mlTotal := total; mlPage := page;
                mlPageSize := pageSize; mlTotalPages := totalPages |}
      end
    end
  end.

(** The filters of [ListTenants] on one row. *)
Definition matchesFilters (filters : ListFilters) (t : Tenant) : bool :=
  (if negb (lfIncludeDeleted filters) then IsZero (tDeletedAt t) else true)
  && (if negb (String.eqb (lfQuery filters) "")
      then
        let search := TrimSpace (lfQuery filters) in
        ContainsFold (tCode t) search || ContainsFold (tName t) search
      else true)
  && (if negb (String.eqb (lfStatus filters) "")
      then String.eqb (tStatus t) (lfStatus filters)
      else true).

(** [ListTenants].  The creation instant of a tenant row is not among the
    fields of [Tenant]; the order [Desc(created_at)] reads it through
    [createdAt]. *)
Definition ListTenants (createdAt : Tenant -> Time) (ctx : Context)
    (filters : ListFilters) (w : World D) : Result ListResult :=
  match requirePlatformDomain ctx with
  | Err e => Err e
  | Ok _ =>
      let page := if (lfPage filters <? 1)%Z then 1%Z else lfPage filters in
      let pageSize :=
        if (lfPageSize filters <? 1)%Z then 20%Z else lfPageSize filters in
      let pageSize := if (pageSize >? 100)%Z then 100%Z else pageSize in
      let query := filter (matchesFilters filters) (tenants w) in
      let total := Z.of_nat (List.length query) in
      let offset := int_mul (int_sub page 1) pageSize in
      match OffsetLimit offset pageSize
              (OrderBy (fun a b => Nat.leb (createdAt b) (createdAt a)) query)
      with
      | Err e => Err (Wrap "list tenants" e)
      | Ok items =>
          let dtos :=
            map (fun item =>
                   toDTO item (resolveDomainIDSafe (domains w) (tCode item)))
                items in
          let totalPages :=
            int_div (int_sub (int_add total pageSize) 1) pageSize in
          Ok {| Tenants := dtos; lrTotal := total; lrPage := page;
                lrPageSize := pageSize; lrTotalPages := totalPages |}
      end
  end.

(** [Order(Desc(is_default), Desc(created_at))] on memberships. *)
Definition defaultFirst (a b : TenantUser) : bool :=
  if Bool.eqb (tuIsDefault a) (tuIsDefault b)
  then Nat.leb (tuCreatedAt b) (tuCreatedAt a)
  else tuIsDefault a.

(** The first loop of [ListMyTenants]: the tenant ids of the memberships,
    each once, the zero id left out. *)
Fixpoint collectTenantIDs (memberships : list TenantUser)
    (tenantIDs : list UUID) : list UUID :=
  match memberships with
  | [] => tenantIDs
  | m :: rest =>
      if uuid_eqb (tuTenantID m) uuid_Nil then collectTenantIDs rest tenantIDs
      else if negb (existsb (uuid_eqb (tuTenantID m)) tenantIDs)
      then collectTenantIDs rest (tenantIDs ++ [tuTenantID m])
      else collectTenantIDs rest tenantIDs
  end.

(** The map [tenantMap]: its entries, the one written last first. *)
Definition tenantMapOf (rows : list Tenant) : list (UUID * Tenant) :=
  fold_left (fun m t => (tID t, t) :: m) rows [].

Definition tenantMap_get (m : list (UUID * Tenant)) (id : UUID) : option Tenant :=
  option_map snd (find (fun e => uuid_eqb (fst e) id) m).

(** The last loop of [ListMyTenants]. *)
Fixpoint myTenantDTOs (tenantMap : list (UUID * Tenant))
    (memberships : list TenantUser) : list MyTenantDTO :=
  match memberships with
  | [] => []
  | m :: rest =>
      match tenantMap_get tenantMap (tuTenantID m) with
      | None => myTenantDTOs tenantMap rest
      | Some t =>
          {| mtID := tID t; mtCode := tCode t; mtName := tName t;
             mtStatus := tStatus t; mtRole := tuRole m;
             mtIsDefault := tuIsDefault m |}
            :: myTenantDTOs tenantMap rest
      end
  end.

Definition ListMyTenants (w : World D) (userID : UUID)
  : Result (list MyTenantDTO) :=
  let memberships :=
    OrderBy defaultFirst (filter (activeOf userID) (tenantUsers w)) in
  match memberships with
  | [] => Ok []
  | _ =>
      let tenantIDs := collectTenantIDs memberships [] in
      let found :=
        filter (fun t => existsb (uuid_eqb (tID t)) tenantIDs) (tenants w) in
      Ok (myTenantDTOs (tenantMapOf found) memberships)
  end.

(** ** Vocabulary of the specification *)

(** The number of the user's active, non-deleted memberships that carry
    the default flag. *)
Definition defaultCount (userID : UUID) (w : World D) : nat :=
  List.length (filter (fun r => activeOf userID r && tuIsDefault r)
                      (tenantUsers w)).

(** Another active member of the tenant whose user row carries the
    candidate's username or email. *)
Definition conflicting (w : World D) (tenantID userID : UUID) (u : UserInfo)
    (m : TenantUser) (mu : User) : Prop :=
  In m (tenantUsers w) /\ activeIn tenantID m = true
  /\ tuUserID m <> userID
  /\ find (fun x => uuid_eqb (uID x) (tuUserID m)) (users w) = Some mu
  /\ (uUsername mu = uiUsername u \/ uEmail mu = uiEmail u).

(** The role [AddMember] passes on. *)
Definition roleOrMember (role : string) : string :=
  if String.eqb role "" then "member" else role.

(** The domain step of [AddMember] goes through: the tenant resolves to
    no domain, or the domain service accepts the membership. *)
Definition domainAccepts (w : World D) (t : Tenant) (userID : UUID)
    (role : string) : Prop :=
  resolveDomainIDSafe (domains w) (tCode t) = uuid_Nil
  \/ snd (AddMembership (domains w)
            (resolveDomainIDSafe (domains w) (tCode t)) userID
            (roleOrMember role) false) = Ok tt.

(** The calls that change memberships, for runs of calls. *)
Inductive Call : Type :=
| CallCreateTenant (f : Faults) (now : Time) (tenantRowID memberRowID : UUID)
    (ctx : Context) (req : CreateRequest)
| CallAddMember (now : Time) (newID : UUID) (ctx : Context)
    (tenantID userID : UUID) (role : string)
| CallRemoveMember (now : Time) (ctx : Context) (tenantID userID : UUID).

Definition step (w : World D) (c : Call) : World D :=
  match c with
  | CallCreateTenant f now tenantRowID memberRowID ctx req =>
      fst (CreateTenant f now tenantRowID memberRowID ctx req w)
  | CallAddMember now newID ctx tenantID userID role =>
      fst (AddMember now newID ctx tenantID userID role w)
  | CallRemoveMember now ctx tenantID userID =>
      fst (RemoveMember now ctx tenantID userID w)
  end.

Definition run (w : World D) (calls : list Call) : World D :=
  fold_left step calls w.

(** Every operation of the service that writes, for histories of an
    installation. *)
Inductive Operation : Type :=
| OpCreateTenant (f : Faults) (now : Time) (tenantRowID memberRowID : UUID)
    (ctx : Context) (req : CreateRequest)
| OpUpdateTenant (ctx : Context) (id : UUID) (req : UpdateRequest)
| OpDeleteTenant (now : Time) (ctx : Context) (id : UUID)
| OpAddMember (now : Time) (newID : UUID) (ctx : Context)
    (tenantID userID : UUID) (role : string)
| OpRemoveMember (now : Time) (ctx : Context) (tenantID userID : UUID)
| OpOnUserDeleted (listFails : bool) (updateFails : UUID -> bool)
    (now : Time) (data : option UUID).

Definition perform (w : World D) (op : Operation) : World D :=
  match op with
  | OpCreateTenant f now tenantRowID memberRowID ctx req =>
      fst (CreateTenant f now tenantRowID memberRowID ctx req w)
  | OpUpdateTenant ctx id req => fst (UpdateTenant ctx id req w)
  | OpDeleteTenant now ctx id => fst (DeleteTenant now ctx id w)
  | OpAddMember now newID ctx tenantID userID role =>
      fst (AddMember now newID ctx tenantID userID role w)
  | OpRemoveMember now ctx tenantID userID =>
      fst (RemoveMember now ctx tenantID userID w)
  | OpOnUserDeleted listFails updateFails now data =>
      fst (OnUserDeleted listFails updateFails now data w)
  end.

Definition history (w : World D) (ops : list Operation) : World D :=
  fold_left perform ops w.

(** A (tenant, user) pair has at most one membership row, deleted or
    not. *)
Definition pairUnique (rows : list TenantUser) : Prop :=
  forall tenantID userID,
    List.length (filter (membershipOf tenantID userID) rows) <= 1.

(** A membership that counts: not deleted and active. *)
Definition isLive (r : TenantUser) : bool :=
  IsZero (tuDeletedAt r) && String.eqb (tuStatus r) StatusActive.

(** The page and the page size the listings work with: a page below 1 is
    page 1, a page size below 1 is 20, one above 100 is 100. *)
Definition pageOf (page : Z) : Z :=
  if (page <? 1)%Z then 1%Z else page.

Definition pageSizeOf (pageSize : Z) : Z :=
  let n := if (pageSize <? 1)%Z then 20%Z else pageSize in
  if (n >? 100)%Z then 100%Z else n.

(** The rows of the ordered result [rows] that fall on page [page]. *)
Definition pageRows {A} (page pageSize : Z) (rows : list A) : list A :=
  firstn (Z.to_nat (pageSizeOf pageSize))
    (skipn (Z.to_nat ((pageOf page - 1) * pageSizeOf pageSize)) rows).

(** The members a call of [ListMembers] shows ([[]] when it fails). *)
Definition membersShown (r : Result MemberListResult) : list MemberDTO :=
  match r with
  | Ok res => Members res
  | Err _ => []
  end.

End Service.

(** ** Failures of the store in [DeleteTenant] and [RemoveMember]

    [DeleteTenant] and [RemoveMember] above are the runs in which the
    store answers every query and write.  Here are the same functions with
    the failures of the store as an input: each flag makes one call of the
    client fail for a reason that is neither a missing row nor a
    constraint.  A write that fails changes nothing. *)
Module WithFaults.

Record StoreFaults : Type := {
  tenantGetFails : bool;        (* Tenant.Get(ctx, id) *)
  softDeleteFails : bool;       (* the update that sets deleted_at *)
  membershipQueryFails : bool;  (* the query for the membership to remove *)
  altQueryFails : bool;         (* the query for another active membership *)
  promoteFails : bool           (* the update that sets is_default *)
}.

Definition noStoreFaults : StoreFaults :=
  {| tenantGetFails := false; softDeleteFails := false;
     membershipQueryFails := false; altQueryFails := false;
     promoteFails := false |}.

Section Service.
Context {codec : UUIDText} {D : Type} {domainSvc : DomainWriter D}.

(** The prologue shared by the two operations. *)
Definition getTenant (f : StoreFaults) (rows : list Tenant) (id : UUID)
  : Result Tenant :=
  match (if tenantGetFails f then Err EntFault else Tenant_Get rows id) with
  | Err e =>
      if IsNotFound e then Err ErrTenantNotFound else Err (Wrap "get tenant" e)
  | Ok t => Ok t
  end.

Definition DeleteTenant (f : StoreFaults) (now : Time) (ctx : Context)
    (id : UUID) (w : World D) : World D * Result unit :=
  match requirePlatformDomain ctx with
  | Err e => (w, Err e)
  | Ok _ =>
    match getTenant f (tenants w) id with
    | Err e => (w, Err e)
    | Ok _ =>
        match (if softDeleteFails f then Err EntFault else Ok tt) with
        | Err e =>
            (w, if IsNotFound e then Err ErrTenantNotFound
                else Err (Wrap "soft delete tenant" e))
        | Ok _ =>
            (withTenants w
               (updateWhere (fun r => uuid_eqb (tID r) id)
                            (SetTenantDeletedAt (Some now)) (tenants w)),
             Ok tt)
        end
    end
  end.

Definition RemoveMember (f : StoreFaults) (now : Time) (ctx : Context)
    (tenantID userID : UUID) (w : World D) : World D * Result unit :=
  match requirePlatformDomain ctx with
  | Err e => (w, Err e)
  | Ok _ =>
    match getTenant f (tenants w) tenantID with
    | Err e => (w, Err e)
    | Ok t =>
      match (if membershipQueryFails f then Err EntFault
             else First (filter (fun r => membershipOf (tID t) userID r
                                          && IsZero (tuDeletedAt r))
                                (tenantUsers w))) with
      | Err e =>
          (w, if IsNotFound e then Err ErrMemberNotFound
              else Err (Wrap "get membership" e))
      | Ok membership =>
          if softDeleteFails f
          then (w, Err (Wrap "remove membership" EntFault))
          else
            let removed :=
              updateWhere (fun r => uuid_eqb (tuID r) (tuID membership))
                          (SetDeletedAt (Some now)) (tenantUsers w) in
            let domainID := resolveDomainIDSafe (domains w) (tCode t) in
            let d1 :=
              if negb (uuid_eqb domainID uuid_Nil)
              then fst (RemoveMembership (domains w) domainID userID)
              else domains w in
            let reassigned :=
              if tuIsDefault membership then
                match (if altQueryFails f then Err EntFault
                       else FirstOldest (filter (activeOf userID) removed)) with
                | Ok alt =>
                    if promoteFails f then removed
                    else updateWhere (fun r => uuid_eqb (tuID r) (tuID alt))
                                     (SetIsDefault true) removed
                | Err _ => removed
                end
              else removed in
            (withTenantUsers (withDomains w d1) reassigned, Ok tt)
      end
    end
  end.

End Service.
End WithFaults.

(** ** The HTTP handlers (tenant/tenant/handler.go)

    A handler is given what it reads from the request: the context, the
    URL parameters as texts, the body as [json.NewDecoder(r.Body).Decode]
    leaves it ([None] when it does not decode), and for [page] and
    [pageSize] the numbers [strconv.Atoi] returns for the query
    parameters, its error dropped.  It answers through the responder. *)
Module Handler.
Section Handler.
Context {codec : UUIDText} {D : Type} {domainSvc : DomainWriter D}.
Context {dialect : Dialect}.

Definition mapTenantError {A} (msg : string) (err : Error) : Response A :=
  if errors_Is err ErrTenantNotFound
  then NotFound "Tenant not found"
  else if errors_Is err ErrTenantCodeExists
  then Conflict "Tenant code already exists"
  else if errors_Is err ErrInvalidTenant || errors_Is err ErrParentTenantInvalid
  then BadRequest "Invalid tenant data"
  else if errors_Is err ErrPlatformDomainOnly
  then Forbidden "Platform domain required"
  else DatabaseError msg.

Definition CreateTenant (f : Faults) (now : Time)
    (tenantRowID memberRowID : UUID) (ctx : Context)
    (body : option CreateRequest) (w : World D)
  : World D * Response TenantDTO :=
  match body with
  | None => (w, BindError)
  | Some req =>
      match tenant.CreateTenant f now tenantRowID memberRowID ctx req w with
      | (w', Err err) => (w', mapTenantError "Failed to create tenant" err)
      | (w', Ok result) => (w', OK result)
      end
  end.

Definition ListTenants (createdAt : Tenant -> Time) (ctx : Context)
    (page pageSize : Z) (query status includeDeleted : string) (w : World D)
  : Response ListResult :=
  let filters :=
    {| lfPage := page; lfPageSize := pageSize; lfQuery := query;
       lfStatus := status;
       lfIncludeDeleted := String.eqb includeDeleted "true" |} in
  match tenant.ListTenants createdAt ctx filters w with
  | Err err =>
      if errors_Is err ErrPlatformDomainOnly
      then Forbidden "Platform domain required"
      else DatabaseError "Failed to list tenants"
  | Ok result => OK result
  end.

Definition ListMyTenants (ctx : Context) (w : World D)
  : Response (list MyTenantDTO) :=
  match ctxUserID ctx with
  | None => Unauthorized "Missing user context"
  | Some userID =>
      match tenant.ListMyTenants w userID with
      | Err _ => DatabaseError "Failed to list my tenants"
      | Ok result => OK result
      end
  end.

Definition GetTenant (id : string) (w : World D) : Response TenantDTO :=
  match uuid_Parse id with
  | None => BadRequest "Invalid tenant ID"
  | Some tenantID =>
      match tenant.GetTenant w tenantID with
      | Err err => mapTenantError "Failed to get tenant" err
      | Ok result => OK result
      end
  end.

Definition UpdateTenant (ctx : Context) (id : string)
    (body : option UpdateRequest) (w : World D)
  : World D * Response TenantDTO :=
  match uuid_Parse id with
  | None => (w, BadRequest "Invalid tenant ID")
  | Some tenantID =>
      match body with
      | None => (w, BindError)
      | Some req =>
          match tenant.UpdateTenant ctx tenantID req w with
          | (w', Err err) => (w', mapTenantError "Failed to update tenant" err)
          | (w', Ok result) => (w', OK result)
          end
      end
  end.

Definition DeleteTenant (f : WithFaults.StoreFaults) (now : Time)
    (ctx : Context) (id : string) (w : World D)
  : World D * Response string :=
  match uuid_Parse id with
  | None => (w, BadRequest "Invalid tenant ID")
  | Some tenantID =>
      match WithFaults.DeleteTenant f now ctx tenantID w with
      | (w', Err err) => (w', mapTenantError "Failed to delete tenant" err)
      | (w', Ok _) => (w', OK "Tenant deleted successfully")
      end
  end.

Definition AddMember (now : Time) (newID : UUID) (ctx : Context) (id : string)
    (body : option AddMemberRequest) (w : World D)
  : World D * Response string :=
  match uuid_Parse id with
  | None => (w, BadRequest "Invalid tenant ID")
  | Some tenantID =>
      match body with
      | None => (w, BindError)
      | Some req =>
          match uuid_Parse (amUserID req) with
          | None => (w, BadRequest "Invalid user ID")
          | Some userID =>
              match tenant.AddMember now newID ctx tenantID userID
                      (amRole req) w with
              | (w', Err err) =>
                  (w',
                   if errors_Is err ErrPlatformDomainOnly
                   then Forbidden "Platform domain required"
                   else if errors_Is err ErrTenantNotFound
                   then NotFound "Tenant not found"
                   else if errors_Is err ErrMemberExists
                   then Conflict "User is already a member"
                   else DatabaseError "Failed to add member")
              | (w', Ok _) => (w', OK "Member added successfully")
              end
          end
      end
  end.

Definition ListMembers (ctx : Context) (id : string) (page pageSize : Z)
    (w : World D) : Response MemberListResult :=
  match uuid_Parse id with
  | None => BadRequest "Invalid tenant ID"
  | Some tenantID =>
      match tenant.ListMembers ctx tenantID page pageSize w with
      | Err err =>
          if errors_Is err ErrPlatformDomainOnly
          then Forbidden "Platform domain required"
          else if errors_Is err ErrTenantNotFound
          then NotFound "Tenant not found"
          else DatabaseError "Failed to list members"
      | Ok result => OK result
      end
  end.

Definition RemoveMember (f : WithFaults.StoreFaults) (now : Time)
    (ctx : Context) (id userId : string) (w : World D)
  : World D * Response string :=
  match uuid_Parse id with
  | None => (w, BadRequest "Invalid tenant ID")
  | Some tenantID =>
      match uuid_Parse userId with
      | None => (w, BadRequest "Invalid user ID")
      | Some userID =>
          match WithFaults.RemoveMember f now ctx tenantID userID w with
          | (w', Err err) =>
              (w',
               if errors_Is err ErrPlatformDomainOnly
               then Forbidden "Platform domain required"
               else if errors_Is err ErrTenantNotFound
               then NotFound "Tenant not found"
               else if errors_Is err ErrMemberNotFound
               then NotFound "Membership not found"
               else DatabaseError "Failed to remove member")
          | (w', Ok _) => (w', OK "Member removed successfully")
          end
      end
  end.

End Handler.
End Handler.

End tenant.

(** * Concrete collaborators for the scenarios *)

Module scenario.

(** A stand-in for [uuid.Parse]: the text of an identifier is its decimal
    numeral. *)
Fixpoint parseDigits (s : string) (acc : nat) : option nat :=
  match s with
  | EmptyString => Some acc
  | String c rest =>
      let n := nat_of_ascii c in
      if Nat.leb 48 n && Nat.leb n 57
      then parseDigits rest (10 * acc + (n - 48))
      else None
  end.

Definition parseDecimal (s : string) : option UUID :=
  match s with
  | EmptyString => None
  | _ => parseDigits s 0
  end.

#[export] Instance decimalText : UUIDText := {| uuid_Parse := parseDecimal |}.

(** Modelled from the spec: the constraints declared by the schema of
    [leeforge/core]; the store keeps (domainID, path) unique among
    organizations, and a user is a member of a node at most once. *)
#[export] Instance ouSchema : organization.Schema := {|
  organization.organization_conflict rows r :=
    existsb (fun o => uuid_eqb (organization.oDomainID o) (organization.oDomainID r)
                      && String.eqb (organization.oPath o) (organization.oPath r))
            rows;
  organization.member_conflict rows r :=
    existsb (fun m => uuid_eqb (organization.mOrganizationID m)
                               (organization.mOrganizationID r)
                      && uuid_eqb (organization.mUserID m) (organization.mUserID r))
            rows
|}.

(** SQLite, the store of the repository's integration tests, reads a
    negative offset as no offset. *)
#[export] Instance sqlite : Dialect := {|
  negativeOffset A offset limit rows := Ok (firstn (Z.to_nat limit) rows)
|}.

(** [mockDomainWriter] of tenant/plugin_test.go: two maps, keyed by
    [typeCode:key] and by [domainID:subjectID]; [EnsureDomain] draws a new
    identifier ([mockNext]) and overwrites the entry of the key. *)
Record mockDomainWriter : Type := {
  mockDomains : list ((string * string) * tenant.ResolvedDomain);
  mockMembers : list (UUID * UUID);
  mockNext : UUID
}.

Definition sameKey (k1 k2 : string * string) : bool :=
  String.eqb (fst k1) (fst k2) && String.eqb (snd k1) (snd k2).

Definition samePair (p1 p2 : UUID * UUID) : bool :=
  uuid_eqb (fst p1) (fst p2) && uuid_eqb (snd p1) (snd p2).

Definition mockResolveDomain (m : mockDomainWriter) (typeCode key : string)
  : Result tenant.ResolvedDomain :=
  match find (fun e => sameKey (fst e) (typeCode, key)) (mockDomains m) with
  | Some e => Ok (snd e)
  | None => Err ErrTenantNotFound
  end.

Definition mockEnsureDomain (m : mockDomainWriter)
    (typeCode key displayName : string)
  : mockDomainWriter * Result tenant.ResolvedDomain :=
  let res := {| tenant.DomainID := mockNext m; tenant.TypeCode := typeCode;
                tenant.Key := key; tenant.DisplayName := displayName |} in
  ({| mockDomains :=
        ((typeCode, key), res)
          :: filter (fun e => negb (sameKey (fst e) (typeCode, key)))
                    (mockDomains m);
      mockMembers := mockMembers m;
      mockNext := S (mockNext m) |},
   Ok res).

Definition mockCheckMembership (m : mockDomainWriter) (domainID subjectID : UUID)
  : Result bool :=
  Ok (existsb (samePair (domainID, subjectID)) (mockMembers m)).

Definition mockAddMembership (m : mockDomainWriter) (domainID subjectID : UUID)
    (role : string) (isDefault : bool) : mockDomainWriter * Result unit :=
  ({| mockDomains := mockDomains m;
      mockMembers :=
        (domainID, subjectID)
          :: filter (fun p => negb (samePair p (domainID, subjectID)))
                    (mockMembers m);
      mockNext := mockNext m |},
   Ok tt).

Definition mockRemoveMembership (m : mockDomainWriter)
    (domainID subjectID : UUID) : mockDomainWriter * Result unit :=
  ({| mockDomains := mockDomains m;
      mockMembers :=
        filter (fun p => negb (samePair p (domainID, subjectID)))
               (mockMembers m);
      mockNext := mockNext m |},
   Ok tt).

#[export] Instance mockWriter : tenant.DomainWriter mockDomainWriter := {|
  tenant.ResolveDomain := mockResolveDomain;
  tenant.EnsureDomain := mockEnsureDomain;
  tenant.CheckMembership := mockCheckMembership;
  tenant.AddMembership := mockAddMembership;
  tenant.RemoveMembership := mockRemoveMembership
|}.

Definition newMockDomainWriter : mockDomainWriter :=
  {| mockDomains := []; mockMembers := []; mockNext := 1000 |}.

(** A request context of the platform domain, with or without an acting
    user, and with the organization domain 7. *)
Definition platformCtx (user : option UUID) : Context :=
  {| acting := Some true; ctxUserID := user; ctxDomainID := Some "7" |}.

Definition mkUser (id : UUID) (username email : string) : tenant.User :=
  {| tenant.uID := id; tenant.uUsername := username; tenant.uEmail := email;
     tenant.uNickname := username; tenant.uStatus := "active" |}.

(** An empty installation with two registered users. *)
Definition world0 : tenant.World mockDomainWriter :=
  {| tenant.tenants := []; tenant.tenantUsers := [];
     tenant.users := [mkUser 1 "alice" "alice@example.com";
                      mkUser 2 "bob" "bob@example.com"];
     tenant.roles := []; tenant.domains := newMockDomainWriter |}.

Definition mkCreate (code name : string) : tenant.CreateRequest :=
  {| tenant.crCode := code; tenant.crName := name;
     tenant.crDescription := ""; tenant.crStatus := "";
     tenant.crParentTenantID := "" |}.

(** Organization scenarios, all in domain 7. *)
Definition mkOrg (code : string) (parent : option UUID)
  : organization.CreateOrganizationRequest :=
  {| organization.reqCode := code; organization.reqName := code;
     organization.reqParentID := parent |}.

Definition mkOrgMember (user : UUID) (primary : bool)
  : organization.AddOrganizationMemberRequest :=
  {| organization.reqUserID := user; organization.reqIsPrimary := primary |}.

(** One root "company". *)
Definition companyCalls : list organization.Call :=
  [organization.CallCreateOrganization 1 (platformCtx None)
     (Some (mkOrg "company" None))].

(** Two roots and user 5 made primary member of each in turn. *)
Definition twoPrimaries : list organization.Call :=
  [organization.CallCreateOrganization 1 (platformCtx None)
     (Some (mkOrg "company" None));
   organization.CallCreateOrganization 2 (platformCtx None)
     (Some (mkOrg "sales" None));
   organization.CallAddOrganizationMember 10 (platformCtx None) 1
     (Some (mkOrgMember 5 true));
   organization.CallAddOrganizationMember 11 (platformCtx None) 2
     (Some (mkOrgMember 5 true))].

(** Two unrelated roots, "eng" (id 1) and "engineering" (id 2); user 5 is
    a member of "engineering" only. *)
Definition siblingCalls : list organization.Call :=
  [organization.CallCreateOrganization 1 (platformCtx None)
     (Some (mkOrg "eng" None));
   organization.CallCreateOrganization 2 (platformCtx None)
     (Some (mkOrg "engineering" None));
   organization.CallAddOrganizationMember 10 (platformCtx None) 2
     (Some (mkOrgMember 5 true))].

(** A root "company" (id 1) with the children "engineering" (id 2) and
    "sales" (id 3), and "backend" (id 4) under "engineering". *)
Definition treeCalls : list organization.Call :=
  [organization.CallCreateOrganization 1 (platformCtx None)
     (Some (mkOrg "company" None));
   organization.CallCreateOrganization 3 (platformCtx None)
     (Some (mkOrg "sales" (Some 1)));
   organization.CallCreateOrganization 2 (platformCtx None)
     (Some (mkOrg "engineering" (Some 1)));
   organization.CallCreateOrganization 4 (platformCtx None)
     (Some (mkOrg "backend" (Some 2)))].

(** A membership table whose only row is user 1's default membership of
    tenant 100, not deleted, with the status "inactive". *)
Definition inactiveDefault : tenant.TenantUser :=
  {| tenant.tuID := 300; tenant.tuTenantID := 100; tenant.tuUserID := 1;
     tenant.tuRole := "member"; tenant.tuIsDefault := true;
     tenant.tuStatus := "inactive"; tenant.tuDeletedAt := None;
     tenant.tuCreatedAt := 0 |}.

(** Tenants "acme" (row 100) and "globex" (row 101), created without an
    acting user; then user 1 is added to both, removed from "acme" and
    added to "acme" again. *)
Definition reAddCalls : list tenant.Call :=
  [tenant.CallCreateTenant tenant.noFaults 0 100 200 (platformCtx None)
     (mkCreate "acme" "Acme");
   tenant.CallCreateTenant tenant.noFaults 1 101 201 (platformCtx None)
     (mkCreate "globex" "Globex");
   tenant.CallAddMember 2 300 (platformCtx None) 100 1 "";
   tenant.CallAddMember 3 301 (platformCtx None) 101 1 "";
   tenant.CallRemoveMember 4 (platformCtx None) 100 1;
   tenant.CallAddMember 5 302 (platformCtx None) 100 1 ""].

(** User 1 creates two tenants. *)
Definition twoOwnedTenants : list tenant.Call :=
  [tenant.CallCreateTenant tenant.noFaults 0 100 200 (platformCtx (Some 1))
     (mkCreate "acme" "Acme");
   tenant.CallCreateTenant tenant.noFaults 1 101 201 (platformCtx (Some 1))
     (mkCreate "globex" "Globex")].

(** The store fails at the commit of the transaction. *)
Definition commitFault : tenant.Faults :=
  {| tenant.txBeginFails := false; tenant.parentQueryFails := false;
     tenant.tenantSaveFails := false; tenant.seedFailsAt := None;
     tenant.ownerRowFails := false; tenant.commitFails := true |}.

(** The store fails when the owner's membership row is written. *)
Definition ownerRowFault : tenant.Faults :=
  {| tenant.txBeginFails := false; tenant.parentQueryFails := false;
     tenant.tenantSaveFails := false; tenant.seedFailsAt := None;
     tenant.ownerRowFails := true; tenant.commitFails := false |}.

(** Tenant "acme" created by user 1 and then soft-deleted at instant 5. *)
Definition deletedAcme : tenant.World mockDomainWriter :=
  fst (tenant.DeleteTenant 5 (platformCtx (Some 1)) 100
         (tenant.run world0
            [tenant.CallCreateTenant tenant.noFaults 0 100 200
               (platformCtx (Some 1)) (mkCreate "acme" "Acme")])).

Definition rename (name : string) : tenant.UpdateRequest :=
  {| tenant.urName := name; tenant.urDescription := "";
     tenant.urStatus := ""; tenant.urParentTenantID := "" |}.

(** Three users, the third with the email of the first; tenants "acme"
    and "globex"; user 1 is a member of "acme". *)
Definition sharedEmailWorld : tenant.World mockDomainWriter :=
  tenant.run
    {| tenant.tenants := []; tenant.tenantUsers := [];
       tenant.users := [mkUser 1 "alice" "alice@example.com";
                        mkUser 2 "bob" "bob@example.com";
                        mkUser 3 "alice2" "alice@example.com"];
       tenant.roles := []; tenant.domains := newMockDomainWriter |}
    [tenant.CallCreateTenant tenant.noFaults 0 100 200 (platformCtx None)
       (mkCreate "acme" "Acme");
     tenant.CallCreateTenant tenant.noFaults 1 101 201 (platformCtx None)
       (mkCreate "globex" "Globex");
     tenant.CallAddMember 2 300 (platformCtx None) 100 1 "admin"].

(** Users 1 and 3 join "acme" while their emails differ; then user 3
    takes the email of user 1 in the user table, which is not the tenant
    service's to write. *)
Definition emailChangedWorld : tenant.World mockDomainWriter :=
  let joined :=
    tenant.run
      {| tenant.tenants := []; tenant.tenantUsers := [];
         tenant.users := [mkUser 1 "alice" "alice@example.com";
                          mkUser 3 "alice2" "alice2@example.com"];
         tenant.roles := []; tenant.domains := newMockDomainWriter |}
      [tenant.CallCreateTenant tenant.noFaults 0 100 200 (platformCtx None)
         (mkCreate "acme" "Acme");
       tenant.CallAddMember 2 300 (platformCtx None) 100 1 "admin";
       tenant.CallAddMember 3 301 (platformCtx None) 100 3 "member"] in
  {| tenant.tenants := tenant.tenants joined;
     tenant.tenantUsers := tenant.tenantUsers joined;
     tenant.users := [mkUser 1 "alice" "alice@example.com";
                      mkUser 3 "alice2" "alice@example.com"];
     tenant.roles := tenant.roles joined;
     tenant.domains := tenant.domains joined |}.

(** The life of tenant "acme": created by user 1; user 2 is added, removed
    and added again with another role; the tenant is renamed; user 1 is
    deleted; the tenant is deleted. *)
Definition lifeOps : list tenant.Operation :=
  [tenant.OpCreateTenant tenant.noFaults 0 100 200 (platformCtx (Some 1))
     (mkCreate "acme" "Acme");
   tenant.OpAddMember 1 300 (platformCtx (Some 1)) 100 2 "member";
   tenant.OpRemoveMember 2 (platformCtx (Some 1)) 100 2;
   tenant.OpAddMember 3 301 (platformCtx (Some 1)) 100 2 "admin";
   tenant.OpUpdateTenant (platformCtx (Some 1)) 100 (rename "Acme Inc");
   tenant.OpOnUserDeleted false (fun _ => false) 4 (Some 1);
   tenant.OpDeleteTenant 5 (platformCtx (Some 1)) 100].

(** An installation whose tenant "acme" has no domain record: users 1 and
    2 are members, each with "acme" as the default tenant. *)
Definition acmeRow : tenant.Tenant :=
  {| tenant.tID := 100; tenant.tCode := "acme"; tenant.tName := "Acme";
     tenant.tDescription := ""; tenant.tStatus := "active";
     tenant.tOwnerID := 1; tenant.tParentTenantID := None;
     tenant.tDeletedAt := None |}.

Definition mkMember (id tenantID userID : UUID) (isDefault : bool)
    (createdAt : Time) : tenant.TenantUser :=
  {| tenant.tuID := id; tenant.tuTenantID := tenantID;
     tenant.tuUserID := userID; tenant.tuRole := "member";
     tenant.tuIsDefault := isDefault; tenant.tuStatus := "active";
     tenant.tuDeletedAt := None; tenant.tuCreatedAt := createdAt |}.

Definition bareWorld : tenant.World mockDomainWriter :=
  {| tenant.tenants := [acmeRow];
     tenant.tenantUsers := [mkMember 300 100 1 true 1; mkMember 301 100 2 true 2];
     tenant.users := [mkUser 1 "alice" "alice@example.com";
                      mkUser 2 "bob" "bob@example.com"];
     tenant.roles := []; tenant.domains := newMockDomainWriter |}.

End scenario.

(** * Facts about the query helpers *)

Module query_facts.

Lemma uuid_eqb_eq (a b : UUID) : uuid_eqb a b = true <-> a = b.
Proof. apply Nat.eqb_eq. Qed.

Lemma uuid_eqb_refl (a : UUID) : uuid_eqb a a = true.
Proof. apply Nat.eqb_refl. Qed.

Lemma filter_none {A} (p : A -> bool) (l : list A) :
  (forall x, In x l -> p x = false) -> filter p l = [].
Proof.
  induction l as [|x l IH]; intros H; simpl; [reflexivity|].
  rewrite (H x (or_introl eq_refl)). apply IH.
  intros y Hy. apply H. right. exact Hy.
Qed.

Lemma filter_nil_none {A} (p : A -> bool) (l : list A) :
  filter p l = [] -> forall x, In x l -> p x = false.
Proof.
  intros H x Hx. destruct (p x) eqn:Hp; [|reflexivity].
  assert (Hin : In x (filter p l)) by (apply filter_In; split; assumption).
  rewrite H in Hin. destruct Hin.
Qed.

Lemma Only_Ok {A} (l : list A) (x : A) : Only l = Ok x -> l = [x].
Proof.
  destruct l as [|y [|z l]]; simpl; intros H; inversion H; reflexivity.
Qed.

Lemma existsb_false_iff {A} (p : A -> bool) (l : list A) :
  existsb p l = false <-> forall x, In x l -> p x = false.
Proof.
  split.
  - intros H x Hx. destruct (p x) eqn:Hp; [|reflexivity].
    assert (Ht : existsb p l = true) by (apply existsb_exists; eauto).
    congruence.
  - intros H. destruct (existsb p l) eqn:He; [|reflexivity].
    apply existsb_exists in He. destruct He as [x [Hx Hp]].
    rewrite (H x Hx) in Hp. discriminate.
Qed.

Lemma In_updateWhere {A} (p : A -> bool) (g : A -> A) (l : list A) (y : A) :
  In y (updateWhere p g l) ->
  exists x, In x l /\ y = (if p x then g x else x).
Proof.
  unfold updateWhere. intros H. apply in_map_iff in H.
  destruct H as [x [Hx Hin]]. exists x. split; [exact Hin | symmetry; exact Hx].
Qed.

Lemma updateWhere_In {A} (p : A -> bool) (g : A -> A) (l : list A) (x : A) :
  In x l -> In (if p x then g x else x) (updateWhere p g l).
Proof.
  unfold updateWhere. intros H.
  apply in_map_iff. exists x. split; [reflexivity | exact H].
Qed.

Lemma filter_updateWhere {A} (p q : A -> bool) (g : A -> A) (l : list A) :
  (forall x, p (g x) = p x) ->
  filter p (updateWhere q g l) = updateWhere q g (filter p l).
Proof.
  intros Hg. unfold updateWhere. induction l as [|x l IH]; simpl; [reflexivity|].
  assert (Hp : p (if q x then g x else x) = p x).
  { destruct (q x); [apply Hg | reflexivity]. }
  rewrite Hp. destruct (p x); simpl; rewrite IH; reflexivity.
Qed.

Lemma NoDup_map_eq {A B} (f : A -> B) (l : list A) (a b : A) :
  NoDup (map f l) -> In a l -> In b l -> f a = f b -> a = b.
Proof.
  induction l as [|x l IH]; simpl; intros Hnd Ha Hb Hf; [destruct Ha|].
  inversion Hnd as [|y ys Hnotin Hnd']; subst.
  destruct Ha as [Ha|Ha], Hb as [Hb|Hb].
  - congruence.
  - subst x. exfalso. apply Hnotin. rewrite Hf. apply in_map. exact Hb.
  - subst x. exfalso. apply Hnotin. rewrite <- Hf. apply in_map. exact Ha.
  - apply IH; assumption.
Qed.

End query_facts.

(** * Facts about package [organization] *)

Module organization_facts.
Import organization query_facts.

(** ** Counting rows *)

Lemma filter_length_app {A} (p : A -> bool) (l : list A) (x : A) :
  List.length (filter p (l ++ [x]))
  = List.length (filter p l) + (if p x then 1 else 0).
Proof.
  rewrite filter_app, length_app. simpl.
  destruct (p x); reflexivity.
Qed.

Lemma filter_length_map_le {A} (p : A -> bool) (g : A -> A) (l : list A) :
  (forall r, p (g r) = true -> p r = true) ->
  List.length (filter p (map g l)) <= List.length (filter p l).
Proof.
  intros Hg. induction l as [|r l IH]; simpl; [lia|].
  destruct (p (g r)) eqn:Hpg.
  - rewrite (Hg r Hpg). simpl. lia.
  - destruct (p r); simpl; lia.
Qed.

Lemma filter_map_nil {A} (p : A -> bool) (g : A -> A) (l : list A) :
  (forall r, p (g r) = false) -> filter p (map g l) = [].
Proof.
  intros Hg. induction l as [|r l IH]; simpl; [reflexivity|].
  rewrite Hg. exact IH.
Qed.

(** ** Demotion *)

(** After the bulk update no row of the user in the domain is primary. *)
Lemma demote_clears (d u : UUID) (rows : list OrganizationMember) :
  filter (primaryOf d u)
         (updateWhere (primaryOf d u) (SetIsPrimary false) rows) = [].
Proof.
  unfold updateWhere. apply filter_map_nil. intros r.
  destruct (primaryOf d u r) eqn:Hr; [|exact Hr].
  unfold primaryOf. simpl. apply andb_false_r.
Qed.

(** The bulk update never makes a row primary. *)
Lemma demote_le (d u d0 u0 : UUID) (rows : list OrganizationMember) :
  List.length (filter (primaryOf d u)
            (updateWhere (primaryOf d0 u0) (SetIsPrimary false) rows))
  <= List.length (filter (primaryOf d u) rows).
Proof.
  unfold updateWhere. apply filter_length_map_le. intros r.
  destruct (primaryOf d0 u0 r); [|tauto].
  unfold primaryOf. simpl. rewrite andb_false_r. discriminate.
Qed.

Section WithSchema.
Context {codec : UUIDText} {schema : Schema}.

Lemma CreateOrganization_members newID ctx req st :
  members (fst (CreateOrganization newID ctx req st)) = members st.
Proof.
  unfold CreateOrganization, Organization_Save.
  destruct req as [req|]; [|reflexivity].
  destruct (domainIDFromContext ctx) as [domainID|e]; [|reflexivity].
  destruct (_ || _); [reflexivity|].
  destruct (reqParentID req) as [parentID|].
  - destruct (Only _) as [parent|e]; simpl.
    + destruct (organization_conflict _ _); reflexivity.
    + destruct (IsNotFound e); reflexivity.
  - simpl. destruct (organization_conflict _ _); reflexivity.
Qed.

Lemma AddOrganizationMember_preserves newID ctx organizationID req st :
  primaryUnique st ->
  primaryUnique (fst (AddOrganizationMember newID ctx organizationID req st)).
Proof.
  intros Hst d u. specialize (Hst d u). unfold primaryCount in *.
  unfold AddOrganizationMember.
  destruct req as [req|]; simpl; [|exact Hst].
  destruct (domainIDFromContext ctx) as [domainID|e]; simpl; [|exact Hst].
  destruct (uuid_eqb (reqUserID req) uuid_Nil); simpl; [exact Hst|].
  destruct (Only _) as [org|e]; simpl; [|exact Hst].
  destruct (reqIsPrimary req) eqn:Hprim.
  - (* a primary row is added: the old primaries are demoted first *)
    destruct (member_conflict _ _); simpl.
    + eapply Nat.le_trans; [apply demote_le | exact Hst].
    + rewrite filter_length_app.
      destruct (primaryOf d u _) eqn:Hnew.
      * unfold primaryOf in Hnew. simpl in Hnew.
        apply andb_true_iff in Hnew. destruct Hnew as [Hnew _].
        apply andb_true_iff in Hnew. destruct Hnew as [Hd Hu].
        apply uuid_eqb_eq in Hd. apply uuid_eqb_eq in Hu. subst d u.
        rewrite demote_clears. simpl. lia.
      * pose proof (demote_le d u domainID (reqUserID req) (members st)). lia.
  - (* a secondary row is added: nothing is demoted, nothing counts *)
    destruct (member_conflict _ _); simpl; [exact Hst|].
    rewrite filter_length_app.
    unfold primaryOf at 2. simpl. rewrite andb_false_r. lia.
Qed.

Lemma step_preserves st c : primaryUnique st -> primaryUnique (step st c).
Proof.
  intros Hst. destruct c as [newID ctx req|newID ctx organizationID req]; simpl.
  - intros d u. unfold primaryCount.
    rewrite CreateOrganization_members. apply Hst.
  - apply AddOrganizationMember_preserves. exact Hst.
Qed.

Lemma run_preserves calls : forall st,
  primaryUnique st -> primaryUnique (run st calls).
Proof.
  induction calls as [|c calls IH]; intros st Hst; simpl; [exact Hst|].
  apply IH. apply step_preserves. exact Hst.
Qed.

(** C9.  Starting from a store in which every (domain, user) pair has at
    most one primary membership row, every run of [CreateOrganization] and
    [AddOrganizationMember] calls ends in such a store; and a call of
    [AddOrganizationMember] that inserts a primary row leaves that row as
    the only primary row of the user in the domain: every older primary row
    of the pair has been demoted. *)
Theorem AddOrganizationMember_single_primary :
  forall (st : Store) (calls : list Call),
    primaryUnique st ->
    primaryUnique (run st calls)
    /\ forall newID ctx organizationID req resp domainID,
         domainIDFromContext ctx = Ok domainID ->
         reqIsPrimary req = true ->
         snd (AddOrganizationMember newID ctx organizationID (Some req)
                (run st calls)) = Ok resp ->
         forall m,
           In m (members (fst (AddOrganizationMember newID ctx organizationID
                                 (Some req) (run st calls)))) ->
           primaryOf domainID (reqUserID req) m = true ->
           m = {| mID := newID; mDomainID := domainID;
                  mOrganizationID := organizationID;
                  mUserID := reqUserID req; mIsPrimary := true |}.
Proof.
  intros st calls Hst. split; [apply run_preserves; exact Hst|].
  intros newID ctx organizationID req resp domainID Hdom Hprim.
  generalize (run st calls). intros st'.
  unfold AddOrganizationMember. rewrite Hdom, Hprim.
  destruct (uuid_eqb (reqUserID req) uuid_Nil); simpl; [discriminate|].
  destruct (Only _) as [org|e]; simpl; [|destruct (IsNotFound e); discriminate].
  destruct (member_conflict _ _); simpl; [discriminate|].
  intros _ m Hin Hm.
  apply in_app_or in Hin. destruct Hin as [Hin|[Hin|[]]]; [|symmetry; exact Hin].
  exfalso.
  assert (Hf : In m (filter (primaryOf domainID (reqUserID req))
                       (updateWhere (primaryOf domainID (reqUserID req))
                          (SetIsPrimary false) (members st')))).
  { apply filter_In. split; assumption. }
  rewrite demote_clears in Hf. exact Hf.
Qed.

(** ** Paths *)

Lemma append_nonempty (a b : string) : a <> "" -> String.append a b <> "".
Proof. destruct a; simpl; [congruence | discriminate]. Qed.

Lemma eqb_empty_false (a : string) : String.eqb a "" = false <-> a <> "".
Proof. apply String.eqb_neq. Qed.

Lemma AddOrganizationMember_organizations newID ctx organizationID req st :
  organizations (fst (AddOrganizationMember newID ctx organizationID req st))
  = organizations st.
Proof.
  unfold AddOrganizationMember.
  destruct req as [req|]; [|reflexivity].
  destruct (domainIDFromContext ctx) as [domainID|e]; [|reflexivity].
  destruct (uuid_eqb _ _); [reflexivity|].
  destruct (Only _) as [org|e]; [|reflexivity].
  destruct (member_conflict _ _); reflexivity.
Qed.

Lemma CreateOrganization_pathsNonEmpty newID ctx req st :
  pathsNonEmpty st -> pathsNonEmpty (fst (CreateOrganization newID ctx req st)).
Proof.
  intros Hst. unfold CreateOrganization, Organization_Save.
  destruct req as [req|]; [|exact Hst].
  destruct (domainIDFromContext ctx) as [domainID|e]; [|exact Hst].
  destruct (String.eqb (TrimSpace (reqCode req)) "") eqn:Hcode; [exact Hst|].
  destruct (String.eqb (TrimSpace (reqName req)) "") eqn:Hname; [exact Hst|].
  simpl.
  assert (Hnew : forall parentID pathPrefix o,
             In o (organizations st ++
                   [{| oID := newID; oDomainID := domainID;
                       oParentID := parentID;
                       oCode := TrimSpace (reqCode req);
                       oName := TrimSpace (reqName req);
                       oPath := if negb (String.eqb pathPrefix "")
                                then String.append (String.append pathPrefix "/")
                                       (TrimSpace (reqCode req))
                                else TrimSpace (reqCode req) |}]) ->
             oPath o <> "").
  { intros parentID pathPrefix o Hin.
    apply in_app_or in Hin. destruct Hin as [Hin|[Hin|[]]]; [apply Hst, Hin|].
    subst o. simpl.
    destruct (String.eqb pathPrefix "") eqn:Hp; simpl.
    - apply eqb_empty_false. exact Hcode.
    - apply append_nonempty, append_nonempty. apply eqb_empty_false. exact Hp. }
  destruct (reqParentID req) as [parentID|].
  - destruct (Only _) as [parent|e]; simpl.
    + destruct (organization_conflict _ _); simpl; [exact Hst|].
      intros o. apply Hnew.
    + destruct (IsNotFound e); exact Hst.
  - simpl. destruct (organization_conflict _ _); simpl; [exact Hst|].
    intros o. apply (Hnew None "").
Qed.

Lemma run_pathsNonEmpty calls : forall st,
  pathsNonEmpty st -> pathsNonEmpty (run st calls).
Proof.
  induction calls as [|c calls IH]; intros st Hst; simpl; [exact Hst|].
  apply IH. destruct c as [newID ctx req|newID ctx organizationID req]; simpl.
  - apply CreateOrganization_pathsNonEmpty. exact Hst.
  - intros o. rewrite AddOrganizationMember_organizations. apply Hst.
Qed.

(** The stores built by the service keep the paths in step with the parent
    references. *)
Lemma CreateOrganization_pathsFollowParents newID ctx req st :
  pathsNonEmpty st -> pathsFollowParents st ->
  pathsFollowParents (fst (CreateOrganization newID ctx req st)).
Proof.
  intros Hne Hst. unfold CreateOrganization, Organization_Save.
  destruct req as [req|]; [|exact Hst].
  destruct (domainIDFromContext ctx) as [domainID|e]; [|exact Hst].
  destruct (_ || _); [exact Hst|].
  assert (Hold : forall row o p,
            In o (organizations st) -> oParentID o = Some p ->
            exists parent,
              In parent (organizations st ++ [row]) /\ oID parent = p
              /\ oDomainID parent = oDomainID o
              /\ oPath o = String.append (String.append (oPath parent) "/")
                                         (oCode o)).
  { intros row o p Hin Hp. destruct (Hst o p Hin Hp) as [parent [H1 H2]].
    exists parent. split; [apply in_or_app; left; exact H1 | exact H2]. }
  destruct (reqParentID req) as [parentID|].
  - destruct (Only _) as [parent|e] eqn:Honly; simpl.
    + destruct (organization_conflict _ _); simpl; [exact Hst|].
      apply Only_Ok in Honly.
      assert (Hin : In parent (filter (organizationInDomain parentID domainID)
                                      (organizations st))).
      { rewrite Honly. left. reflexivity. }
      apply filter_In in Hin. destruct Hin as [Hin Hp].
      unfold organizationInDomain in Hp. apply andb_true_iff in Hp.
      destruct Hp as [_ Hd]. apply uuid_eqb_eq in Hd.
      intros o p Ho Hparent. apply in_app_or in Ho.
      destruct Ho as [Ho|[Ho|[]]]; [apply Hold; assumption|].
      subst o. simpl in Hparent. inversion Hparent; subst p. simpl.
      exists parent. split; [apply in_or_app; left; exact Hin|].
      split; [reflexivity|]. split; [exact Hd|].
      assert (Hnz : String.eqb (oPath parent) "" = false).
      { apply eqb_empty_false. apply Hne. exact Hin. }
      rewrite Hnz. reflexivity.
    + destruct (IsNotFound e); exact Hst.
  - simpl. destruct (organization_conflict _ _); simpl; [exact Hst|].
    intros o p Ho Hparent. apply in_app_or in Ho.
    destruct Ho as [Ho|[Ho|[]]]; [apply Hold; assumption|].
    subst o. simpl in Hparent. discriminate.
Qed.

Lemma run_pathsFollowParents calls : forall st,
  pathsNonEmpty st -> pathsFollowParents st ->
  pathsFollowParents (run st calls).
Proof.
  induction calls as [|c calls IH]; intros st Hne Hst; simpl; [exact Hst|].
  destruct c as [newID ctx req|newID ctx organizationID req]; simpl.
  - apply IH.
    + apply CreateOrganization_pathsNonEmpty. exact Hne.
    + apply CreateOrganization_pathsFollowParents; assumption.
  - apply IH.
    + intros o. rewrite AddOrganizationMember_organizations. apply Hne.
    + intros o p. rewrite AddOrganizationMember_organizations. apply Hst.
Qed.

(** C5.  In a store built by the service (any run of calls from the empty
    store), a [CreateOrganization] call with a domain in its context and a
    non-empty trimmed code and name behaves as follows.  With a [parentID]:
    when no node of the domain has that id the call fails with
    [ErrOrganizationNotFound] and changes nothing; when the call succeeds,
    the parent is a node of the same domain and the created row, appended
    to the table, has the path [parent.path + "/" + code]; and it does
    succeed when the parent is found and the store accepts the row.
    Without a [parentID] the created row has the path [code]. *)
Theorem CreateOrganization_path :
  forall (calls : list Call) (newID : UUID) (ctx : Context)
         (req : CreateOrganizationRequest) (domainID : UUID),
    domainIDFromContext ctx = Ok domainID ->
    TrimSpace (reqCode req) <> "" ->
    TrimSpace (reqName req) <> "" ->
    let st := run emptyStore calls in
    let code := TrimSpace (reqCode req) in
    let out := CreateOrganization newID ctx (Some req) st in
    let row parent path :=
      {| oID := newID; oDomainID := domainID; oParentID := parent;
         oCode := code; oName := TrimSpace (reqName req); oPath := path |} in
    match reqParentID req with
    | Some parentID =>
        ((forall o, In o (organizations st) ->
                    organizationInDomain parentID domainID o = false) ->
         out = (st, Err ErrOrganizationNotFound))
        /\ (forall resp, snd out = Ok resp ->
              exists parent,
                In parent (organizations st)
                /\ oID parent = parentID /\ oDomainID parent = domainID
                /\ respPath resp
                   = String.append (String.append (oPath parent) "/") code
                /\ organizations (fst out)
                   = organizations st ++ [row (Some parentID) (respPath resp)])
        /\ (forall parent,
              filter (organizationInDomain parentID domainID)
                     (organizations st) = [parent] ->
              organization_conflict (organizations st)
                (row (Some parentID)
                     (String.append (String.append (oPath parent) "/") code))
              = false ->
              isOk (snd out) = true)
    | None =>
        (forall resp, snd out = Ok resp ->
           respPath resp = code
           /\ organizations (fst out) = organizations st ++ [row None code])
        /\ (organization_conflict (organizations st) (row None code) = false ->
            isOk (snd out) = true)
    end.
Proof.
  intros calls newID ctx req domainID Hdom Hcode Hname st code out row.
  assert (Hpaths : pathsNonEmpty st).
  { apply run_pathsNonEmpty. intros o []. }
  apply eqb_empty_false in Hcode. apply eqb_empty_false in Hname.
  subst code out row. cbv beta. unfold CreateOrganization, Organization_Save.
  rewrite Hdom, Hcode, Hname. simpl.
  destruct (reqParentID req) as [parentID|].
  - split; [|split].
    + intros Hnone. rewrite (filter_none _ _ Hnone). reflexivity.
    + intros resp.
      destruct (Only _) as [parent|e] eqn:Honly; simpl;
        [|destruct (IsNotFound e); discriminate].
      apply Only_Ok in Honly.
      assert (Hin : In parent (filter (organizationInDomain parentID domainID)
                                      (organizations st))).
      { rewrite Honly. left. reflexivity. }
      apply filter_In in Hin. destruct Hin as [Hin Hp].
      unfold organizationInDomain in Hp. apply andb_true_iff in Hp.
      destruct Hp as [Hid Hd]. apply uuid_eqb_eq in Hid. apply uuid_eqb_eq in Hd.
      assert (Hne : String.eqb (oPath parent) "" = false).
      { apply eqb_empty_false. apply Hpaths. exact Hin. }
      rewrite Hne. simpl.
      destruct (organization_conflict _ _); simpl; [discriminate|].
      intros Hresp. inversion Hresp; subst resp; clear Hresp. simpl.
      exists parent. rewrite Hid. repeat split; try assumption; reflexivity.
    + intros parent Hfilter Hfree. rewrite Hfilter. simpl.
      assert (Hin : In parent (organizations st)).
      { assert (H : In parent (filter (organizationInDomain parentID domainID)
                                      (organizations st))).
        { rewrite Hfilter. left. reflexivity. }
        apply filter_In in H. apply H. }
      assert (Hid : oID parent = parentID).
      { assert (H : In parent (filter (organizationInDomain parentID domainID)
                                      (organizations st))).
        { rewrite Hfilter. left. reflexivity. }
        apply filter_In in H. destruct H as [_ H].
        unfold organizationInDomain in H. apply andb_true_iff in H.
        apply uuid_eqb_eq. apply H. }
      assert (Hne : String.eqb (oPath parent) "" = false).
      { apply eqb_empty_false. apply Hpaths. exact Hin. }
      rewrite Hne. simpl. rewrite Hid, Hfree. reflexivity.
  - simpl. split.
    + intros resp. destruct (organization_conflict _ _); simpl; [discriminate|].
      intros Hresp. inversion Hresp; subst resp; clear Hresp. simpl.
      split; reflexivity.
    + intros Hfree. rewrite Hfree. reflexivity.
Qed.

(** ** Subtrees *)

Lemma prefix_refl (s : string) : String.prefix s s = true.
Proof.
  induction s as [|a s IH]; simpl; [reflexivity|].
  destruct (Ascii.ascii_dec a a); [exact IH | contradiction].
Qed.

Lemma prefix_append (a : string) : forall b c,
  String.prefix a b = true -> String.prefix a (String.append b c) = true.
Proof.
  induction a as [|x a IH]; intros b c H.
  - destruct (String.append b c); reflexivity.
  - destruct b as [|y b]; simpl in H; [discriminate|]. simpl.
    destruct (Ascii.ascii_dec x y); [apply IH; exact H | discriminate].
Qed.

(** The loop of [uniqueUserIDs] keeps [userIDs] free of repetitions and
    adds exactly the user ids of the items. *)
Lemma uniqueUserIDs_loop_spec (items : list OrganizationMember) :
  forall seen userIDs,
    (forall x, In x seen <-> In x userIDs) ->
    NoDup userIDs ->
    NoDup (uniqueUserIDs_loop items seen userIDs)
    /\ forall x, In x (uniqueUserIDs_loop items seen userIDs) <->
                 In x userIDs \/ exists m, In m items /\ mUserID m = x.
Proof.
  induction items as [|item rest IH]; intros seen userIDs Hsame Hnd; simpl.
  - split; [exact Hnd|]. intros x. split; [auto|].
    intros [H|[m [[] _]]]. exact H.
  - destruct (existsb (uuid_eqb (mUserID item)) seen) eqn:Hseen.
    + apply existsb_exists in Hseen. destruct Hseen as [y [Hy Heq]].
      apply uuid_eqb_eq in Heq. subst y.
      destruct (IH seen userIDs Hsame Hnd) as [Hnd' Hin]. split; [exact Hnd'|].
      intros x. rewrite Hin. split.
      * intros [H|[m [Hm Hx]]]; [left; exact H|right].
        exists m. split; [right; exact Hm | exact Hx].
      * intros [H|[m [[Hm|Hm] Hx]]].
        -- left. exact H.
        -- subst m x. left. apply Hsame. exact Hy.
        -- right. exists m. auto.
    + assert (Hnew : ~ In (mUserID item) userIDs).
      { intros Hin. apply Hsame in Hin.
        rewrite existsb_false_iff in Hseen. specialize (Hseen _ Hin).
        rewrite uuid_eqb_refl in Hseen. discriminate. }
      destruct (IH (mUserID item :: seen) (userIDs ++ [mUserID item]))
        as [Hnd' Hin].
      * intros x. simpl. rewrite in_app_iff. simpl. rewrite Hsame. tauto.
      * apply NoDup_app; [exact Hnd | constructor; [intros [] | constructor] |].
        intros x Hx [Hx'|[]]. subst x. contradiction.
      * split; [exact Hnd'|]. intros x. rewrite Hin, in_app_iff. simpl. split.
        -- intros [[H|[H|[]]]|[m [Hm Hx]]].
           ++ left. exact H.
           ++ right. exists item. auto.
           ++ right. exists m. auto.
        -- intros [H|[m [[Hm|Hm] Hx]]].
           ++ left. left. exact H.
           ++ subst m. left. right. left. exact Hx.
           ++ right. exists m. auto.
Qed.

Lemma uniqueUserIDs_spec (items : list OrganizationMember) :
  NoDup (uniqueUserIDs items)
  /\ forall x, In x (uniqueUserIDs items) <->
               exists m, In m items /\ mUserID m = x.
Proof.
  destruct items as [|item rest].
  - simpl. split; [constructor|]. intros x. split; [intros []|].
    intros [m [[] _]].
  - unfold uniqueUserIDs.
    destruct (@uniqueUserIDs_loop_spec (item :: rest) [] [])
      as [Hnd Hin]; [tauto | constructor |].
    split; [exact Hnd|]. intros x. rewrite Hin. split.
    + intros [[]|H]. exact H.
    + intros H. right. exact H.
Qed.

(** What [ListSubtreeUserIDs] returns: without repetition, the user ids
    of the members (in the domain) of the nodes of the domain whose path
    starts with the path of the node. *)
Lemma ListSubtreeUserIDs_selects st domainID orgID org result :
  Only (filter (organizationInDomain orgID domainID) (organizations st))
  = Ok org ->
  ListSubtreeUserIDs st domainID orgID = Ok result ->
  NoDup result
  /\ forall u,
       In u result <->
       exists m o,
         In m (members st) /\ mDomainID m = domainID /\ mUserID m = u
         /\ In o (organizations st) /\ oID o = mOrganizationID m
         /\ oDomainID o = domainID
         /\ String.prefix (oPath org) (oPath o) = true.
Proof.
  intros Horg. unfold ListSubtreeUserIDs. rewrite Horg.
  set (nodes := filter (fun o => uuid_eqb (oDomainID o) domainID
                                 && PathHasPrefix (oPath org) o)
                       (organizations st)).
  set (found := filter (fun m => uuid_eqb (mDomainID m) domainID
                                 && existsb (uuid_eqb (mOrganizationID m))
                                            (map oID nodes))
                       (members st)).
  assert (Hfound : forall m, In m found <->
            In m (members st) /\ mDomainID m = domainID
            /\ exists o, In o (organizations st) /\ oID o = mOrganizationID m
                         /\ oDomainID o = domainID
                         /\ String.prefix (oPath org) (oPath o) = true).
  { intros m. unfold found. rewrite filter_In, andb_true_iff, uuid_eqb_eq.
    rewrite existsb_exists. split.
    - intros [Hm [Hd [id [Hid Heq]]]]. apply uuid_eqb_eq in Heq. subst id.
      apply in_map_iff in Hid. destruct Hid as [o [Ho Hin]].
      unfold nodes in Hin. apply filter_In in Hin. destruct Hin as [Hin Hp].
      apply andb_true_iff in Hp. destruct Hp as [Hod Hp].
      apply uuid_eqb_eq in Hod. split; [exact Hm|]. split; [exact Hd|].
      exists o. auto.
    - intros [Hm [Hd [o [Hin [Ho [Hod Hp]]]]]]. split; [exact Hm|].
      split; [exact Hd|]. exists (oID o). split.
      + apply in_map. unfold nodes. apply filter_In. split; [exact Hin|].
        apply andb_true_iff. split; [apply uuid_eqb_eq; exact Hod | exact Hp].
      + apply uuid_eqb_eq. symmetry. exact Ho. }
  assert (Hresult : uniqueUserIDs found = result ->
            NoDup result
            /\ forall u, In u result <->
                 exists m o,
                   In m (members st) /\ mDomainID m = domainID /\ mUserID m = u
                   /\ In o (organizations st) /\ oID o = mOrganizationID m
                   /\ oDomainID o = domainID
                   /\ String.prefix (oPath org) (oPath o) = true).
  { intros Hr. subst result.
    destruct (uniqueUserIDs_spec found) as [Hnd Hin]. split; [exact Hnd|].
    intros u. rewrite Hin. split.
    - intros [m [Hm Hu]]. apply Hfound in Hm.
      destruct Hm as [Hm [Hd [o Ho]]]. exists m, o. tauto.
    - intros [m [o [Hm [Hd [Hu Ho]]]]]. exists m. split; [|exact Hu].
      apply Hfound. split; [exact Hm|]. split; [exact Hd|]. exists o. exact Ho. }
  destruct nodes as [|n nodes'] eqn:Hnodes.
  - (* no node selected: no member is found either *)
    intros H. inversion H; subst result; clear H. apply Hresult.
    assert (Hnone : found = []).
    { unfold found. apply filter_none. intros m _. simpl. apply andb_false_r. }
    rewrite Hnone. reflexivity.
  - intros H. apply Hresult. congruence.
Qed.

(** Along the parent references the paths grow: a node that descends from
    [root] has a path that starts with the path of a node with the id
    [root], in the same domain. *)
Lemma descendantOrSelf_prefix st root :
  NoDup (map oID (organizations st)) ->
  pathsFollowParents st ->
  forall fuel o,
    In o (organizations st) ->
    descendantOrSelf fuel (organizations st) root o = true ->
    exists r,
      In r (organizations st) /\ oID r = root
      /\ oDomainID r = oDomainID o
      /\ String.prefix (oPath r) (oPath o) = true.
Proof.
  intros Hnd Hpaths. induction fuel as [|fuel IH]; intros o Hin Hdesc.
  - simpl in Hdesc. rewrite orb_false_r in Hdesc. apply uuid_eqb_eq in Hdesc.
    exists o. split; [exact Hin|]. split; [exact Hdesc|].
    split; [reflexivity | apply prefix_refl].
  - simpl in Hdesc. apply orb_true_iff in Hdesc. destruct Hdesc as [Hself|Hup].
    + apply uuid_eqb_eq in Hself.
      exists o. split; [exact Hin|]. split; [exact Hself|].
      split; [reflexivity | apply prefix_refl].
    + destruct (oParentID o) as [p|] eqn:Hparent; [|discriminate].
      apply existsb_exists in Hup. destruct Hup as [o' [Hin' Ho']].
      apply andb_true_iff in Ho'. destruct Ho' as [Hid Hdesc'].
      apply uuid_eqb_eq in Hid.
      destruct (Hpaths o p Hin Hparent) as [parent [Hpin [Hpid [Hpdom Hpath]]]].
      assert (parent = o').
      { apply (NoDup_map_eq oID (organizations st)); try assumption. congruence. }
      subst o'.
      destruct (IH parent Hpin Hdesc') as [r [Hr [Hrid [Hrdom Hpre]]]].
      exists r. split; [exact Hr|]. split; [exact Hrid|].
      split; [congruence|].
      rewrite Hpath. apply prefix_append, prefix_append. exact Hpre.
Qed.

(** Every user of the subtree is listed: on a store with distinct node
    ids whose paths follow the parent references, the answer of
    [ListSubtreeUserIDs] contains the users assigned to the node or to one
    of its descendants. *)
Lemma ListSubtreeUserIDs_covers_subtree st domainID orgID result :
  NoDup (map oID (organizations st)) ->
  pathsFollowParents st ->
  ListSubtreeUserIDs st domainID orgID = Ok result ->
  forall u, subtreeUser st domainID orgID u = true -> In u result.
Proof.
  intros Hnd Hpaths Hres u Hu.
  destruct (Only (filter (organizationInDomain orgID domainID)
                         (organizations st))) as [org|e] eqn:Horg.
  - destruct (@ListSubtreeUserIDs_selects st domainID orgID org result
                Horg Hres) as [_ Hin].
    apply Hin. clear Hin.
    unfold subtreeUser in Hu. apply existsb_exists in Hu.
    destruct Hu as [m [Hm Hu]].
    apply andb_true_iff in Hu. destruct Hu as [Hu Ho].
    apply andb_true_iff in Hu. destruct Hu as [Hmd Hmu].
    apply uuid_eqb_eq in Hmd. apply uuid_eqb_eq in Hmu.
    apply existsb_exists in Ho. destruct Ho as [o [Hoin Ho]].
    apply andb_true_iff in Ho. destruct Ho as [Ho Hdesc].
    apply andb_true_iff in Ho. destruct Ho as [Hoid Hod].
    apply uuid_eqb_eq in Hoid. apply uuid_eqb_eq in Hod.
    destruct (@descendantOrSelf_prefix st orgID Hnd Hpaths _ o Hoin Hdesc)
      as [r [Hr [Hrid [Hrdom Hpre]]]].
    assert (Horgin : In org (organizations st) /\ oID org = orgID).
    { apply Only_Ok in Horg.
      assert (H : In org (filter (organizationInDomain orgID domainID)
                                 (organizations st))).
      { rewrite Horg. left. reflexivity. }
      apply filter_In in H. destruct H as [H Hp]. split; [exact H|].
      unfold organizationInDomain in Hp. apply andb_true_iff in Hp.
      apply uuid_eqb_eq. apply Hp. }
    destruct Horgin as [Horgin Horgid].
    assert (r = org).
    { apply (NoDup_map_eq oID (organizations st)); try assumption. congruence. }
    subst r. exists m, o. auto 10.
  - unfold ListSubtreeUserIDs in Hres. rewrite Horg in Hres.
    destruct (IsNotFound e); discriminate.
Qed.

(** Without the node there is no subtree to list. *)
Lemma ListSubtreeUserIDs_not_found st domainID orgID :
  (forall o, In o (organizations st) ->
             organizationInDomain orgID domainID o = false) ->
  ListSubtreeUserIDs st domainID orgID = Err ErrOrganizationNotFound.
Proof.
  intros Hnone. unfold ListSubtreeUserIDs.
  rewrite (filter_none _ _ Hnone). reflexivity.
Qed.

End WithSchema.

Import scenario.

Lemma emptyStore_primaryUnique : primaryUnique emptyStore.
Proof. intros d u. unfold primaryCount. simpl. lia. Qed.

(** The property of C9 on a run that makes user 5 primary twice: the first
    primary row is demoted, one primary row is left. *)
Lemma AddOrganizationMember_single_primary_witness :
  primaryUnique (run emptyStore twoPrimaries)
  /\ primaryCount 7 5 (run emptyStore twoPrimaries) = 1.
Proof.
  split.
  - exact (proj1 (AddOrganizationMember_single_primary twoPrimaries
                    emptyStore_primaryUnique)).
  - reflexivity.
Defined.

(** The round trip of C5: root "company", then "engineering" under it. *)
Lemma CreateOrganization_path_witness :
  exists resp,
    snd (CreateOrganization 2 (platformCtx None)
           (Some (mkOrg "engineering" (Some 1)))
           (run emptyStore companyCalls)) = Ok resp
    /\ respPath resp = "company/engineering".
Proof.
  assert (Hcode : TrimSpace (reqCode (mkOrg "engineering" (Some 1))) <> "")
    by (vm_compute; discriminate).
  assert (Hname : TrimSpace (reqName (mkOrg "engineering" (Some 1))) <> "")
    by (vm_compute; discriminate).
  pose proof (@CreateOrganization_path decimalText ouSchema companyCalls 2
                (platformCtx None) (mkOrg "engineering" (Some 1)) 7
                eq_refl Hcode Hname) as H.
  simpl in H. destruct H as [_ [H _]].
  eexists. split; [reflexivity|].
  destruct (H _ eq_refl) as [parent [Hin [_ [_ [Hpath _]]]]].
  destruct Hin as [Hin|[]]. subst parent. exact Hpath.
Defined.

(** C3 (the code departs from the claim).  With the unrelated roots "eng"
    and "engineering" in one domain and user 5 assigned to "engineering"
    only, [ListSubtreeUserIDs] on "eng" returns user 5: the prefix test on
    paths also selects "engineering", which is neither "eng" nor one of its
    descendants. *)
Theorem ListSubtreeUserIDs_prefix_leak :
  let st := run emptyStore siblingCalls in
  ListSubtreeUserIDs st 7 1 = Ok [5]
  /\ subtreeUser st 7 1 5 = false
  /\ map oPath (organizations st) = ["eng"; "engineering"]
  /\ map oParentID (organizations st) = [None; None].
Proof. vm_compute. repeat split. Qed.

End organization_facts.

(** * Facts about package [tenant] *)

Module tenant_facts.
Import tenant query_facts.

(** ** [ensureMembership] on a pair without a row *)

Lemma ensureMembership_fresh now newID rows tenantID userID forceDefault roleName :
  filter (membershipOf tenantID userID) rows = [] ->
  ensureMembership now newID rows tenantID userID forceDefault roleName
  = Ok (rows ++ [newMembership now newID tenantID userID
                   (freshDefault rows userID forceDefault) roleName]).
Proof.
  intros Hnone. unfold ensureMembership, freshDefault. rewrite Hnone. simpl.
  destruct forceDefault; reflexivity.
Qed.

Lemma ensureMembershipTx_fresh now newID rows tenantID userID forceDefault roleName :
  filter (membershipOf tenantID userID) rows = [] ->
  ensureMembershipTx false now newID rows tenantID userID forceDefault roleName
  = Ok (rows ++ [newMembership now newID tenantID userID
                   (freshDefault rows userID forceDefault) roleName]).
Proof.
  intros Hnone. unfold ensureMembershipTx, freshDefault. rewrite Hnone. simpl.
  destruct forceDefault; reflexivity.
Qed.

(** C8, as amended.  When no row exists for the (tenant, user) pair, both
    [ensureMembership] and [ensureMembershipTx] append one fresh row, and
    its [isDefault] flag is true if and only if [forceDefault] was requested
    or the user has no non-deleted membership row with [isDefault = true]
    (rows of any status count, not only active ones).  Consequently the
    first membership row ever created for a user is a default one. *)
Theorem ensureMembership_fresh_default :
  forall (now : Time) (newID : UUID) (rows : list TenantUser)
         (tenantID userID : UUID) (forceDefault : bool) (roleName : string),
    filter (membershipOf tenantID userID) rows = [] ->
    exists row,
      ensureMembership now newID rows tenantID userID forceDefault roleName
      = Ok (rows ++ [row])
      /\ ensureMembershipTx false now newID rows tenantID userID forceDefault
           roleName = Ok (rows ++ [row])
      /\ tuTenantID row = tenantID /\ tuUserID row = userID
      /\ tuStatus row = StatusActive /\ tuDeletedAt row = None
      /\ (tuIsDefault row = true <->
          forceDefault = true
          \/ ~ exists r, In r rows /\ tuUserID r = userID
                         /\ tuIsDefault r = true /\ tuDeletedAt r = None)
      /\ ((forall r, In r rows -> tuUserID r <> userID) ->
          tuIsDefault row = true).
Proof.
  intros now newID rows tenantID userID forceDefault roleName Hnone.
  exists (newMembership now newID tenantID userID
            (freshDefault rows userID forceDefault) roleName).
  split; [apply ensureMembership_fresh; exact Hnone|].
  split; [apply ensureMembershipTx_fresh; exact Hnone|].
  simpl. repeat split.
  - (* the flag is set: forced, or no default row *)
    unfold freshDefault. intros H. apply orb_true_iff in H.
    destruct H as [H|H]; [left; exact H|right].
    apply negb_true_iff in H. intros [r [Hin [Hu [Hd Hz]]]].
    rewrite existsb_false_iff in H. specialize (H r Hin).
    unfold defaultOf in H. rewrite Hu, uuid_eqb_refl, Hd, Hz in H.
    discriminate.
  - unfold freshDefault. intros [H|H]; [rewrite H; reflexivity|].
    apply orb_true_iff. right. apply negb_true_iff.
    apply existsb_false_iff. intros r Hin.
    destruct (defaultOf userID r) eqn:Hdef; [|reflexivity].
    exfalso. apply H. exists r. unfold defaultOf in Hdef.
    apply andb_true_iff in Hdef. destruct Hdef as [Hdef Hz].
    apply andb_true_iff in Hdef. destruct Hdef as [Hu Hd].
    apply uuid_eqb_eq in Hu.
    destruct (tuDeletedAt r); [discriminate|]. auto.
  - (* the first membership of a user *)
    intros Hfirst. unfold freshDefault. apply orb_true_iff. right.
    apply negb_true_iff. apply existsb_false_iff. intros r Hin.
    unfold defaultOf. destruct (uuid_eqb (tuUserID r) userID) eqn:Hu;
      [|reflexivity].
    apply uuid_eqb_eq in Hu. exfalso. exact (Hfirst r Hin Hu).
Qed.

(** On a table in which every non-deleted row of the user is active (as
    in every table written by this service alone), the check reads as
    the absence of an active default membership. *)
Lemma freshDefault_active_rows (rows : list TenantUser) (userID : UUID)
    (forceDefault : bool) :
  (forall r, In r rows -> tuUserID r = userID -> tuDeletedAt r = None ->
             tuStatus r = StatusActive) ->
  (freshDefault rows userID forceDefault = true <->
   forceDefault = true
   \/ filter (fun r => activeOf userID r && tuIsDefault r) rows = []).
Proof.
  intros Hactive. unfold freshDefault. rewrite orb_true_iff, negb_true_iff.
  rewrite existsb_false_iff. split; (intros [H|H]; [left; exact H|right]).
  - apply filter_none. intros r Hin.
    specialize (H r Hin). unfold defaultOf in H. unfold activeOf.
    destruct (uuid_eqb (tuUserID r) userID); [|reflexivity].
    destruct (tuIsDefault r); [|apply andb_false_r].
    simpl in H. rewrite H. reflexivity.
  - intros r Hin. pose proof (filter_nil_none _ _ H r Hin) as Hr.
    unfold defaultOf. unfold activeOf in Hr.
    destruct (uuid_eqb (tuUserID r) userID) eqn:Hu; [|reflexivity].
    destruct (tuIsDefault r); [|reflexivity].
    destruct (tuDeletedAt r) eqn:Hd; [reflexivity|].
    apply uuid_eqb_eq in Hu.
    rewrite (Hactive r Hin Hu Hd) in Hr. simpl in Hr.
    discriminate.
Qed.

(** The first membership of user 1 is a default one. *)
Lemma ensureMembership_fresh_default_witness :
  exists row,
    ensureMembership 5 300 [] 100 1 false "member" = Ok [row]
    /\ tuIsDefault row = true.
Proof.
  destruct (ensureMembership_fresh_default 5 300 [] 100 1 false "member"
              eq_refl)
    as [row [Hrun [_ [_ [_ [_ [_ [_ Hfirst]]]]]]]].
  exists row. split; [exact Hrun|]. apply Hfirst. intros r [].
Defined.

(** C8 as stated fails.  User 1 has one membership row: default, not
    deleted, status "inactive".  The user therefore has no active
    non-deleted default membership, and [forceDefault] is not requested,
    yet the fresh row for tenant 101 is inserted with [isDefault = false]:
    the default check of [ensureMembership] does not look at the status. *)
Lemma ensureMembership_inactive_default_counterexample :
  filter (membershipOf 101 1) [scenario.inactiveDefault] = []
  /\ filter (fun r => activeOf 1 r && tuIsDefault r)
            [scenario.inactiveDefault] = []
  /\ ensureMembership 5 301 [scenario.inactiveDefault] 101 1 false "member"
     = Ok [scenario.inactiveDefault; newMembership 5 301 101 1 false "member"]
  /\ ensureMembershipTx false 5 301 [scenario.inactiveDefault] 101 1 false
       "member"
     = Ok [scenario.inactiveDefault; newMembership 5 301 101 1 false "member"].
Proof. vm_compute. repeat split. Qed.

(** ** [RemoveMember] *)

Lemma oldest_from_spec (rows : list TenantUser) : forall best,
  In (oldest_from best rows) (best :: rows)
  /\ forall r, In r (best :: rows) ->
               tuCreatedAt (oldest_from best rows) <= tuCreatedAt r.
Proof.
  induction rows as [|x rows IH]; intros best; simpl.
  - split; [left; reflexivity|]. intros r [Hr|[]]. subst r. lia.
  - destruct (Nat.ltb (tuCreatedAt x) (tuCreatedAt best)) eqn:Hlt.
    + apply Nat.ltb_lt in Hlt. destruct (IH x) as [Hin Hmin]. split.
      * destruct Hin as [Hin|Hin]; [right; left; exact Hin | right; right; exact Hin].
      * intros r [Hr|Hr].
        -- subst r. specialize (Hmin x (or_introl eq_refl)). lia.
        -- apply Hmin. exact Hr.
    + apply Nat.ltb_ge in Hlt. destruct (IH best) as [Hin Hmin]. split.
      * destruct Hin as [Hin|Hin]; [left; exact Hin | right; right; exact Hin].
      * intros r [Hr|[Hr|Hr]].
        -- apply Hmin. left. exact Hr.
        -- subst r. specialize (Hmin best (or_introl eq_refl)). lia.
        -- apply Hmin. right. exact Hr.
Qed.

Lemma FirstOldest_spec (rows : list TenantUser) (alt : TenantUser) :
  FirstOldest rows = Ok alt ->
  In alt rows /\ forall r, In r rows -> tuCreatedAt alt <= tuCreatedAt r.
Proof.
  destruct rows as [|x rows]; simpl; [discriminate|].
  intros H. inversion H. apply oldest_from_spec.
Qed.

Lemma FirstOldest_Err (rows : list TenantUser) (e : Error) :
  FirstOldest rows = Err e -> rows = [].
Proof. destruct rows; simpl; intros H; [reflexivity | discriminate]. Qed.

(** ** The conflict check of [AddMember] *)

Lemma getTenant_Ok (rows : list Tenant) (id : UUID) (t : Tenant) :
  getTenant rows id = Ok t -> In t rows /\ tID t = id.
Proof.
  unfold getTenant, Tenant_Get.
  destruct (Only _) as [t'|e] eqn:Honly;
    [|destruct (IsNotFound e); discriminate].
  intros H. inversion H; subst t'; clear H.
  apply Only_Ok in Honly.
  assert (Hin : In t (filter (fun x => uuid_eqb (tID x) id) rows)).
  { rewrite Honly. left. reflexivity. }
  apply filter_In in Hin. destruct Hin as [Hin Hid].
  apply uuid_eqb_eq in Hid. split; assumption.
Qed.

Lemma getTenant_absent (rows : list Tenant) (id : UUID) :
  (forall t, In t rows -> tID t <> id) -> getTenant rows id = Err ErrTenantNotFound.
Proof.
  intros Habsent. unfold getTenant, Tenant_Get.
  rewrite filter_none; [reflexivity|].
  intros t Hin. destruct (uuid_eqb (tID t) id) eqn:Hid; [|reflexivity].
  apply uuid_eqb_eq in Hid. exfalso. exact (Habsent t Hin Hid).
Qed.

(** The loop answers true exactly when some listed member other than the
    candidate has a user row with the candidate's username or email. *)
Lemma conflictLoop_iff (us : list User) (userID : UUID) (u : UserInfo)
    (l : list TenantUser) :
  conflictLoop (map (withUser us) l) userID u = true <->
  exists m mu,
    In m l /\ tuUserID m <> userID
    /\ find (fun x => uuid_eqb (uID x) (tuUserID m)) us = Some mu
    /\ (uUsername mu = uiUsername u \/ uEmail mu = uiEmail u).
Proof.
  induction l as [|m l IH]; simpl.
  - split; [discriminate|]. intros [m [mu [[] _]]].
  - destruct (find (fun x => uuid_eqb (uID x) (tuUserID m)) us) as [mu|] eqn:Hfind.
    + destruct (uuid_eqb (tuUserID m) userID) eqn:Hsame.
      * (* the candidate's own row is skipped *)
        apply uuid_eqb_eq in Hsame. rewrite IH. split.
        -- intros [m' [mu' [Hin H]]]. exists m', mu'. split; [right; exact Hin | exact H].
        -- intros [m' [mu' [[Heq|Hin] [Hne H]]]].
           ++ subst m'. contradiction.
           ++ exists m', mu'. auto.
      * assert (Hne : tuUserID m <> userID).
        { intros Heq. apply uuid_eqb_eq in Heq. congruence. }
        destruct (String.eqb (uUsername mu) (uiUsername u)
                  || String.eqb (uEmail mu) (uiEmail u)) eqn:Hhit.
        -- split; [intros _|reflexivity].
           exists m, mu. split; [left; reflexivity|]. split; [exact Hne|].
           split; [exact Hfind|].
           apply orb_true_iff in Hhit.
           destruct Hhit as [H|H]; apply String.eqb_eq in H; auto.
        -- rewrite IH. split.
           ++ intros [m' [mu' [Hin H]]]. exists m', mu'. split; [right; exact Hin | exact H].
           ++ intros [m' [mu' [[Heq|Hin] [Hne' [Hfind' Hid]]]]].
              ** subst m'. rewrite Hfind in Hfind'. inversion Hfind'; subst mu'.
                 apply orb_false_iff in Hhit. destruct Hhit as [Hn He].
                 apply String.eqb_neq in Hn. apply String.eqb_neq in He.
                 destruct Hid; contradiction.
              ** exists m', mu'. auto.
    + rewrite IH. split.
      * intros [m' [mu' [Hin H]]]. exists m', mu'. split; [right; exact Hin | exact H].
      * intros [m' [mu' [[Heq|Hin] [Hne [Hfind' Hid]]]]].
        -- subst m'. congruence.
        -- exists m', mu'. auto.
Qed.

(** [ensureMembership] always comes back with a table. *)
Lemma ensureMembership_total now newID rows tenantID userID forceDefault roleName :
  exists rows',
    ensureMembership now newID rows tenantID userID forceDefault roleName
    = Ok rows'.
Proof.
  unfold ensureMembership.
  destruct (filter (membershipOf tenantID userID) rows) as [|existing l]; simpl.
  - eexists. reflexivity.
  - destruct (_ && _); eexists; reflexivity.
Qed.

(** An active membership row of the pair is left as it is. *)
Lemma ensureMembership_active now newID rows tenantID userID forceDefault roleName r :
  First (filter (membershipOf tenantID userID) rows) = Ok r ->
  IsZero (tuDeletedAt r) = true ->
  tuStatus r = StatusActive ->
  ensureMembership now newID rows tenantID userID forceDefault roleName = Ok rows.
Proof.
  intros Hfirst Hzero Hstatus. unfold ensureMembership.
  rewrite Hfirst, Hzero, Hstatus. reflexivity.
Qed.

(** After [ensureMembership] the pair has a row, the first one found for
    it is active and not deleted, and the rows of other users are rows of
    the table before the call. *)
Lemma ensureMembership_result now newID rows tenantID userID forceDefault
    roleName rows1 :
  NoDup (map tuID rows) ->
  ensureMembership now newID rows tenantID userID forceDefault roleName
  = Ok rows1 ->
  (exists r1,
     First (filter (membershipOf tenantID userID) rows1) = Ok r1
     /\ IsZero (tuDeletedAt r1) = true /\ tuStatus r1 = StatusActive)
  /\ (forall m, In m rows1 -> tuUserID m <> userID -> In m rows).
Proof.
  intros Hnd. unfold ensureMembership.
  destruct (filter (membershipOf tenantID userID) rows) as [|existing l] eqn:Hf;
    simpl.
  - (* a fresh row *)
    intros H. inversion H; subst rows1; clear H. split.
    + rewrite filter_app, Hf. simpl.
      unfold membershipOf at 1. simpl. rewrite !uuid_eqb_refl. simpl.
      eexists. split; [reflexivity|]. split; reflexivity.
    + intros m Hin Hne. apply in_app_or in Hin.
      destruct Hin as [Hin|[Hin|[]]]; [exact Hin|].
      subst m. simpl in Hne. contradiction.
  - assert (Hex : In existing rows /\ membershipOf tenantID userID existing = true).
    { apply filter_In. rewrite Hf. left. reflexivity. }
    destruct Hex as [Hex Hpair].
    destruct (IsZero (tuDeletedAt existing)
              && String.eqb (tuStatus existing) StatusActive) eqn:Hact.
    + (* the row is active: nothing changes *)
      intros H. inversion H; subst rows1; clear H. split; [|auto].
      rewrite Hf. simpl. exists existing. split; [reflexivity|].
      apply andb_true_iff in Hact. destruct Hact as [Hz Hs].
      apply String.eqb_eq in Hs. auto.
    + (* the row is reactivated *)
      intros H. inversion H; subst rows1; clear H. split.
      * rewrite filter_updateWhere by reflexivity. rewrite Hf. simpl.
        rewrite uuid_eqb_refl. eexists. split; [reflexivity|].
        split; reflexivity.
      * intros m Hin Hne. apply In_updateWhere in Hin.
        destruct Hin as [x [Hx Hm]].
        destruct (uuid_eqb (tuID x) (tuID existing)) eqn:Hid.
        -- apply uuid_eqb_eq in Hid.
           assert (x = existing) by (eapply NoDup_map_eq; eauto).
           subst x m. simpl in Hne. exfalso. apply Hne.
           unfold membershipOf in Hpair. apply andb_true_iff in Hpair.
           apply uuid_eqb_eq. apply Hpair.
        -- subst m. exact Hx.
Qed.

Section WithDomainService.
Context {codec : UUIDText} {D : Type} {domainSvc : DomainWriter D}.

Lemma conflicting_iff (w : World D) (t : Tenant) (userID : UUID) (u : UserInfo) :
  conflictLoop (map (withUser (users w))
                    (filter (activeIn (tID t)) (tenantUsers w))) userID u = true
  <-> exists m mu, conflicting w (tID t) userID u m mu.
Proof.
  rewrite conflictLoop_iff. unfold conflicting. split.
  - intros [m [mu [Hin [Hne [Hfind Hid]]]]]. apply filter_In in Hin.
    destruct Hin as [Hin Hact]. exists m, mu. auto.
  - intros [m [mu [Hin [Hact [Hne [Hfind Hid]]]]]]. exists m, mu.
    split; [apply filter_In; split; assumption|]. auto.
Qed.

(** What [AddMember] returns once the platform-domain check, the tenant
    lookup and the user lookup have gone through. *)
Lemma AddMember_MemberExists now newID ctx tenantID userID role (w : World D) t u :
  requirePlatformDomain ctx = Ok tt ->
  getTenant (tenants w) tenantID = Ok t ->
  GetUser (users w) userID = Ok u ->
  (snd (AddMember now newID ctx tenantID userID role w) = Err ErrMemberExists
   <-> exists m mu, conflicting w tenantID userID u m mu).
Proof.
  intros Hgate Htenant Huser.
  destruct (getTenant_Ok _ _ Htenant) as [_ Hid].
  subst tenantID. rewrite <- conflicting_iff.
  unfold AddMember. rewrite Hgate, Htenant, Huser.
  destruct (conflictLoop _ userID u); simpl.
  - split; reflexivity.
  - split; [|discriminate].
    destruct (negb _).
    + destruct (AddMembership _ _ _ _ _) as [d1 [[]|e]]; simpl; [|discriminate].
      destruct (ensureMembership _ _ _ _ _ _ _); simpl; discriminate.
    + destruct (ensureMembership _ _ _ _ _ _ _); simpl; discriminate.
Qed.

Lemma AddMember_succeeds now newID ctx tenantID userID role (w : World D) t u :
  requirePlatformDomain ctx = Ok tt ->
  getTenant (tenants w) tenantID = Ok t ->
  GetUser (users w) userID = Ok u ->
  (forall m mu, ~ conflicting w tenantID userID u m mu) ->
  domainAccepts w t userID role ->
  snd (AddMember now newID ctx tenantID userID role w) = Ok tt.
Proof.
  intros Hgate Htenant Huser Hfree Hdomain.
  destruct (getTenant_Ok _ _ Htenant) as [_ Hid].
  assert (Hloop : conflictLoop (map (withUser (users w))
                    (filter (activeIn (tID t)) (tenantUsers w))) userID u = false).
  { destruct (conflictLoop _ userID u) eqn:Hloop; [|reflexivity].
    apply conflicting_iff in Hloop. rewrite Hid in Hloop.
    destruct Hloop as [m [mu H]]. exfalso. exact (Hfree m mu H). }
  unfold AddMember. rewrite Hgate, Htenant, Huser, Hloop.
  destruct (ensureMembership_total now newID (tenantUsers w) (tID t) userID
              false (roleOrMember role)) as [rows' Hrows].
  unfold roleOrMember in Hrows.
  destruct Hdomain as [Hnil|Hok].
  - rewrite Hnil. simpl. rewrite Hrows. reflexivity.
  - destruct (negb _); simpl.
    + unfold roleOrMember in Hok.
      destruct (AddMembership _ _ _ _ _) as [d1 res]. simpl in Hok. subst res.
      rewrite Hrows. reflexivity.
    + rewrite Hrows. reflexivity.
Qed.

(** C4.  Let [RemoveMember] pass the platform-domain check, find the
    tenant and find a non-deleted membership row of the user in it, and let
    that row be a default one.  Then the call succeeds and the row is
    soft-deleted; if the user has an active non-deleted membership left (in
    any tenant), one of them with the least creation time carries
    [isDefault = true] afterwards; if none is left, the user has no default
    membership. *)
Theorem RemoveMember_reassigns_default :
  forall (now : Time) (ctx : Context) (tenantID userID : UUID) (w : World D)
         (t : Tenant) (membership : TenantUser),
    requirePlatformDomain ctx = Ok tt ->
    getTenant (tenants w) tenantID = Ok t ->
    First (filter (fun r => membershipOf (tID t) userID r
                            && IsZero (tuDeletedAt r)) (tenantUsers w))
    = Ok membership ->
    tuIsDefault membership = true ->
    let w' := fst (RemoveMember now ctx tenantID userID w) in
    snd (RemoveMember now ctx tenantID userID w) = Ok tt
    /\ (forall r, In r (tenantUsers w') -> tuID r = tuID membership ->
                  tuDeletedAt r = Some now)
    /\ (forall r, In r (tenantUsers w') -> activeOf userID r = true ->
          exists alt,
            In alt (tenantUsers w') /\ activeOf userID alt = true
            /\ tuIsDefault alt = true
            /\ forall r', In r' (tenantUsers w') -> activeOf userID r' = true ->
                          tuCreatedAt alt <= tuCreatedAt r')
    /\ ((forall r, In r (tenantUsers w') -> activeOf userID r = false) ->
        defaultCount userID w' = 0).
Proof.
  intros now ctx tenantID userID w t membership Hgate Htenant Hfirst Hdefault w'.
  subst w'. unfold RemoveMember. rewrite Hgate, Htenant, Hfirst, Hdefault.
  simpl.
  set (removed := updateWhere (fun r => uuid_eqb (tuID r) (tuID membership))
                              (SetDeletedAt (Some now)) (tenantUsers w)).
  assert (Hdeleted : forall r, In r removed -> tuID r = tuID membership ->
                               tuDeletedAt r = Some now).
  { intros r Hin Hid. apply In_updateWhere in Hin.
    destruct Hin as [x [_ Hr]].
    destruct (uuid_eqb (tuID x) (tuID membership)) eqn:Hx; subst r.
    - reflexivity.
    - apply uuid_eqb_eq in Hid. congruence. }
  split; [reflexivity|].
  destruct (FirstOldest (filter (activeOf userID) removed)) as [alt|e] eqn:Halt.
  - (* some membership is left: the oldest is promoted *)
    apply FirstOldest_spec in Halt. destruct Halt as [Halt Hmin].
    apply filter_In in Halt. destruct Halt as [Halt Hactive].
    set (promote := fun r : TenantUser => uuid_eqb (tuID r) (tuID alt)).
    split; [|split].
    + intros r Hin Hid. apply In_updateWhere in Hin.
      destruct Hin as [x [Hx Hr]].
      assert (Hsame : tuID r = tuID x /\ tuDeletedAt r = tuDeletedAt x).
      { subst r. destruct (promote x); split; reflexivity. }
      destruct Hsame as [Hi Hd]. rewrite Hd. apply Hdeleted; congruence.
    + intros r _ _. exists (SetIsDefault true alt). repeat split.
      * pose proof (updateWhere_In promote (SetIsDefault true) removed alt Halt)
          as Hin.
        unfold promote in Hin at 1. rewrite uuid_eqb_refl in Hin. exact Hin.
      * exact Hactive.
      * intros r' Hin Hact. apply In_updateWhere in Hin.
        destruct Hin as [x [Hx Hr]].
        assert (Hsame : activeOf userID r' = activeOf userID x
                        /\ tuCreatedAt r' = tuCreatedAt x).
        { subst r'. destruct (promote x); split; reflexivity. }
        destruct Hsame as [Ha Hc]. simpl. rewrite Hc. apply Hmin.
        apply filter_In. split; [exact Hx | congruence].
    + intros Hnone. unfold defaultCount. simpl.
      rewrite filter_none; [reflexivity|].
      intros x Hx. rewrite (Hnone x Hx). reflexivity.
  - (* no membership is left *)
    apply FirstOldest_Err in Halt.
    split; [exact Hdeleted|]. split.
    + intros r Hin Hact. exfalso.
      pose proof (filter_nil_none _ _ Halt r Hin) as H. congruence.
    + intros _. unfold defaultCount. simpl.
      rewrite filter_none; [reflexivity|].
      intros x Hx. rewrite (filter_nil_none _ _ Halt x Hx). reflexivity.
Qed.

(** With an active row for the pair, [AddMember] changes no membership. *)
Lemma AddMember_keeps_table now newID ctx tenantID userID role (w : World D) r :
  First (filter (membershipOf tenantID userID) (tenantUsers w)) = Ok r ->
  IsZero (tuDeletedAt r) = true ->
  tuStatus r = StatusActive ->
  tenantUsers (fst (AddMember now newID ctx tenantID userID role w))
  = tenantUsers w.
Proof.
  intros Hfirst Hzero Hstatus. unfold AddMember.
  destruct (requirePlatformDomain ctx); [|reflexivity].
  destruct (getTenant (tenants w) tenantID) as [t|e] eqn:Htenant;
    [|reflexivity].
  destruct (getTenant_Ok _ _ Htenant) as [_ Hid]. rewrite Hid.
  destruct (GetUser (users w) userID) as [u|e]; [|reflexivity].
  destruct (conflictLoop _ userID u); [reflexivity|].
  rewrite (@ensureMembership_active now newID (tenantUsers w) tenantID
             userID false _ r Hfirst Hzero Hstatus).
  destruct (negb _); [|reflexivity].
  destruct (AddMembership _ _ _ _ _) as [d1 [[]|e]]; reflexivity.
Qed.

(** What a successful [AddMember] has gone through. *)
Lemma AddMember_Ok_inv now newID ctx tenantID userID role (w w1 : World D) :
  AddMember now newID ctx tenantID userID role w = (w1, Ok tt) ->
  exists t u rows1,
    requirePlatformDomain ctx = Ok tt
    /\ getTenant (tenants w) tenantID = Ok t
    /\ GetUser (users w) userID = Ok u
    /\ conflictLoop (map (withUser (users w))
                         (filter (activeIn (tID t)) (tenantUsers w)))
                    userID u = false
    /\ ensureMembership now newID (tenantUsers w) (tID t) userID false
         (roleOrMember role) = Ok rows1
    /\ tenants w1 = tenants w /\ users w1 = users w
    /\ tenantUsers w1 = rows1.
Proof.
  unfold AddMember.
  destruct (requirePlatformDomain ctx) as [[]|e]; [|discriminate].
  destruct (getTenant (tenants w) tenantID) as [t|e]; [|discriminate].
  destruct (GetUser (users w) userID) as [u|e]; [|discriminate].
  destruct (conflictLoop _ userID u) eqn:Hloop; [discriminate|].
  fold (roleOrMember role).
  destruct (ensureMembership now newID (tenantUsers w) (tID t) userID false
              (roleOrMember role)) as [rows1|e] eqn:Hens.
  - intros H. exists t, u, rows1.
    split; [reflexivity|]. split; [reflexivity|]. split; [reflexivity|].
    split; [exact Hloop|]. split; [exact Hens|].
    destruct (negb _).
    + destruct (AddMembership _ _ _ _ _) as [d1 [[]|e]];
        inversion H; subst w1; repeat split; reflexivity.
    + inversion H; subst w1; repeat split; reflexivity.
  - destruct (negb _).
    + destruct (AddMembership _ _ _ _ _) as [d1 [[]|e0]]; discriminate.
    + discriminate.
Qed.

(** Adding a member twice: when a call of [AddMember] has succeeded, a
    second call for the same tenant and user (with any role) succeeds as
    well, provided the domain service accepts the membership again, and it
    changes no membership row.  Membership rows carry distinct ids. *)
Lemma AddMember_twice now newID now' newID' ctx tenantID userID role role'
    (w w1 : World D) :
  NoDup (map tuID (tenantUsers w)) ->
  AddMember now newID ctx tenantID userID role w = (w1, Ok tt) ->
  (forall t, getTenant (tenants w1) tenantID = Ok t ->
             domainAccepts w1 t userID role') ->
  snd (AddMember now' newID' ctx tenantID userID role' w1) = Ok tt
  /\ tenantUsers (fst (AddMember now' newID' ctx tenantID userID role' w1))
     = tenantUsers w1.
Proof.
  intros Hnd Hfirst Hdomain.
  apply AddMember_Ok_inv in Hfirst.
  destruct Hfirst as [t [u [rows1 [Hgate [Htenant [Huser [Hloop [Hens
                       [Hts [Hus Hrows]]]]]]]]]].
  destruct (getTenant_Ok _ _ Htenant) as [_ Hid]. rewrite Hid in Hens, Hloop.
  destruct (@ensureMembership_result _ _ _ _ _ _ _ _ Hnd Hens)
    as [[r1 [Hr1 [Hz Hs]]] Hothers].
  rewrite <- Hrows in Hr1. split.
  - apply AddMember_succeeds with (t := t) (u := u).
    + exact Hgate.
    + rewrite Hts. exact Htenant.
    + rewrite Hus. exact Huser.
    + intros m mu [Hin [Hact [Hne [Hfind Hsame]]]].
      assert (Hconf : conflictLoop
                        (map (withUser (users w))
                             (filter (activeIn tenantID) (tenantUsers w)))
                        userID u = true).
      { apply conflictLoop_iff. exists m, mu. rewrite Hus in Hfind.
        split; [|auto]. apply filter_In. split; [|exact Hact].
        apply Hothers; [rewrite <- Hrows; exact Hin | exact Hne]. }
      congruence.
    + apply Hdomain. rewrite Hts. exact Htenant.
  - apply AddMember_keeps_table with (r := r1); assumption.
Qed.

(** C6.  Once the platform-domain check, the tenant lookup and the user
    lookup of [AddMember] have gone through, the call fails with
    [ErrMemberExists] if and only if some other member of the same tenant
    (a row with a different user id, active and not deleted) has a user row
    with the candidate's username or email.  Rows of other tenants play no
    part: when no such member exists in this tenant and the domain service
    accepts the membership, the call succeeds. *)
Theorem AddMember_conflict_iff :
  forall (now : Time) (newID : UUID) (ctx : Context) (tenantID userID : UUID)
         (role : string) (w : World D) (t : Tenant) (u : UserInfo),
    requirePlatformDomain ctx = Ok tt ->
    getTenant (tenants w) tenantID = Ok t ->
    GetUser (users w) userID = Ok u ->
    (snd (AddMember now newID ctx tenantID userID role w) = Err ErrMemberExists
     <-> exists m mu, conflicting w tenantID userID u m mu)
    /\ ((forall m mu, ~ conflicting w tenantID userID u m mu) ->
        domainAccepts w t userID role ->
        snd (AddMember now newID ctx tenantID userID role w) = Ok tt).
Proof.
  intros now newID ctx tenantID userID role w t u Hgate Htenant Huser. split.
  - apply AddMember_MemberExists with (t := t); assumption.
  - intros Hfree Hdomain.
    apply AddMember_succeeds with (t := t) (u := u); assumption.
Qed.

(** C10, as amended.  Let the membership row that the service finds for
    the (tenant, user) pair be active and not deleted.  Then [AddMember] for that pair
    leaves the membership table as it is, whatever it returns: the row
    keeps its role and its default flag.  The call does not fail with
    [ErrMemberExists] on account of the user's own row (only a member with
    a different user id can cause that), and it succeeds whenever its
    platform-domain check and lookups go through, no other member shares
    the identity and the domain service accepts the membership. *)
Theorem AddMember_idempotent :
  forall (now : Time) (newID : UUID) (ctx : Context) (tenantID userID : UUID)
         (role : string) (w : World D) (r : TenantUser),
    First (filter (membershipOf tenantID userID) (tenantUsers w)) = Ok r ->
    IsZero (tuDeletedAt r) = true ->
    tuStatus r = StatusActive ->
    tenantUsers (fst (AddMember now newID ctx tenantID userID role w))
    = tenantUsers w
    /\ forall t u,
         requirePlatformDomain ctx = Ok tt ->
         getTenant (tenants w) tenantID = Ok t ->
         GetUser (users w) userID = Ok u ->
         (snd (AddMember now newID ctx tenantID userID role w)
          = Err ErrMemberExists ->
          exists m mu, tuUserID m <> userID
                       /\ conflicting w tenantID userID u m mu)
         /\ ((forall m mu, ~ conflicting w tenantID userID u m mu) ->
             domainAccepts w t userID role ->
             snd (AddMember now newID ctx tenantID userID role w) = Ok tt).
Proof.
  intros now newID ctx tenantID userID role w r Hfirst Hzero Hstatus. split.
  - apply AddMember_keeps_table with (r := r); assumption.
  - intros t u Hgate Htenant Huser. split.
    + intros Hexists.
      apply (proj1 (@AddMember_MemberExists now newID ctx tenantID userID role
                      w t u Hgate Htenant Huser)) in Hexists.
      destruct Hexists as [m [mu H]]. exists m, mu. split; [|exact H].
      destruct H as [_ [_ [Hne _]]]. exact Hne.
    + intros Hfree Hdomain.
      apply AddMember_succeeds with (t := t) (u := u); assumption.
Qed.

(** [UpdateTenant] on an id without a row. *)
Lemma UpdateTenant_absent ctx id req (w : World D) :
  requirePlatformDomain ctx = Ok tt ->
  (forall t, In t (tenants w) -> tID t <> id) ->
  UpdateTenant ctx id req w = (w, Err ErrTenantNotFound).
Proof.
  intros Hgate Habsent. unfold UpdateTenant.
  rewrite Hgate, (getTenant_absent _ Habsent). reflexivity.
Qed.

(** The owner row that [ensureMembershipTx] leaves behind when called as
    [CreateTenant] calls it. *)
Lemma ensureMembershipTx_owner fault now newID rows tenantID userID rows1 :
  ensureMembershipTx fault now newID rows tenantID userID true "tenant_admin"
  = Ok rows1 ->
  exists m,
    In m rows1 /\ membershipOf tenantID userID m = true
    /\ tuIsDefault m = true /\ tuRole m = "tenant_admin"
    /\ tuStatus m = StatusActive /\ tuDeletedAt m = None.
Proof.
  unfold ensureMembershipTx. destruct fault; [discriminate|].
  destruct (filter (membershipOf tenantID userID) rows) as [|existing l] eqn:Hf;
    simpl.
  - intros H. inversion H; subst rows1; clear H.
    exists (newMembership now newID tenantID userID true "tenant_admin").
    split; [apply in_or_app; right; left; reflexivity|].
    unfold membershipOf. simpl. rewrite !uuid_eqb_refl. repeat split.
  - intros H. inversion H; subst rows1; clear H.
    assert (Hex : In existing rows /\ membershipOf tenantID userID existing = true).
    { apply filter_In. rewrite Hf. left. reflexivity. }
    destruct Hex as [Hex Hpair].
    exists (SetRole "tenant_admin"
              (SetIsDefault true
                 (SetStatus StatusActive (SetDeletedAt None existing)))).
    split.
    + unfold updateWhere. apply in_map_iff. exists existing.
      split; [|exact Hex]. rewrite uuid_eqb_refl. reflexivity.
    + split; [exact Hpair|]. repeat split.
Qed.

(** C1, as amended.  [CreateTenant] is all-or-nothing on the tables it
    writes through the transaction.  Whenever it returns an error,
    whichever step failed, the tenant table and the membership table are
    as before the call: no tenant row and no owner membership row of the
    failed call is left (nor is the user table touched).  Every step that
    fails ends the call in an error: the begin of the transaction, the
    query for the parent when a parent is given, the save of the tenant
    row, [EnsureDomain], the seeding of the baseline roles, the owner's
    [AddMembership], the write of the owner's membership row, and the
    commit.  When it returns a tenant, exactly the new tenant row has
    been appended, and with an acting user the membership table holds the
    owner row: active, default, role "tenant_admin".  Nothing is said here
    about the domain record, the seeded roles and the owner's domain
    membership, which the domain service and the role seeder write outside
    the transaction. *)
Theorem CreateTenant_rollback :
  forall (f : Faults) (now : Time) (tenantRowID memberRowID : UUID)
         (ctx : Context) (req : CreateRequest) (w : World D),
    let out := CreateTenant f now tenantRowID memberRowID ctx req w in
    (forall e, snd out = Err e ->
       tenants (fst out) = tenants w
       /\ tenantUsers (fst out) = tenantUsers w
       /\ users (fst out) = users w)
    /\ ((txBeginFails f = true -> isOk (snd out) = false)
        /\ (parentQueryFails f = true ->
            TrimSpace (crParentTenantID req) <> "" ->
            isOk (snd out) = false)
        /\ (tenantSaveFails f = true -> isOk (snd out) = false)
        /\ (forall d1 e,
              EnsureDomain (domains w) "tenant" (TrimSpace (crCode req))
                (TrimSpace (crName req)) = (d1, Err e) ->
              isOk (snd out) = false)
        /\ (forall d1 dom roles1 e,
              EnsureDomain (domains w) "tenant" (TrimSpace (crCode req))
                (TrimSpace (crName req)) = (d1, Ok dom) ->
              SeedBaselineRoles (seedFailsAt f) (roles w) (DomainID dom)
              = (roles1, Err e) ->
              isOk (snd out) = false)
        /\ (forall ownerID d1 dom d2 e,
              ctxUserID ctx = Some ownerID ->
              EnsureDomain (domains w) "tenant" (TrimSpace (crCode req))
                (TrimSpace (crName req)) = (d1, Ok dom) ->
              AddMembership d1 (DomainID dom) ownerID "tenant_admin" true
              = (d2, Err e) ->
              isOk (snd out) = false)
        /\ (forall ownerID,
              ctxUserID ctx = Some ownerID -> ownerRowFails f = true ->
              isOk (snd out) = false)
        /\ (commitFails f = true -> isOk (snd out) = false))
    /\ (forall dto, snd out = Ok dto ->
          dtoID dto = tenantRowID
          /\ (exists row,
                tenants (fst out) = tenants w ++ [row]
                /\ tID row = tenantRowID
                /\ tCode row = TrimSpace (crCode req)
                /\ tDeletedAt row = None)
          /\ (forall ownerID, ctxUserID ctx = Some ownerID ->
                exists m,
                  In m (tenantUsers (fst out))
                  /\ membershipOf tenantRowID ownerID m = true
                  /\ tuIsDefault m = true /\ tuRole m = "tenant_admin"
                  /\ tuStatus m = StatusActive /\ tuDeletedAt m = None)).
Proof.
  intros f now tenantRowID memberRowID ctx req w out. subst out.
  unfold CreateTenant.
  destruct (requirePlatformDomain ctx);
    [|repeat split; auto; discriminate].
  destruct (_ || _); [repeat split; auto; discriminate|].
  destruct (txBeginFails f) eqn:Hbegin; [repeat split; auto; discriminate|].
  destruct (resolveParentTenantID _ _ _ _) as [[parentTenantID hasParent]|e0]
    eqn:Hparent;
    [|repeat split; auto; discriminate].
  assert (Hquery : parentQueryFails f = true ->
                   TrimSpace (crParentTenantID req) <> "" -> False).
  { intros Hfails Hgiven. rewrite Hfails in Hparent.
    unfold resolveParentTenantID in Hparent. cbv zeta in Hparent.
    apply String.eqb_neq in Hgiven. rewrite Hgiven in Hparent.
    discriminate Hparent. }
  unfold Tenant_Save.
  destruct (existsb _ (tenants w)); [repeat split; auto; discriminate|].
  destruct (tenantSaveFails f) eqn:Hsave; [repeat split; auto; discriminate|].
  destruct (EnsureDomain _ _ _ _) as [d1 [dom|e0]] eqn:Hdom;
    [|repeat split; auto; discriminate].
  destruct (SeedBaselineRoles _ _ _) as [roles1 [[]|e0]] eqn:Hseed;
    [|repeat split; auto; discriminate].
  destruct (ctxUserID ctx) as [ownerID|]; simpl.
  - destruct (AddMembership _ _ _ _ _) as [d2 [[]|e0]] eqn:Hadd;
      [|repeat split; auto; discriminate].
    destruct (ensureMembershipTx _ _ _ _ _ _ _ _) as [txMembers|e0] eqn:Hown;
      [|repeat split; auto; discriminate].
    assert (Hrow : ownerRowFails f = true -> False).
    { intros Hfails. rewrite Hfails in Hown.
      unfold ensureMembershipTx in Hown. discriminate Hown. }
    destruct (commitFails f) eqn:Hcommit; simpl;
      [repeat split; auto; discriminate|].
    split; [discriminate|]. split.
    { repeat split; intros; try congruence; exfalso; auto. }
    intros dto Hdto. inversion Hdto; subst dto; clear Hdto. simpl.
    split; [reflexivity|]. split.
    + eexists. split; [reflexivity|]. repeat split.
    + intros ownerID' Hsome. inversion Hsome; subst ownerID'.
      apply ensureMembershipTx_owner in Hown. exact Hown.
  - destruct (commitFails f) eqn:Hcommit; simpl;
      [repeat split; auto; discriminate|].
    split; [discriminate|]. split.
    { repeat split; intros; try congruence; exfalso; auto. }
    intros dto Hdto. inversion Hdto; subst dto; clear Hdto. simpl.
    split; [reflexivity|]. split.
    + eexists. split; [reflexivity|]. repeat split.
    + intros ownerID' Hsome. discriminate.
Qed.

End WithDomainService.

Import scenario.

(** User 1 is a default member of "acme" and a member of "globex"; leaving
    "acme" promotes the "globex" membership. *)
Lemma RemoveMember_reassigns_default_witness :
  let w := run world0 (firstn 4 reAddCalls) in
  let w' := fst (RemoveMember 4 (platformCtx None) 100 1 w) in
  snd (RemoveMember 4 (platformCtx None) 100 1 w) = Ok tt
  /\ exists alt,
       In alt (tenantUsers w') /\ activeOf 1 alt = true
       /\ tuIsDefault alt = true.
Proof.
  intros w w'.
  edestruct (@RemoveMember_reassigns_default _ mockWriter
               4 (platformCtx None) 100 1 w) as [Hok [_ [Halt _]]];
    [reflexivity | reflexivity | reflexivity | reflexivity |].
  split; [exact Hok|].
  destruct (Halt (SetIsDefault true (newMembership 3 301 101 1 false "member")))
    as [alt [Hin [Hact [Hdef _]]]].
  - vm_compute. right. left. reflexivity.
  - reflexivity.
  - exists alt. split; [exact Hin|]. split; [exact Hact | exact Hdef].
Defined.

(** User 3 carries the email of user 1, a member of "acme": joining "acme"
    is refused, joining "globex" goes through. *)
Lemma AddMember_conflict_iff_witness :
  snd (AddMember 9 400 (platformCtx None) 100 3 "" sharedEmailWorld)
  = Err ErrMemberExists
  /\ snd (AddMember 9 400 (platformCtx None) 101 3 "" sharedEmailWorld)
     = Ok tt.
Proof.
  split.
  - eapply (proj2 (proj1 (@AddMember_conflict_iff _ mockWriter
                            9 400 (platformCtx None) 100 3 ""
                            sharedEmailWorld _ _ eq_refl eq_refl eq_refl))).
    exists (newMembership 2 300 100 1 true "admin"),
           (mkUser 1 "alice" "alice@example.com").
    unfold conflicting. vm_compute. repeat split; auto. discriminate.
  - eapply (proj2 (@AddMember_conflict_iff _ mockWriter
                     9 400 (platformCtx None) 101 3 ""
                     sharedEmailWorld _ _ eq_refl eq_refl eq_refl)).
    + intros m mu [Hin [Hact _]]. vm_compute in Hin.
      destruct Hin as [Hin|[]]. subst m. vm_compute in Hact. discriminate.
    + right. reflexivity.
Defined.

(** User 1 is an active member of "acme" with the role "admin"; adding the
    user again, with another role, succeeds and changes no row. *)
Lemma AddMember_idempotent_witness :
  snd (AddMember 9 400 (platformCtx None) 100 1 "member" sharedEmailWorld)
  = Ok tt
  /\ tenantUsers (fst (AddMember 9 400 (platformCtx None) 100 1 "member"
                         sharedEmailWorld))
     = [newMembership 2 300 100 1 true "admin"].
Proof.
  edestruct (@AddMember_idempotent _ mockWriter
               9 400 (platformCtx None) 100 1 "member" sharedEmailWorld)
    as [Hsame Hrest]; [reflexivity | reflexivity | reflexivity |].
  split.
  - eapply (proj2 (Hrest _ _ eq_refl eq_refl eq_refl)).
    + intros m mu [Hin [_ [Hne _]]]. vm_compute in Hin.
      destruct Hin as [Hin|[]]. subst m. apply Hne. reflexivity.
    + right. reflexivity.
  - rewrite Hsame. reflexivity.
Defined.

(** C10 as stated fails.  Users 1 and 3 are active members of "acme", and
    user 3 has taken the email of user 1 since.  User 1 is added again:
    the conflict loop, which runs before the membership is looked at and
    skips only the rows of user 1, finds the row of user 3, and the call
    fails with [ErrMemberExists].  No row changes. *)
Lemma AddMember_active_member_refused_counterexample :
  let w := emailChangedWorld in
  let out := AddMember 9 400 (platformCtx None) 100 1 "admin" w in
  map (fun r => (tuUserID r, isLive r)) (tenantUsers w)
  = [(1, true); (3, true)]
  /\ First (filter (membershipOf 100 1) (tenantUsers w))
     = Ok (newMembership 2 300 100 1 true "admin")
  /\ snd out = Err ErrMemberExists
  /\ tenantUsers (fst out) = tenantUsers w.
Proof. vm_compute. repeat split. Qed.

(** A commit that fails leaves neither the tenant row nor the owner's
    membership row. *)
Lemma CreateTenant_rollback_witness :
  let out := CreateTenant commitFault 0 100 200 (platformCtx (Some 1))
               (mkCreate "acme" "Acme") world0 in
  tenants (fst out) = [] /\ tenantUsers (fst out) = []
  /\ users (fst out) = users world0.
Proof.
  exact (proj1 (@CreateTenant_rollback decimalText _ mockWriter commitFault
                  0 100 200 (platformCtx (Some 1)) (mkCreate "acme" "Acme")
                  world0) _ eq_refl).
Defined.

(** C1 as stated fails.  User 1 creates tenant "acme" and the last step,
    the write of the owner's membership row, fails.  The call returns an
    error and the tenant row and the owner's membership row are absent, but
    the domain record of ("tenant", "acme"), both baseline roles and the
    owner's membership of the domain, none of which existed before, are
    still there. *)
Lemma CreateTenant_partial_state_counterexample :
  let out := CreateTenant ownerRowFault 0 100 200 (platformCtx (Some 1))
               (mkCreate "acme" "Acme") world0 in
  snd out = Err (Wrap "create owner tenant-user record"
                   (Wrap "query membership" EntFault))
  /\ tenants (fst out) = [] /\ tenantUsers (fst out) = []
  /\ isOk (ResolveDomain (domains world0) "tenant" "acme") = false
  /\ ResolveDomain (domains (fst out)) "tenant" "acme"
     = Ok {| DomainID := 1000; TypeCode := "tenant"; Key := "acme";
             DisplayName := "Acme" |}
  /\ roles world0 = []
  /\ map rCode (roles (fst out)) = ["owner"; "member"]
  /\ CheckMembership (domains world0) 1000 1 = Ok false
  /\ CheckMembership (domains (fst out)) 1000 1 = Ok true.
Proof. vm_compute. repeat split. Qed.

(** C7 (the code departs from the claim).  Tenant "acme" (row 100) has
    been soft-deleted at instant 5: [GetTenantByCode] no longer finds it.
    [UpdateTenant] on its id still succeeds and renames the deleted row;
    the row stays deleted. *)
Theorem UpdateTenant_soft_deleted :
  let out := UpdateTenant (platformCtx (Some 1)) 100 (rename "Renamed")
               deletedAcme in
  map tDeletedAt (tenants deletedAcme) = [Some 5]
  /\ map tName (tenants deletedAcme) = ["Acme"]
  /\ GetTenantByCode deletedAcme "acme" = Err ErrTenantNotFound
  /\ isOk (snd out) = true
  /\ map tName (tenants (fst out)) = ["Renamed"]
  /\ map tDeletedAt (tenants (fst out)) = [Some 5].
Proof. vm_compute. repeat split. Qed.

(** C2 (the code departs from the claim).  Two sequential runs after
    which user 1 has two active, non-deleted default memberships.  In the
    first, user 1 joins "acme" and "globex", leaves "acme" (the "globex"
    membership is promoted) and joins "acme" again: the old row is
    reactivated with its stale default flag.  The list gives the number of
    default memberships of user 1 after each call.  In the second, user 1
    creates two tenants: each owner row is inserted as a default one. *)
Theorem default_invariant_violated :
  map (fun k => defaultCount 1 (run world0 (firstn k reAddCalls)))
      [0; 1; 2; 3; 4; 5; 6]
  = [0; 0; 0; 1; 1; 1; 2]
  /\ map (fun r => (tuTenantID r, tuIsDefault r, tuDeletedAt r))
         (tenantUsers (run world0 reAddCalls))
     = [(100, true, None); (101, true, None)]
  /\ map (fun k => defaultCount 1 (run world0 (firstn k twoOwnedTenants)))
         [0; 1; 2]
     = [0; 1; 2].
Proof. vm_compute. repeat split. Qed.

End tenant_facts.

(** * Facts about [OrderBy] *)

Module order_facts.

Lemma insertBy_Permutation {A} (le : A -> A -> bool) (x : A) (l : list A) :
  Permutation (insertBy le x l) (x :: l).
Proof.
  induction l as [|y l IH]; simpl; [apply Permutation_refl|].
  destruct (le x y); [apply Permutation_refl|].
  eapply Permutation_trans; [apply perm_skip, IH | apply perm_swap].
Qed.

Lemma OrderBy_Permutation {A} (le : A -> A -> bool) (l : list A) :
  Permutation (OrderBy le l) l.
Proof.
  induction l as [|x l IH]; simpl; [constructor|].
  eapply Permutation_trans; [apply insertBy_Permutation|].
  apply perm_skip, IH.
Qed.

Lemma OrderBy_In {A} (le : A -> A -> bool) (l : list A) (x : A) :
  In x (OrderBy le l) <-> In x l.
Proof.
  split; apply Permutation_in;
    [|apply Permutation_sym]; apply OrderBy_Permutation.
Qed.

Lemma insertBy_HdRel {A} (le : A -> A -> bool) (a x : A) (l : list A) :
  le a x = true -> HdRel (fun u v => le u v = true) a l ->
  HdRel (fun u v => le u v = true) a (insertBy le x l).
Proof.
  intros Hax Hhd. destruct l as [|y l]; simpl; [constructor; exact Hax|].
  destruct (le x y); constructor; [exact Hax|].
  inversion Hhd; assumption.
Qed.

Lemma insertBy_Sorted {A} (le : A -> A -> bool) (x : A) (l : list A) :
  (forall a b, le a b = true \/ le b a = true) ->
  Sorted (fun u v => le u v = true) l ->
  Sorted (fun u v => le u v = true) (insertBy le x l).
Proof.
  intros Htotal. induction l as [|y l IH]; intros Hs; simpl.
  - constructor; constructor.
  - destruct (le x y) eqn:Hxy.
    + constructor; [exact Hs | constructor; exact Hxy].
    + inversion Hs as [|? ? Hs' Hhd]; subst.
      constructor; [apply IH; exact Hs'|].
      apply insertBy_HdRel; [|exact Hhd].
      destruct (Htotal x y) as [H|H]; [congruence | exact H].
Qed.

Lemma OrderBy_Sorted {A} (le : A -> A -> bool) (l : list A) :
  (forall a b, le a b = true \/ le b a = true) ->
  Sorted (fun u v => le u v = true) (OrderBy le l).
Proof.
  intros Htotal. induction l as [|x l IH]; simpl; [constructor|].
  apply insertBy_Sorted; assumption.
Qed.

End order_facts.

(** * Facts about [GetOrganizationTree] *)

Module organization_tree_facts.
Import organization query_facts order_facts.

Lemma nodes_get_set (nodes : NodeMap) (k id : UUID) (n : OrganizationTreeNode) :
  nodes_get (nodes_set nodes k n) id
  = if uuid_eqb k id then Some n else nodes_get nodes id.
Proof.
  unfold nodes_get, nodes_set. simpl. destruct (uuid_eqb k id); reflexivity.
Qed.

(** The first loop leaves the keys it does not write alone. *)
Lemma addNode_other (orgs : list Organization) (id : UUID) :
  forall nodes,
    (forall o, In o orgs -> oID o <> id) ->
    nodes_get (fold_left addNode orgs nodes) id = nodes_get nodes id.
Proof.
  induction orgs as [|x orgs IH]; intros nodes Hnone; simpl; [reflexivity|].
  rewrite IH by (intros o Ho; apply Hnone; right; exact Ho).
  unfold addNode. rewrite nodes_get_set.
  destruct (uuid_eqb (oID x) id) eqn:Hx; [|reflexivity].
  apply uuid_eqb_eq in Hx. exfalso. apply (Hnone x); [left; reflexivity | exact Hx].
Qed.

(** With distinct ids, the first loop maps the id of every organization to
    a fresh node with its fields. *)
Lemma addNode_found (orgs : list Organization) :
  forall nodes o,
    NoDup (map oID orgs) -> In o orgs ->
    nodes_get (fold_left addNode orgs nodes) (oID o) = Some (newTreeNode o).
Proof.
  induction orgs as [|x orgs IH]; intros nodes o Hnd Hin; [destruct Hin|].
  simpl in Hnd. inversion Hnd as [|? ? Hnotin Hnd']; subst. simpl.
  destruct Hin as [Hin|Hin].
  - subst x. rewrite addNode_other.
    + unfold addNode. rewrite nodes_get_set, uuid_eqb_refl. reflexivity.
    + intros o' Ho' Heq. apply Hnotin. rewrite <- Heq. apply in_map. exact Ho'.
  - apply IH; assumption.
Qed.

Lemma isRootIn_nodes (orgs : list Organization) (o : Organization) :
  NoDup (map oID orgs) ->
  isRootIn orgs o
  = match oParentID o with
    | None => true
    | Some p =>
        match nodes_get (fold_left addNode orgs []) p with
        | None => true
        | Some _ => false
        end
    end.
Proof.
  intros Hnd. unfold isRootIn. destruct (oParentID o) as [p|]; [|reflexivity].
  destruct (existsb (fun x => uuid_eqb (oID x) p) orgs) eqn:Hex.
  - apply existsb_exists in Hex. destruct Hex as [x [Hx Hp]].
    apply uuid_eqb_eq in Hp. subst p.
    rewrite (addNode_found orgs [] x Hnd Hx). reflexivity.
  - rewrite addNode_other; [reflexivity|].
    intros x Hx Heq. rewrite existsb_false_iff in Hex.
    specialize (Hex x Hx). rewrite Heq, uuid_eqb_refl in Hex. discriminate.
Qed.

Lemma addChildren_nil (n : OrganizationTreeNode) : addChildren n [] = n.
Proof. destruct n. unfold addChildren. simpl. rewrite app_nil_r. reflexivity. Qed.

Lemma appendChild_addChildren (n : OrganizationTreeNode) (cs : list UUID)
    (c : UUID) :
  appendChild (addChildren n cs) c = addChildren n (cs ++ [c]).
Proof. unfold appendChild, addChildren. simpl. rewrite app_assoc. reflexivity. Qed.

Lemma linkNode_linked (orgs done : list Organization) (item : Organization)
    (state : NodeMap * list UUID) :
  NoDup (map oID orgs) ->
  linked orgs done state ->
  linked orgs (done ++ [item]) (linkNode state item).
Proof.
  intros Hnd [Hroots Hnodes]. destruct state as [nodes roots]. simpl in *.
  unfold linkNode. simpl.
  pose proof (isRootIn_nodes orgs item Hnd) as Hroot.
  destruct (oParentID item) as [p|] eqn:Hparent.
  - assert (Hc : forall id, childOf id item = uuid_eqb p id).
    { intros id. unfold childOf. rewrite Hparent. reflexivity. }
    rewrite (Hnodes p).
    destruct (nodes_get (fold_left addNode orgs []) p) as [n|] eqn:Hp; simpl.
    + (* the parent is in the map: the node becomes its child *)
      split; simpl.
      * rewrite filter_app. simpl. rewrite Hroot, app_nil_r. exact Hroots.
      * intros id. rewrite nodes_get_set, filter_app. simpl. rewrite Hc.
        destruct (uuid_eqb p id) eqn:Hid.
        -- apply uuid_eqb_eq in Hid. subst id. rewrite Hp. simpl.
           rewrite appendChild_addChildren, map_app. reflexivity.
        -- rewrite app_nil_r. apply Hnodes.
    + (* the parent is unknown: the node is a root *)
      split; simpl.
      * rewrite filter_app. simpl. rewrite Hroot, map_app, Hroots. reflexivity.
      * intros id. rewrite Hnodes, filter_app. simpl. rewrite Hc.
        destruct (uuid_eqb p id) eqn:Hid.
        -- apply uuid_eqb_eq in Hid. subst id. rewrite Hp. reflexivity.
        -- rewrite app_nil_r. reflexivity.
  - assert (Hc : forall id, childOf id item = false).
    { intros id. unfold childOf. rewrite Hparent. reflexivity. }
    split; simpl.
    + rewrite filter_app. simpl. rewrite Hroot, map_app, Hroots. reflexivity.
    + intros id. rewrite Hnodes, filter_app. simpl.
      rewrite Hc, app_nil_r. reflexivity.
Qed.

Lemma linkNode_loop (orgs rest : list Organization) :
  NoDup (map oID orgs) ->
  forall done state,
    linked orgs done state ->
    linked orgs (done ++ rest) (fold_left linkNode rest state).
Proof.
  intros Hnd. induction rest as [|item rest IH]; intros done state Hst; simpl.
  - rewrite app_nil_r. exact Hst.
  - replace (done ++ item :: rest) with ((done ++ [item]) ++ rest)
      by (rewrite <- app_assoc; reflexivity).
    apply IH. apply linkNode_linked; assumption.
Qed.

Section WithCodec.
Context {codec : UUIDText}.

Lemma byPath_total (a b : Organization) :
  byPath a b = true \/ byPath b a = true.
Proof. unfold byPath. apply String.leb_total. Qed.

(** X1.  With a domain in the context and distinct ids among the
    organizations of the domain, [GetOrganizationTree] succeeds.  It reads
    the organizations of the domain in the order of their paths.  The
    roots it returns are the organizations that name no parent or name one
    outside the domain, in that order; the node behind the id of every
    organization carries the fields of the organization, and its children
    are the organizations that name it as their parent, in that order; no
    other id has a node. *)
Theorem GetOrganizationTree_shape :
  forall (ctx : Context) (st : Store) (domainID : UUID),
    domainIDFromContext ctx = Ok domainID ->
    NoDup (map oID (filter (fun o => uuid_eqb (oDomainID o) domainID)
                           (organizations st))) ->
    let orgs := organizationsOf st domainID in
    Permutation orgs (filter (fun o => uuid_eqb (oDomainID o) domainID)
                             (organizations st))
    /\ Sorted (fun a b => byPath a b = true) orgs
    /\ exists roots nodes,
         GetOrganizationTree ctx st = Ok (roots, nodes)
         /\ roots = map oID (filter (isRootIn orgs) orgs)
         /\ (forall o, In o orgs ->
               nodes_get nodes (oID o)
               = Some {| nodeID := oID o; nodeDomainID := oDomainID o;
                         nodeParentID := oParentID o; nodeCode := oCode o;
                         nodeName := oName o; nodePath := oPath o;
                         Children :=
                           map oID (filter (childOf (oID o)) orgs) |})
         /\ (forall id, (forall o, In o orgs -> oID o <> id) ->
               nodes_get nodes id = None).
Proof.
  intros ctx st domainID Hdom Hnd orgs.
  assert (Hperm : Permutation orgs
                    (filter (fun o => uuid_eqb (oDomainID o) domainID)
                            (organizations st))).
  { apply OrderBy_Permutation. }
  assert (Hnd' : NoDup (map oID orgs)).
  { eapply Permutation_NoDup; [|exact Hnd].
    apply Permutation_map, Permutation_sym, Hperm. }
  split; [exact Hperm|].
  split; [apply OrderBy_Sorted, byPath_total|].
  unfold GetOrganizationTree. rewrite Hdom. simpl. fold orgs.
  destruct (@linkNode_loop orgs orgs Hnd' [] (fold_left addNode orgs [], []))
    as [Hroots Hnodes].
  { split; [reflexivity|]. intros id. simpl.
    destruct (nodes_get (fold_left addNode orgs []) id) as [n|]; simpl;
      [rewrite addChildren_nil|]; reflexivity. }
  simpl in Hroots, Hnodes.
  eexists. eexists. split; [reflexivity|]. simpl.
  split; [exact Hroots|]. split.
  - intros o Ho. rewrite Hnodes, (addNode_found orgs [] o Hnd' Ho). reflexivity.
  - intros id Hnone. rewrite Hnodes, addNode_other by exact Hnone. reflexivity.
Qed.

End WithCodec.

Import scenario.

(** The tree of the company: one root, "engineering" before "sales" under
    it, "backend" under "engineering". *)
Lemma GetOrganizationTree_shape_witness :
  exists roots nodes,
    GetOrganizationTree (platformCtx None) (run emptyStore treeCalls)
    = Ok (roots, nodes)
    /\ roots = [1]
    /\ option_map Children (nodes_get nodes 1) = Some [2; 3]
    /\ option_map Children (nodes_get nodes 2) = Some [4]
    /\ nodes_get nodes 9 = None.
Proof.
  assert (Hnd : NoDup (map oID (filter (fun o => uuid_eqb (oDomainID o) 7)
                                  (organizations (run emptyStore treeCalls))))).
  { vm_compute. repeat constructor; simpl; intuition discriminate. }
  destruct (@GetOrganizationTree_shape decimalText (platformCtx None)
              (run emptyStore treeCalls) 7 eq_refl Hnd)
    as [_ [_ [roots [nodes [Hcall [Hroots [Hnodes Hnone]]]]]]].
  exists roots, nodes. split; [exact Hcall|].
  split; [rewrite Hroots; reflexivity|].
  split; [|split].
  - assert (Hin : In {| oID := 1; oDomainID := 7; oParentID := None;
                        oCode := "company"; oName := "company";
                        oPath := "company" |}
                     (organizationsOf (run emptyStore treeCalls) 7))
      by (vm_compute; auto).
    apply Hnodes in Hin. simpl in Hin. rewrite Hin. reflexivity.
  - assert (Hin : In {| oID := 2; oDomainID := 7; oParentID := Some 1;
                        oCode := "engineering"; oName := "engineering";
                        oPath := "company/engineering" |}
                     (organizationsOf (run emptyStore treeCalls) 7))
      by (vm_compute; auto).
    apply Hnodes in Hin. simpl in Hin. rewrite Hin. reflexivity.
  - apply Hnone. vm_compute. intros o H.
    repeat (destruct H as [H|H]; [subst o; simpl; discriminate|]). destruct H.
Defined.

End organization_tree_facts.

(** * More facts about the organization service *)

Module organization_service_facts.
Import organization query_facts organization_facts.

Lemma primary_only (st : Store) (d u : UUID) (m : OrganizationMember) :
  primaryUnique st -> In m (members st) -> primaryOf d u m = true ->
  filter (primaryOf d u) (members st) = [m].
Proof.
  intros Huniq Hin Hm. specialize (Huniq d u). unfold primaryCount in Huniq.
  assert (Hf : In m (filter (primaryOf d u) (members st)))
    by (apply filter_In; split; assumption).
  destruct (filter (primaryOf d u) (members st)) as [|x [|y l]];
    simpl in *; [destruct Hf | | lia].
  destruct Hf as [Hf|[]]. subst x. reflexivity.
Qed.

(** X2.  In a store where every user has at most one primary membership
    per domain, [GetPrimaryOrganizationID] answers the organization of the
    user's primary membership when there is one; without a primary
    membership it answers the organization of the user's first membership
    in the domain, and fails with the store's not-found error when the
    user has none.  Whatever it answers is the organization of one of the
    user's memberships in the domain. *)
Theorem GetPrimaryOrganizationID_answer :
  forall (st : Store) (domainID userID : UUID),
    primaryUnique st ->
    (forall m, In m (members st) -> primaryOf domainID userID m = true ->
       GetPrimaryOrganizationID st domainID userID = Ok (mOrganizationID m))
    /\ ((forall m, In m (members st) -> primaryOf domainID userID m = false) ->
        GetPrimaryOrganizationID st domainID userID
        = match filter (fun m => uuid_eqb (mDomainID m) domainID
                                 && uuid_eqb (mUserID m) userID)
                       (members st) with
          | [] => Err EntNotFound
          | m :: _ => Ok (mOrganizationID m)
          end)
    /\ (forall org, GetPrimaryOrganizationID st domainID userID = Ok org ->
          exists m, In m (members st) /\ mDomainID m = domainID
                    /\ mUserID m = userID /\ mOrganizationID m = org).
Proof.
  intros st domainID userID Huniq. split; [|split].
  - intros m Hin Hm. unfold GetPrimaryOrganizationID.
    rewrite (@primary_only st domainID userID m Huniq Hin Hm). reflexivity.
  - intros Hnone. unfold GetPrimaryOrganizationID.
    rewrite (filter_none _ _ Hnone). simpl.
    destruct (filter _ (members st)); reflexivity.
  - intros org. unfold GetPrimaryOrganizationID.
    destruct (Only (filter (primaryOf domainID userID) (members st)))
      as [primary|e] eqn:Honly.
    + intros H. inversion H; subst org; clear H.
      apply Only_Ok in Honly.
      assert (Hf : In primary (filter (primaryOf domainID userID) (members st)))
        by (rewrite Honly; left; reflexivity).
      apply filter_In in Hf. destruct Hf as [Hin Hp].
      unfold primaryOf in Hp. apply andb_true_iff in Hp. destruct Hp as [Hp _].
      apply andb_true_iff in Hp. destruct Hp as [Hd Hu].
      apply uuid_eqb_eq in Hd. apply uuid_eqb_eq in Hu.
      exists primary. auto.
    + destruct (IsNotFound e); simpl; [|discriminate].
      destruct (filter (fun m => uuid_eqb (mDomainID m) domainID
                                 && uuid_eqb (mUserID m) userID) (members st))
        as [|m rest] eqn:Hmine; simpl; [discriminate|].
      intros H. inversion H; subst org; clear H.
      assert (Hf : In m (filter (fun m => uuid_eqb (mDomainID m) domainID
                                          && uuid_eqb (mUserID m) userID)
                                (members st)))
        by (rewrite Hmine; left; reflexivity).
      apply filter_In in Hf. destruct Hf as [Hin Hp].
      apply andb_true_iff in Hp. destruct Hp as [Hd Hu].
      apply uuid_eqb_eq in Hd. apply uuid_eqb_eq in Hu.
      exists m. auto.
Qed.

Lemma First_app_nonempty {A} (l l' : list A) (x : A) :
  First l = Ok x -> First (l ++ l') = Ok x.
Proof. destruct l; simpl; [discriminate | auto]. Qed.

Section WithSchema.
Context {codec : UUIDText} {schema : Schema}.

(** X3.  Lookup after insert.  After a successful [AddOrganizationMember]
    with [isPrimary] set, [GetPrimaryOrganizationID] answers the
    organization the user was just added to.  A call without [isPrimary],
    successful or not, changes no answer [GetPrimaryOrganizationID] gave
    before it. *)
Theorem AddOrganizationMember_then_primary :
  forall (newID : UUID) (ctx : Context) (organizationID : UUID)
         (req : AddOrganizationMemberRequest) (st : Store),
    let out := AddOrganizationMember newID ctx organizationID (Some req) st in
    (forall domainID resp,
       domainIDFromContext ctx = Ok domainID ->
       reqIsPrimary req = true ->
       snd out = Ok resp ->
       GetPrimaryOrganizationID (fst out) domainID (reqUserID req)
       = Ok organizationID)
    /\ (reqIsPrimary req = false ->
        forall d u org,
          GetPrimaryOrganizationID st d u = Ok org ->
          GetPrimaryOrganizationID (fst out) d u = Ok org).
Proof.
  intros newID ctx organizationID req st out. subst out. split.
  - intros domainID resp Hdom Hprim.
    unfold AddOrganizationMember. rewrite Hdom, Hprim.
    destruct (uuid_eqb (reqUserID req) uuid_Nil); simpl; [discriminate|].
    destruct (Only _) as [org|e]; simpl; [|destruct (IsNotFound e); discriminate].
    destruct (member_conflict _ _); simpl; [discriminate|].
    intros _. unfold GetPrimaryOrganizationID. simpl.
    rewrite filter_app, demote_clears. simpl.
    unfold primaryOf. simpl. rewrite !uuid_eqb_refl. reflexivity.
  - intros Hprim d u org.
    unfold AddOrganizationMember. rewrite Hprim.
    destruct (domainIDFromContext ctx) as [domainID|e]; simpl; [|auto].
    destruct (uuid_eqb (reqUserID req) uuid_Nil); simpl; [auto|].
    destruct (Only _) as [o|e]; simpl; [|auto].
    destruct (member_conflict _ _); simpl; [destruct st; auto|].
    unfold GetPrimaryOrganizationID. simpl. rewrite !filter_app. simpl.
    assert (Hrow : primaryOf d u
                     {| mID := newID; mDomainID := domainID;
                        mOrganizationID := organizationID;
                        mUserID := reqUserID req; mIsPrimary := false |}
                   = false).
    { unfold primaryOf. simpl. apply andb_false_r. }
    rewrite Hrow, app_nil_r.
    destruct (Only (filter (primaryOf d u) (members st))) as [p|e]; [auto|].
    destruct (IsNotFound e); simpl; [|auto].
    destruct (First (filter (fun m => uuid_eqb (mDomainID m) d
                                      && uuid_eqb (mUserID m) u) (members st)))
      as [m|e'] eqn:Hfirst; simpl; [|discriminate].
    intros H. rewrite (@First_app_nonempty _ _ _ _ Hfirst). simpl. exact H.
Qed.

(** X4.  [ListOrganizationUserIDs] fails only when its query fails, and
    then with the error of the store as it is.  When the query answers,
    the call succeeds, whether the organization exists or not, and lists,
    without repetition, exactly the users that have a membership of the
    organization in the domain; and every user it lists is also listed by
    [ListSubtreeUserIDs] for the same organization, when that call
    succeeds. *)
Theorem ListOrganizationUserIDs_exact :
  forall (st : Store) (domainID orgID : UUID),
    ListOrganizationUserIDs true st domainID orgID = Err EntFault
    /\ exists result,
         ListOrganizationUserIDs false st domainID orgID = Ok result
         /\ NoDup result
         /\ (forall u, In u result <->
               exists m, In m (members st) /\ mDomainID m = domainID
                         /\ mOrganizationID m = orgID /\ mUserID m = u)
         /\ (forall subtree,
               ListSubtreeUserIDs st domainID orgID = Ok subtree ->
               incl result subtree).
Proof.
  intros st domainID orgID. unfold ListOrganizationUserIDs.
  split; [reflexivity|].
  eexists. split; [reflexivity|].
  destruct (uniqueUserIDs_spec
              (filter (fun m => uuid_eqb (mDomainID m) domainID
                                && uuid_eqb (mOrganizationID m) orgID)
                      (members st))) as [Hnd Hin].
  split; [exact Hnd|].
  assert (Hiff : forall u,
            In u (uniqueUserIDs
                    (filter (fun m => uuid_eqb (mDomainID m) domainID
                                      && uuid_eqb (mOrganizationID m) orgID)
                            (members st))) <->
            exists m, In m (members st) /\ mDomainID m = domainID
                      /\ mOrganizationID m = orgID /\ mUserID m = u).
  { intros u. rewrite Hin. split.
    - intros [m [Hm Hu]]. apply filter_In in Hm. destruct Hm as [Hm Hp].
      apply andb_true_iff in Hp. destruct Hp as [Hd Ho].
      apply uuid_eqb_eq in Hd. apply uuid_eqb_eq in Ho. exists m. auto.
    - intros [m [Hm [Hd [Ho Hu]]]]. exists m. split; [|exact Hu].
      apply filter_In. split; [exact Hm|].
      apply andb_true_iff. split; apply uuid_eqb_eq; assumption. }
  split; [exact Hiff|].
  intros subtree Hsub u Hu. apply Hiff in Hu.
  destruct Hu as [m [Hm [Hd [Ho Hu]]]].
  destruct (Only (filter (organizationInDomain orgID domainID)
                         (organizations st))) as [org|e] eqn:Horg.
  - destruct (@ListSubtreeUserIDs_selects st domainID orgID org subtree
                Horg Hsub) as [_ Hsel].
    apply Hsel. apply Only_Ok in Horg.
    assert (Hf : In org (filter (organizationInDomain orgID domainID)
                                (organizations st)))
      by (rewrite Horg; left; reflexivity).
    apply filter_In in Hf. destruct Hf as [Hoin Hp].
    unfold organizationInDomain in Hp. apply andb_true_iff in Hp.
    destruct Hp as [Hid Hod]. apply uuid_eqb_eq in Hid. apply uuid_eqb_eq in Hod.
    exists m, org. repeat split; try assumption.
    + congruence.
    + apply prefix_refl.
  - unfold ListSubtreeUserIDs in Hsub. rewrite Horg in Hsub.
    destruct (IsNotFound e); discriminate.
Qed.

Lemma Only_Err {A} (l : list A) (e : Error) :
  Only l = Err e -> e = EntNotFound \/ e = EntNotSingular.
Proof.
  destruct l as [|x [|y l]]; simpl; intros H; inversion H; auto.
Qed.

Lemma store_eta (st : Store) :
  {| organizations := organizations st; members := members st |} = st.
Proof. destruct st; reflexivity. Qed.

Lemma domainIDFromContext_Err (ctx : Context) (e : Error) :
  domainIDFromContext ctx = Err e ->
  (e = ErrDomainContextMissing /\ ctxDomainID ctx = None)
  \/ (e = ErrInvalidDomainID
      /\ exists raw, ctxDomainID ctx = Some raw /\ uuid_Parse raw = None).
Proof.
  unfold domainIDFromContext. destruct (ctxDomainID ctx) as [raw|].
  - destruct (uuid_Parse raw) eqn:Hparse; intros H; inversion H.
    right. split; [reflexivity|]. exists raw. auto.
  - intros H. inversion H. left. auto.
Qed.

Lemma Only_NotFound {A} (p : A -> bool) (l : list A) :
  Only (filter p l) = Err EntNotFound -> forall x, In x l -> p x = false.
Proof.
  intros H. apply filter_nil_none.
  destruct (filter p l) as [|x [|y l']]; [reflexivity | discriminate | discriminate].
Qed.

(** The errors of [CreateOrganization], each with its cause; none of them
    goes with a change of the store. *)
Lemma CreateOrganization_Err newID ctx req st st' e :
  CreateOrganization newID ctx (Some req) st = (st', Err e) ->
  st' = st
  /\ (domainIDFromContext ctx = Err e
      \/ exists domainID,
           domainIDFromContext ctx = Ok domainID
           /\ (e = ErrNew "ou organization: code and name are required"
               \/ e = EntNotSingular \/ e = EntConstraint
               \/ (e = ErrOrganizationNotFound
                   /\ exists p, reqParentID req = Some p
                        /\ forall o, In o (organizations st) ->
                             organizationInDomain p domainID o = false))).
Proof.
  unfold CreateOrganization, Organization_Save.
  destruct (domainIDFromContext ctx) as [domainID|e0] eqn:Hdom.
  2:{ intros H. inversion H; subst. auto. }
  destruct (_ || _).
  { intros H. inversion H; subst. split; [reflexivity|]. right. exists domainID. auto. }
  destruct (reqParentID req) as [p|] eqn:Hparent.
  - destruct (Only _) as [parent|e0] eqn:Honly; simpl.
    + destruct (organization_conflict _ _); intros H; inversion H; subst.
      split; [reflexivity|]. right. exists domainID. auto.
    + destruct (Only_Err _ Honly); subst e0; simpl; intros H; inversion H; subst;
        (split; [reflexivity|]); right; exists domainID;
        (split; [reflexivity|]); [|auto].
      right. right. right. split; [reflexivity|]. exists p.
      split; [reflexivity|]. apply Only_NotFound. exact Honly.
  - simpl. destruct (organization_conflict _ _); intros H; inversion H; subst.
    split; [reflexivity|]. right. exists domainID. auto.
Qed.

(** Without failures of the store [WithFaults.AddOrganizationMember] is
    the [AddOrganizationMember] of the service as given first. *)
Lemma AddOrganizationMember_noStoreFaults newID ctx organizationID req st :
  WithFaults.AddOrganizationMember WithFaults.noStoreFaults newID ctx
    organizationID req st
  = AddOrganizationMember newID ctx organizationID req st.
Proof.
  unfold WithFaults.AddOrganizationMember, AddOrganizationMember. simpl.
  destruct req as [r|]; [|reflexivity].
  destruct (domainIDFromContext ctx); [|reflexivity].
  destruct (uuid_eqb (reqUserID r) uuid_Nil); [reflexivity|].
  destruct (Only _); [|reflexivity].
  rewrite andb_false_r. destruct (member_conflict _ _); reflexivity.
Qed.

(** The errors of [AddOrganizationMember], each with its cause.  The store
    has changed only when the call got as far as the insertion of the row:
    the store refused the row or the write failed. *)
Lemma AddOrganizationMember_Err f newID ctx organizationID req st st' e :
  WithFaults.AddOrganizationMember f newID ctx organizationID (Some req) st
  = (st', Err e) ->
  (exists domainID,
     domainIDFromContext ctx = Ok domainID
     /\ (e = ErrMemberAlreadyExists
         \/ (e = EntFault /\ WithFaults.memberSaveFails f = true))
     /\ st' = {| organizations := organizations st;
                 members :=
                   if reqIsPrimary req
                   then updateWhere (primaryOf domainID (reqUserID req))
                                    (SetIsPrimary false) (members st)
                   else members st |})
  \/ (st' = st
      /\ (domainIDFromContext ctx = Err e
          \/ exists domainID,
               domainIDFromContext ctx = Ok domainID
               /\ (e = ErrNew "ou organization: user id is required"
                   \/ e = EntNotSingular
                   \/ (e = EntFault
                       /\ (WithFaults.organizationQueryFails f = true
                           \/ (reqIsPrimary req = true
                               /\ WithFaults.demoteFails f = true)))
                   \/ (e = ErrOrganizationNotFound
                       /\ WithFaults.organizationQueryFails f = false
                       /\ forall o, In o (organizations st) ->
                            organizationInDomain organizationID domainID o
                            = false)))).
Proof.
  unfold WithFaults.AddOrganizationMember.
  destruct (domainIDFromContext ctx) as [domainID|e0] eqn:Hdom.
  2:{ intros H. inversion H; subst. auto. }
  destruct (uuid_eqb (reqUserID req) uuid_Nil).
  { intros H. inversion H; subst. right. split; [reflexivity|]. right.
    exists domainID. auto. }
  destruct (WithFaults.organizationQueryFails f) eqn:Hquery.
  { simpl. intros H. inversion H; subst. right. split; [reflexivity|]. right.
    exists domainID. split; [reflexivity|]. right. right. left. auto. }
  destruct (Only _) as [org|e0] eqn:Honly.
  - destruct (reqIsPrimary req && WithFaults.demoteFails f) eqn:Hdemote.
    { intros H. inversion H; subst. apply andb_true_iff in Hdemote.
      right. split; [reflexivity|]. right.
      exists domainID. split; [reflexivity|]. right. right. left. auto. }
    destruct (member_conflict _ _).
    + intros H. inversion H; subst. left. exists domainID. auto.
    + destruct (WithFaults.memberSaveFails f) eqn:Hsave;
        intros H; inversion H; subst. left. exists domainID. auto.
  - destruct (Only_Err _ Honly); subst e0; simpl; intros H; inversion H; subst;
      right; (split; [reflexivity|]); right; exists domainID;
      (split; [reflexivity|]); [|auto].
    right. right. right. split; [reflexivity|]. split; [reflexivity|].
    apply Only_NotFound. exact Honly.
Qed.

(** X5.  A failed [AddOrganizationMember], the failures of the store
    included, never touches the organizations and never adds or removes a
    membership row.  It leaves the whole store as it was unless the call
    fails at the insertion of the row (the store refuses the row, which is
    [ErrMemberAlreadyExists], or the write fails) on a request with
    [isPrimary] set: the demotion has then been written already, and the
    user is left without a primary membership in the domain. *)
Theorem AddOrganizationMember_failure :
  forall (f : WithFaults.StoreFaults) (newID : UUID) (ctx : Context)
         (organizationID : UUID)
         (req : option AddOrganizationMemberRequest) (st : Store) (e : Error),
    snd (WithFaults.AddOrganizationMember f newID ctx organizationID req st)
    = Err e ->
    let st' :=
      fst (WithFaults.AddOrganizationMember f newID ctx organizationID req st)
    in
    organizations st' = organizations st
    /\ List.length (members st') = List.length (members st)
    /\ (e <> ErrMemberAlreadyExists ->
        WithFaults.memberSaveFails f = false -> st' = st)
    /\ (forall r, req = Some r -> reqIsPrimary r = false -> st' = st)
    /\ (forall r domainID,
          req = Some r -> reqIsPrimary r = true ->
          e = ErrMemberAlreadyExists
          \/ (e = EntFault /\ WithFaults.organizationQueryFails f = false
              /\ WithFaults.demoteFails f = false) ->
          domainIDFromContext ctx = Ok domainID ->
          members st'
          = updateWhere (primaryOf domainID (reqUserID r))
                        (SetIsPrimary false) (members st)
          /\ primaryCount domainID (reqUserID r) st' = 0).
Proof.
  intros f newID ctx organizationID req st e Herr st'. subst st'.
  destruct req as [r|].
  2:{ simpl in Herr |- *. inversion Herr; subst e.
      repeat split; intros; try reflexivity; congruence. }
  destruct (WithFaults.AddOrganizationMember f newID ctx organizationID
              (Some r) st) as [st' res] eqn:Hcall.
  simpl in Herr |- *. subst res.
  destruct (AddOrganizationMember_Err _ _ _ _ _ _ Hcall)
    as [[domainID [Hdom [Hcause Hst]]]|[Hst Hcause]].
  - subst st'. simpl. split; [reflexivity|]. split.
    { destruct (reqIsPrimary r); [|reflexivity].
      unfold updateWhere. apply length_map. }
    split.
    { intros Hne Hsave. destruct Hcause as [He|[_ Hs]]; congruence. }
    split.
    + intros r0 Hr Hprim. inversion Hr; subst r0. rewrite Hprim.
      apply store_eta.
    + intros r0 d Hr Hprim _ Hd. inversion Hr; subst r0.
      rewrite Hdom in Hd. inversion Hd; subst d. rewrite Hprim.
      split; [reflexivity|].
      unfold primaryCount. simpl. rewrite demote_clears. reflexivity.
  - subst st'. split; [reflexivity|]. split; [reflexivity|].
    split; [intros; reflexivity|]. split; [intros; reflexivity|].
    intros r0 d Hr Hprim He Hd. exfalso. inversion Hr; subst r0.
    destruct Hcause as [Hc|[d' [Hd' Hc]]]; [congruence|].
    destruct He as [He|[He [Hq Hdm]]]; subst e.
    + destruct Hc as [Hc|[Hc|[[Hc _]|[Hc _]]]]; discriminate Hc.
    + destruct Hc as [Hc|[Hc|[[_ [Hc|[_ Hc]]]|[Hc _]]]];
        try discriminate Hc; congruence.
Qed.

(** X6.  [CreateOrganization] is all or nothing and only ever appends.  It
    never touches the memberships.  When it fails the store is what it
    was.  When it succeeds exactly one row has been appended to the
    organizations: it carries the supplied id, the domain of the context,
    the trimmed code and name, both non-empty, and the parent of the
    request, which is then a stored organization of the same domain; the
    response shows that row. *)
Theorem CreateOrganization_atomic :
  forall (newID : UUID) (ctx : Context)
         (req : option CreateOrganizationRequest) (st : Store),
    let out := CreateOrganization newID ctx req st in
    members (fst out) = members st
    /\ match snd out with
       | Err _ => fst out = st
       | Ok resp =>
           exists r domainID row,
             req = Some r /\ domainIDFromContext ctx = Ok domainID
             /\ organizations (fst out) = organizations st ++ [row]
             /\ resp = toOrganizationResponse row
             /\ oID row = newID /\ oDomainID row = domainID
             /\ oCode row = TrimSpace (reqCode r) /\ oCode row <> ""
             /\ oName row = TrimSpace (reqName r) /\ oName row <> ""
             /\ oParentID row = reqParentID r
             /\ organization_conflict (organizations st) row = false
             /\ (forall p, reqParentID r = Some p ->
                   exists parent,
                     In parent (organizations st) /\ oID parent = p
                     /\ oDomainID parent = domainID)
       end.
Proof.
  intros newID ctx req st out. subst out.
  split; [apply CreateOrganization_members|].
  unfold CreateOrganization, Organization_Save.
  destruct req as [r|]; [|reflexivity].
  destruct (domainIDFromContext ctx) as [domainID|e] eqn:Hdom; [|reflexivity].
  destruct (String.eqb (TrimSpace (reqCode r)) "") eqn:Hcode; [reflexivity|].
  destruct (String.eqb (TrimSpace (reqName r)) "") eqn:Hname; [reflexivity|].
  simpl. apply String.eqb_neq in Hcode. apply String.eqb_neq in Hname.
  destruct (reqParentID r) as [parentID|] eqn:Hparent.
  - destruct (Only _) as [parent|e] eqn:Honly; simpl;
      [|destruct (IsNotFound e); reflexivity].
    destruct (organization_conflict _ _) eqn:Hconf; simpl; [reflexivity|].
    apply Only_Ok in Honly.
    assert (Hf : In parent (filter (organizationInDomain parentID domainID)
                                   (organizations st)))
      by (rewrite Honly; left; reflexivity).
    apply filter_In in Hf. destruct Hf as [Hin Hp].
    unfold organizationInDomain in Hp. apply andb_true_iff in Hp.
    destruct Hp as [Hid Hod]. apply uuid_eqb_eq in Hid. apply uuid_eqb_eq in Hod.
    eexists r, domainID, _. split; [reflexivity|]. split; [reflexivity|].
    split; [reflexivity|]. split; [reflexivity|]. simpl.
    subst parentID.
    repeat split; try assumption; try reflexivity; try (symmetry; assumption).
    intros p Hp. rewrite Hparent in Hp. inversion Hp; subst p.
    exists parent. auto.
  - simpl. destruct (organization_conflict _ _) eqn:Hconf; simpl; [reflexivity|].
    eexists r, domainID, _. split; [reflexivity|]. split; [reflexivity|].
    split; [reflexivity|]. split; [reflexivity|]. simpl.
    repeat split; try assumption; try reflexivity; try (symmetry; assumption).
    intros p Hp. rewrite Hparent in Hp. discriminate.
Qed.

End WithSchema.

Import scenario.

(** User 5 was made primary of "company" and then of "sales": the answer
    is "sales". *)
Lemma GetPrimaryOrganizationID_answer_witness :
  GetPrimaryOrganizationID (run emptyStore twoPrimaries) 7 5 = Ok 2.
Proof.
  apply (proj1 (@GetPrimaryOrganizationID_answer (run emptyStore twoPrimaries) 7 5
                  (run_preserves twoPrimaries emptyStore_primaryUnique))
           {| mID := 11; mDomainID := 7; mOrganizationID := 2; mUserID := 5;
              mIsPrimary := true |}).
  - vm_compute. auto.
  - reflexivity.
Defined.

(** User 5 is the primary member of "company" and is to become the
    primary member of "sales"; the write of the new row fails.  The call
    returns the error of the store, and the user has no primary membership
    left. *)
Lemma AddOrganizationMember_failure_witness :
  let f := {| WithFaults.organizationQueryFails := false;
              WithFaults.demoteFails := false;
              WithFaults.memberSaveFails := true |} in
  let st := run emptyStore (firstn 3 twoPrimaries) in
  let out := WithFaults.AddOrganizationMember f 11 (platformCtx None) 2
               (Some (mkOrgMember 5 true)) st in
  snd out = Err EntFault
  /\ primaryCount 7 5 st = 1
  /\ primaryCount 7 5 (fst out) = 0.
Proof.
  intros f st out.
  split; [reflexivity|]. split; [reflexivity|].
  exact (proj2 (proj2 (proj2 (proj2 (proj2
           (@AddOrganizationMember_failure decimalText ouSchema f 11
              (platformCtx None) 2 (Some (mkOrgMember 5 true)) st
              EntFault eq_refl))))
           (mkOrgMember 5 true) 7 eq_refl eq_refl
           (or_intror (conj eq_refl (conj eq_refl eq_refl))) eq_refl)).
Defined.

End organization_service_facts.

(** * Facts about the organization handlers *)

Module organization_handler_facts.
Import organization query_facts organization_facts organization_service_facts.

Section WithSchema.
Context {codec : UUIDText} {schema : Schema}.

(** X7.  What each response of the handler [CreateOrganization] means.
    [OK] carries the result of a successful service call on the decoded
    body.  Every other response leaves the store as it was: a bind error
    for a body that does not decode, a bad request for a missing or
    malformed domain in the context, not found for a parent that is no
    organization of the domain.  The handler never answers with a
    conflict: a blank code or name and a row the store refuses are both
    reported as a database error. *)
Theorem Handler_CreateOrganization_responses :
  forall (newID : UUID) (ctx : Context)
         (body : option CreateOrganizationRequest) (st : Store),
    let out := Handler.CreateOrganization newID ctx body st in
    match snd out with
    | OK result =>
        exists req,
          body = Some req
          /\ CreateOrganization newID ctx (Some req) st = (fst out, Ok result)
    | BindError => body = None /\ fst out = st
    | BadRequest msg =>
        fst out = st
        /\ ((msg = "Missing domain context" /\ ctxDomainID ctx = None)
            \/ (msg = "Invalid domain context"
                /\ exists raw, ctxDomainID ctx = Some raw
                               /\ uuid_Parse raw = None))
    | NotFound msg =>
        fst out = st
        /\ exists req p domainID,
             body = Some req /\ reqParentID req = Some p
             /\ domainIDFromContext ctx = Ok domainID
             /\ forall o, In o (organizations st) ->
                          organizationInDomain p domainID o = false
    | DatabaseError msg =>
        fst out = st /\ msg = "OU organization operation failed"
        /\ exists req domainID,
             body = Some req /\ domainIDFromContext ctx = Ok domainID
    | Conflict _ | Unauthorized _ | Forbidden _ => False
    end
    /\ (forall req domainID,
          body = Some req -> domainIDFromContext ctx = Ok domainID ->
          TrimSpace (reqCode req) = "" \/ TrimSpace (reqName req) = "" ->
          out = (st, DatabaseError "OU organization operation failed")).
Proof.
  intros newID ctx body st out. subst out. split.
  - unfold Handler.CreateOrganization.
    destruct body as [req|]; [|simpl; auto].
    destruct (CreateOrganization newID ctx (Some req) st) as [st' res] eqn:Hcall.
    destruct res as [result|err]; simpl; [exists req; auto|].
    destruct (CreateOrganization_Err _ _ _ _ Hcall) as [Hst Hcause]. subst st'.
    destruct Hcause as [Hdom|[domainID [Hdom Hcause]]].
    + destruct (domainIDFromContext_Err ctx Hdom) as [[He Hc]|[He Hc]];
        subst err; simpl; auto.
    + destruct Hcause as [He|[He|[He|[He [p [Hp Hnone]]]]]]; subst err; simpl;
        eauto 8.
  - intros req domainID Hbody Hdom Hblank. subst body.
    unfold Handler.CreateOrganization, CreateOrganization. rewrite Hdom.
    assert (Hb : String.eqb (TrimSpace (reqCode req)) ""
                 || String.eqb (TrimSpace (reqName req)) "" = true).
    { apply orb_true_iff. destruct Hblank as [H|H]; rewrite H; auto. }
    rewrite Hb. reflexivity.
Qed.

(** X8.  What each response of the handler [AddOrganizationMember] means,
    the failures of the store included.  An id in the URL that is no
    identifier is a bad request, before the body is read.  [OK] carries
    the result of a successful service call.  A conflict is answered
    exactly when the store refuses the membership row.  A bind error, a
    bad request and a not-found leave the store as it was.  So does a
    database error, unless the write of the new row failed on a request
    with [isPrimary] set: the demotion of the user's primary rows has then
    been written.  A zero user id and a query that fails are reported as
    database errors. *)
Theorem Handler_AddOrganizationMember_responses :
  forall (f : WithFaults.StoreFaults) (newID : UUID) (ctx : Context)
         (id : string) (body : option AddOrganizationMemberRequest)
         (st : Store),
    let out := Handler.AddOrganizationMember f newID ctx id body st in
    (uuid_Parse id = None -> out = (st, BadRequest "Invalid organization ID"))
    /\ match snd out with
       | OK result =>
           exists organizationID req,
             uuid_Parse id = Some organizationID /\ body = Some req
             /\ WithFaults.AddOrganizationMember f newID ctx organizationID
                  (Some req) st
                = (fst out, Ok result)
       | Conflict msg =>
           exists organizationID req,
             uuid_Parse id = Some organizationID /\ body = Some req
             /\ WithFaults.AddOrganizationMember f newID ctx organizationID
                  (Some req) st
                = (fst out, Err ErrMemberAlreadyExists)
       | BindError =>
           (exists organizationID, uuid_Parse id = Some organizationID)
           /\ body = None /\ fst out = st
       | BadRequest msg =>
           fst out = st
           /\ ((msg = "Invalid organization ID" /\ uuid_Parse id = None)
               \/ (msg = "Missing domain context" /\ ctxDomainID ctx = None)
               \/ (msg = "Invalid domain context"
                   /\ exists raw, ctxDomainID ctx = Some raw
                                  /\ uuid_Parse raw = None))
       | NotFound msg =>
           fst out = st
           /\ exists organizationID domainID,
                uuid_Parse id = Some organizationID
                /\ domainIDFromContext ctx = Ok domainID
                /\ forall o, In o (organizations st) ->
                     organizationInDomain organizationID domainID o = false
       | DatabaseError msg =>
           msg = "OU organization operation failed"
           /\ (fst out = st
               \/ exists organizationID req domainID,
                    uuid_Parse id = Some organizationID /\ body = Some req
                    /\ reqIsPrimary req = true
                    /\ domainIDFromContext ctx = Ok domainID
                    /\ WithFaults.memberSaveFails f = true
                    /\ fst out
                       = {| organizations := organizations st;
                            members :=
                              updateWhere (primaryOf domainID (reqUserID req))
                                          (SetIsPrimary false) (members st) |})
       | Unauthorized _ | Forbidden _ => False
       end
    /\ (forall organizationID req domainID,
          uuid_Parse id = Some organizationID -> body = Some req ->
          domainIDFromContext ctx = Ok domainID ->
          reqUserID req = uuid_Nil
          \/ WithFaults.organizationQueryFails f = true ->
          out = (st, DatabaseError "OU organization operation failed")).
Proof.
  intros f newID ctx id body st out. subst out.
  unfold Handler.AddOrganizationMember. split; [|split].
  - intros Hid. rewrite Hid. reflexivity.
  - destruct (uuid_Parse id) as [organizationID|] eqn:Hid; [|simpl; auto].
    destruct body as [req|]; [|simpl; eauto].
    destruct (WithFaults.AddOrganizationMember f newID ctx organizationID
                (Some req) st) as [st' res] eqn:Hcall.
    destruct res as [result|err]; simpl; [exists organizationID, req; auto|].
    destruct (AddOrganizationMember_Err _ _ _ _ _ _ Hcall)
      as [[domainID [Hdom [[He|[He Hsave]] Hst]]]
         |[Hst [Hdom|[domainID [Hdom Hcause]]]]].
    + subst err. simpl. exists organizationID, req. auto.
    + subst err st'. simpl. split; [reflexivity|].
      destruct (reqIsPrimary req) eqn:Hprim.
      * right. exists organizationID, req, domainID. auto 7.
      * left. apply store_eta.
    + subst st'.
      destruct (domainIDFromContext_Err ctx Hdom) as [[He Hc]|[He Hc]];
        subst err; simpl; auto.
    + subst st'.
      destruct Hcause as [He|[He|[[He _]|[He [_ Hnone]]]]]; subst err; simpl;
        eauto 8.
  - intros organizationID req domainID Hid Hbody Hdom Hcause. subst body.
    rewrite Hid. unfold WithFaults.AddOrganizationMember. rewrite Hdom.
    destruct (uuid_eqb (reqUserID req) uuid_Nil) eqn:Hnil; [reflexivity|].
    destruct Hcause as [Hzero|Hquery].
    + rewrite Hzero, uuid_eqb_refl in Hnil. discriminate Hnil.
    + rewrite Hquery. reflexivity.
Qed.

End WithSchema.

End organization_handler_facts.

(** * Facts about the membership table *)

Module membership_facts.
Import tenant query_facts.

Lemma updateWhere_length {A} (p : A -> bool) (g : A -> A) (l : list A) :
  List.length (updateWhere p g l) = List.length l.
Proof. unfold updateWhere. apply length_map. Qed.

Lemma First_Err {A} (l : list A) (e : Error) :
  First l = Err e -> l = [] /\ e = EntNotFound.
Proof. destruct l; simpl; intros H; inversion H; auto. Qed.

(** An update that keeps the tenant and the user of every row keeps the
    number of rows of every pair. *)
Lemma updateWhere_pairUnique (p : TenantUser -> bool)
    (g : TenantUser -> TenantUser) (rows : list TenantUser) :
  (forall r, tuTenantID (g r) = tuTenantID r /\ tuUserID (g r) = tuUserID r) ->
  pairUnique rows -> pairUnique (updateWhere p g rows).
Proof.
  intros Hg Hrows tenantID userID.
  rewrite filter_updateWhere.
  - rewrite updateWhere_length. apply Hrows.
  - intros r. unfold membershipOf. destruct (Hg r) as [Ht Hu].
    rewrite Ht, Hu. reflexivity.
Qed.

Lemma append_pairUnique (rows : list TenantUser) (row : TenantUser) :
  filter (membershipOf (tuTenantID row) (tuUserID row)) rows = [] ->
  pairUnique rows -> pairUnique (rows ++ [row]).
Proof.
  intros Hnone Hrows tenantID userID.
  rewrite organization_facts.filter_length_app.
  destruct (membershipOf tenantID userID row) eqn:Hrow.
  - unfold membershipOf in Hrow. apply andb_true_iff in Hrow.
    destruct Hrow as [Ht Hu]. apply uuid_eqb_eq in Ht. apply uuid_eqb_eq in Hu.
    subst tenantID userID. rewrite Hnone. simpl. lia.
  - specialize (Hrows tenantID userID). lia.
Qed.

(** Distinct (tenant, user) pairs make a table with one row per pair. *)
Lemma NoDup_pairUnique (rows : list TenantUser) :
  NoDup (map (fun r => (tuTenantID r, tuUserID r)) rows) -> pairUnique rows.
Proof.
  intros Hnd tenantID userID.
  induction rows as [|x rows IH]; simpl; [lia|].
  simpl in Hnd. inversion Hnd as [|? ? Hnotin Hnd']; subst.
  specialize (IH Hnd').
  destruct (membershipOf tenantID userID x) eqn:Hx; [|exact IH].
  rewrite (filter_none (membershipOf tenantID userID) rows); [simpl; lia|].
  intros y Hy. destruct (membershipOf tenantID userID y) eqn:Hpy; [|reflexivity].
  exfalso. apply Hnotin.
  unfold membershipOf in Hx, Hpy.
  apply andb_true_iff in Hx. destruct Hx as [Hxt Hxu].
  apply andb_true_iff in Hpy. destruct Hpy as [Hyt Hyu].
  apply uuid_eqb_eq in Hxt. apply uuid_eqb_eq in Hxu.
  apply uuid_eqb_eq in Hyt. apply uuid_eqb_eq in Hyu.
  apply in_map_iff. exists y. split; [|exact Hy]. congruence.
Qed.

Lemma ensureMembership_pairUnique now newID rows tenantID userID forceDefault
    roleName rows1 :
  pairUnique rows ->
  ensureMembership now newID rows tenantID userID forceDefault roleName
  = Ok rows1 ->
  pairUnique rows1.
Proof.
  intros Hrows. unfold ensureMembership.
  destruct (First (filter (membershipOf tenantID userID) rows))
    as [existing|e] eqn:Hfirst.
  - destruct (_ && _); intros H; inversion H; subst rows1; [exact Hrows|].
    apply updateWhere_pairUnique; [|exact Hrows]. intros r. split; reflexivity.
  - apply First_Err in Hfirst. destruct Hfirst as [Hnone He]. subst e. simpl.
    intros H. inversion H; subst rows1.
    apply append_pairUnique; [exact Hnone | exact Hrows].
Qed.

Lemma ensureMembershipTx_pairUnique fault now newID rows tenantID userID
    forceDefault roleName rows1 :
  pairUnique rows ->
  ensureMembershipTx fault now newID rows tenantID userID forceDefault roleName
  = Ok rows1 ->
  pairUnique rows1.
Proof.
  intros Hrows. unfold ensureMembershipTx. destruct fault; [discriminate|].
  destruct (First (filter (membershipOf tenantID userID) rows))
    as [existing|e] eqn:Hfirst.
  - intros H; inversion H; subst rows1.
    apply updateWhere_pairUnique; [|exact Hrows]. intros r.
    destruct forceDefault; destruct (negb (String.eqb roleName ""));
      split; reflexivity.
  - apply First_Err in Hfirst. destruct Hfirst as [Hnone He]. subst e. simpl.
    intros H. inversion H; subst rows1.
    apply append_pairUnique; [exact Hnone | exact Hrows].
Qed.

(** The sweep of [OnUserDeleted] over the memberships [ms]. *)
Lemma sweep_pairUnique (updateFails : UUID -> bool) now
    (ms : list TenantUser) : forall rows,
  pairUnique rows ->
  pairUnique (fold_left
                (fun rows m =>
                   if updateFails (tuID m) then rows
                   else updateWhere (fun r => uuid_eqb (tuID r) (tuID m))
                                    (SetDeletedAt (Some now)) rows) ms rows).
Proof.
  induction ms as [|m ms IH]; intros rows Hrows; simpl; [exact Hrows|].
  apply IH. destruct (updateFails (tuID m)); [exact Hrows|].
  apply updateWhere_pairUnique; [|exact Hrows].
  intros r. split; reflexivity.
Qed.

Section WithDomainService.
Context {codec : UUIDText} {D : Type} {domainSvc : DomainWriter D}.

(** What [CreateTenant] leaves in the membership table: the table as it
    was, or the table with the owner's row as [ensureMembershipTx] wrote
    it. *)
Lemma CreateTenant_tenantUsers f now tenantRowID memberRowID ctx req (w : World D) :
  let out := CreateTenant f now tenantRowID memberRowID ctx req w in
  tenantUsers (fst out) = tenantUsers w
  \/ exists ownerID,
       ctxUserID ctx = Some ownerID
       /\ isOk (snd out) = true
       /\ ensureMembershipTx false now memberRowID (tenantUsers w)
            tenantRowID ownerID true "tenant_admin"
          = Ok (tenantUsers (fst out)).
Proof.
  intros out. subst out. unfold CreateTenant.
  destruct (requirePlatformDomain ctx); [|left; reflexivity].
  destruct (_ || _); [left; reflexivity|].
  destruct (txBeginFails f); [left; reflexivity|].
  destruct (resolveParentTenantID _ _ _ _) as [[parentTenantID hasParent]|e0];
    [|left; reflexivity].
  destruct (Tenant_Save _ _ _) as [txTenants|e0]; [|left; reflexivity].
  destruct (EnsureDomain _ _ _ _) as [d1 [dom|e0]]; [|left; reflexivity].
  destruct (SeedBaselineRoles _ _ _) as [roles1 [[]|e0]]; [|left; reflexivity].
  destruct (ctxUserID ctx) as [ownerID|]; simpl.
  - destruct (AddMembership _ _ _ _ _) as [d2 [[]|e0]]; [|left; reflexivity].
    destruct (ownerRowFails f).
    { simpl. left. reflexivity. }
    destruct (ensureMembershipTx _ _ _ _ _ _ _ _) as [txMembers|e0] eqn:Hown;
      [|left; reflexivity].
    destruct (commitFails f); simpl; [left; reflexivity|].
    right. exists ownerID. auto.
  - destruct (commitFails f); simpl; left; reflexivity.
Qed.

(** X9.  The service never gives a (tenant, user) pair a second
    membership row: from a table with at most one row per pair, deleted
    rows included, every history of [CreateTenant], [UpdateTenant],
    [DeleteTenant], [AddMember], [RemoveMember] and [OnUserDeleted] calls,
    failed ones included, leads to such a table. *)
Theorem history_pairUnique :
  forall (ops : list Operation) (w : World D),
    pairUnique (tenantUsers w) ->
    pairUnique (tenantUsers (history w ops)).
Proof.
  induction ops as [|op ops IH]; intros w Hw; simpl; [exact Hw|].
  apply IH. clear IH.
  destruct op as [f now tenantRowID memberRowID ctx req | ctx id req
                 | now ctx id | now newID ctx tenantID userID role
                 | now ctx tenantID userID
                 | listFails updateFails now data]; simpl.
  - destruct (CreateTenant_tenantUsers f now tenantRowID memberRowID ctx req w)
      as [H|[ownerID [_ [_ H]]]].
    + rewrite H. exact Hw.
    + eapply ensureMembershipTx_pairUnique; [exact Hw | exact H].
  - unfold UpdateTenant.
    destruct (requirePlatformDomain ctx); [|exact Hw].
    destruct (getTenant _ _); [|exact Hw].
    destruct (resolveParentTenantID _ _ _ _); exact Hw.
  - unfold DeleteTenant.
    destruct (requirePlatformDomain ctx); [|exact Hw].
    destruct (getTenant _ _); exact Hw.
  - unfold AddMember.
    destruct (requirePlatformDomain ctx); [|exact Hw].
    destruct (getTenant _ _) as [t|e]; [|exact Hw].
    destruct (GetUser _ _) as [u|e]; [|exact Hw].
    destruct (conflictLoop _ _ _); [exact Hw|].
    destruct (if negb _ then _ else _) as [d1 [[]|e]]; [|exact Hw].
    destruct (ensureMembership _ _ _ _ _ _ _) as [rows|e] eqn:Hens; [|exact Hw].
    simpl. eapply ensureMembership_pairUnique; [exact Hw | exact Hens].
  - unfold RemoveMember.
    destruct (requirePlatformDomain ctx); [|exact Hw].
    destruct (getTenant _ _) as [t|e]; [|exact Hw].
    destruct (First _) as [membership|e]; [|exact Hw].
    simpl.
    assert (Hremoved : pairUnique
              (updateWhere (fun r => uuid_eqb (tuID r) (tuID membership))
                           (SetDeletedAt (Some now)) (tenantUsers w))).
    { apply updateWhere_pairUnique; [|exact Hw]. intros r. split; reflexivity. }
    destruct (tuIsDefault membership); [|exact Hremoved].
    destruct (FirstOldest _) as [alt|e]; [|exact Hremoved].
    apply updateWhere_pairUnique; [|exact Hremoved]. intros r. split; reflexivity.
  - unfold OnUserDeleted. destruct data as [userID|]; [|exact Hw].
    destruct listFails; [exact Hw|].
    simpl. apply sweep_pairUnique. exact Hw.
Qed.

End WithDomainService.

Import scenario.

(** The membership table stays free of double rows through the life of
    "acme". *)
Lemma history_pairUnique_witness :
  pairUnique (tenantUsers (history world0 lifeOps))
  /\ List.length (tenantUsers (history world0 lifeOps)) = 2.
Proof.
  split; [|reflexivity].
  apply (@history_pairUnique decimalText _ mockWriter lifeOps world0).
  intros tenantID userID. simpl. lia.
Defined.

Lemma bareWorld_NoDup : NoDup (map tuID (tenantUsers bareWorld)).
Proof. simpl. repeat constructor; simpl; intuition discriminate. Qed.

Lemma bareWorld_pairUnique : pairUnique (tenantUsers bareWorld).
Proof.
  apply NoDup_pairUnique. simpl.
  repeat constructor; simpl; intuition congruence.
Qed.

End membership_facts.

(** * Facts about the tenant lifecycle *)

Module tenant_lifecycle_facts.
Import tenant query_facts tenant_facts membership_facts.

Lemma getTenant_updateWhere (rows : list Tenant) (id : UUID) (t : Tenant)
    (g : Tenant -> Tenant) :
  (forall r, tID (g r) = tID r) ->
  getTenant rows id = Ok t ->
  getTenant (updateWhere (fun r => uuid_eqb (tID r) id) g rows) id = Ok (g t).
Proof.
  intros Hg. unfold getTenant, Tenant_Get.
  destruct (Only (filter (fun t0 => uuid_eqb (tID t0) id) rows))
    as [t0|e] eqn:Honly; [|destruct (IsNotFound e); discriminate].
  intros H. inversion H; subst t0; clear H.
  apply Only_Ok in Honly.
  rewrite filter_updateWhere by (intros r; rewrite Hg; reflexivity).
  rewrite Honly. simpl.
  assert (Hin : In t (filter (fun t0 => uuid_eqb (tID t0) id) rows))
    by (rewrite Honly; left; reflexivity).
  apply filter_In in Hin. destruct Hin as [_ Hid]. rewrite Hid. reflexivity.
Qed.

Section WithDomainService.
Context {codec : UUIDText} {D : Type} {domainSvc : DomainWriter D}.

(** The prologue of [WithFaults]: when the lookup does not fail it is the
    prologue of the service. *)
Lemma getTenant_answers (f : WithFaults.StoreFaults) (rows : list Tenant)
    (id : UUID) :
  WithFaults.tenantGetFails f = false ->
  WithFaults.getTenant f rows id = getTenant rows id.
Proof. intros Hf. unfold WithFaults.getTenant. rewrite Hf. reflexivity. Qed.

Lemma getTenant_fails (f : WithFaults.StoreFaults) (rows : list Tenant)
    (id : UUID) :
  WithFaults.tenantGetFails f = true ->
  WithFaults.getTenant f rows id = Err (Wrap "get tenant" EntFault).
Proof. intros Hf. unfold WithFaults.getTenant. rewrite Hf. reflexivity. Qed.

(** Without failures of the store the two functions of [WithFaults] are
    the [DeleteTenant] and the [RemoveMember] of the service. *)
Lemma DeleteTenant_noStoreFaults now ctx id (w : World D) :
  WithFaults.DeleteTenant WithFaults.noStoreFaults now ctx id w
  = DeleteTenant now ctx id w.
Proof.
  unfold WithFaults.DeleteTenant, DeleteTenant.
  rewrite getTenant_answers by reflexivity. reflexivity.
Qed.

Lemma RemoveMember_noStoreFaults now ctx tenantID userID (w : World D) :
  WithFaults.RemoveMember WithFaults.noStoreFaults now ctx tenantID userID w
  = RemoveMember now ctx tenantID userID w.
Proof.
  unfold WithFaults.RemoveMember, RemoveMember.
  rewrite getTenant_answers by reflexivity. reflexivity.
Qed.

(** X11.  [DeleteTenant] in the platform domain, on a tenant that exists.
    When the lookup of the tenant or the update fails in the store, the
    call returns an error and nothing has changed.  Otherwise it returns
    nil, marks the row as deleted at [now] and touches nothing else:
    memberships, users, roles and domains stay.  Afterwards [GetTenant]
    still finds the tenant, with the id, code, name, description, status,
    owner, parent and domain it showed before (its time stamps are not
    spoken of), and [IsMember] answers as before; [GetTenantByCode] no
    longer finds the tenant, when tenant codes are distinct; and a second
    [DeleteTenant] succeeds again and overwrites the deletion instant. *)
Theorem DeleteTenant_soft :
  forall (f : WithFaults.StoreFaults) (now : Time) (ctx : Context) (id : UUID)
         (w : World D) (t : Tenant),
    requirePlatformDomain ctx = Ok tt ->
    getTenant (tenants w) id = Ok t ->
    let out := WithFaults.DeleteTenant f now ctx id w in
    (WithFaults.tenantGetFails f = true \/ WithFaults.softDeleteFails f = true ->
     fst out = w /\ isOk (snd out) = false)
    /\ (WithFaults.tenantGetFails f = false ->
        WithFaults.softDeleteFails f = false ->
        snd out = Ok tt
        /\ tenants (fst out)
           = updateWhere (fun r => uuid_eqb (tID r) id)
                         (SetTenantDeletedAt (Some now)) (tenants w)
        /\ tenantUsers (fst out) = tenantUsers w /\ users (fst out) = users w
        /\ roles (fst out) = roles w /\ domains (fst out) = domains w
        /\ (exists before after,
              GetTenant w id = Ok before /\ GetTenant (fst out) id = Ok after
              /\ dtoID after = dtoID before /\ dtoCode after = dtoCode before
              /\ dtoName after = dtoName before
              /\ dtoDescription after = dtoDescription before
              /\ dtoStatus after = dtoStatus before
              /\ dtoOwnerID after = dtoOwnerID before
              /\ dtoParentTenantID after = dtoParentTenantID before
              /\ dtoDomainID after = dtoDomainID before)
        /\ (forall userID, IsMember (fst out) id userID = IsMember w id userID)
        /\ (NoDup (map tCode (tenants w)) ->
            GetTenantByCode (fst out) (tCode t) = Err ErrTenantNotFound)
        /\ (forall now',
              snd (WithFaults.DeleteTenant f now' ctx id (fst out)) = Ok tt
              /\ forall r,
                   In r (tenants (fst (WithFaults.DeleteTenant f now' ctx id
                                         (fst out)))) ->
                   tID r = id -> tDeletedAt r = Some now')).
Proof.
  intros f now ctx id w t Hctx Ht out. subst out.
  assert (Ht' : getTenant (updateWhere (fun r => uuid_eqb (tID r) id)
                             (SetTenantDeletedAt (Some now)) (tenants w)) id
                = Ok (SetTenantDeletedAt (Some now) t)).
  { apply getTenant_updateWhere; [reflexivity | exact Ht]. }
  split.
  { unfold WithFaults.DeleteTenant. rewrite Hctx.
    destruct (WithFaults.tenantGetFails f) eqn:Hget.
    - intros _. rewrite (@getTenant_fails f (tenants w) id Hget). auto.
    - intros [Hf|Hf]; [discriminate Hf|].
      rewrite (@getTenant_answers f (tenants w) id Hget), Ht, Hf. auto. }
  intros Hget Hsoft.
  unfold WithFaults.DeleteTenant. rewrite Hctx.
  rewrite (@getTenant_answers f (tenants w) id Hget), Ht, Hsoft. simpl.
  split; [reflexivity|]. split; [reflexivity|]. split; [reflexivity|].
  split; [reflexivity|]. split; [reflexivity|]. split; [reflexivity|].
  split; [|split; [|split]].
  - unfold GetTenant. simpl. rewrite Ht', Ht.
    eexists. eexists. split; [reflexivity|]. split; [reflexivity|].
    simpl. repeat split.
  - intros userID. unfold IsMember. simpl. rewrite Ht', Ht. reflexivity.
  - intros Hcodes. unfold GetTenantByCode. simpl.
    rewrite filter_none; [reflexivity|].
    intros x Hx. apply In_updateWhere in Hx. destruct Hx as [r [Hr Hx]].
    destruct (getTenant_Ok _ _ Ht) as [Htin Htid].
    destruct (uuid_eqb (tID r) id) eqn:Hid.
    + subst x. simpl. apply andb_false_r.
    + subst x. destruct (String.eqb (tCode r) (tCode t)) eqn:Hcode;
        [|reflexivity].
      apply String.eqb_eq in Hcode.
      assert (r = t) by (eapply NoDup_map_eq; eauto). subst r.
      rewrite Htid, uuid_eqb_refl in Hid. discriminate.
  - intros now'.
    rewrite (@getTenant_answers f _ id Hget), Ht'. simpl.
    split; [reflexivity|].
    intros r Hr Hid. apply In_updateWhere in Hr. destruct Hr as [x [Hx Hr]].
    destruct (uuid_eqb (tID x) id) eqn:Hxid.
    + subst r. reflexivity.
    + subst r. rewrite Hid, uuid_eqb_refl in Hxid. discriminate.
Qed.

(** What a successful [CreateTenant] has written to the tenant table. *)
Lemma CreateTenant_Ok_row f now tenantRowID memberRowID ctx req (w : World D) dto :
  snd (CreateTenant f now tenantRowID memberRowID ctx req w) = Ok dto ->
  exists row,
    tenants (fst (CreateTenant f now tenantRowID memberRowID ctx req w))
    = tenants w ++ [row]
    /\ dto = toDTO row (dtoDomainID dto)
    /\ tID row = tenantRowID
    /\ tCode row = TrimSpace (crCode req)
    /\ tName row = TrimSpace (crName req)
    /\ tDeletedAt row = None
    /\ existsb (fun t => String.eqb (tCode t) (tCode row)) (tenants w) = false
    /\ requirePlatformDomain ctx = Ok tt.
Proof.
  unfold CreateTenant.
  destruct (requirePlatformDomain ctx) as [[]|e0]; [|discriminate].
  destruct (_ || _); [discriminate|].
  destruct (txBeginFails f); [discriminate|].
  destruct (resolveParentTenantID _ _ _ _) as [[parentTenantID hasParent]|e0];
    [|discriminate].
  unfold Tenant_Save.
  destruct (existsb _ (tenants w)) eqn:Hcode; [discriminate|].
  destruct (tenantSaveFails f); [discriminate|].
  destruct (EnsureDomain _ _ _ _) as [d1 [dom|e0]]; [|discriminate].
  destruct (SeedBaselineRoles _ _ _) as [roles1 [[]|e0]]; [|discriminate].
  destruct (ctxUserID ctx) as [ownerID|]; simpl.
  - destruct (AddMembership _ _ _ _ _) as [d2 [[]|e0]]; [|discriminate].
    destruct (ensureMembershipTx _ _ _ _ _ _ _ _) as [txMembers|e0];
      [|discriminate].
    destruct (commitFails f); simpl; [discriminate|].
    intros H. inversion H; subst dto; clear H.
    eexists. split; [reflexivity|]. simpl. repeat split. exact Hcode.
  - destruct (commitFails f); simpl; [discriminate|].
    intros H. inversion H; subst dto; clear H.
    eexists. split; [reflexivity|]. simpl. repeat split. exact Hcode.
Qed.

(** X12.  Lookup after create.  After a successful [CreateTenant] the
    tenant table holds one more row, with the supplied id and the trimmed
    code and name, and the response shows that row.  [GetTenantByCode] with
    the trimmed code finds it; so does [GetTenant] with the id, when the id
    was not in use.  Both show the row with the domain id the domain
    service resolves for the code. *)
Theorem CreateTenant_then_get :
  forall (f : Faults) (now : Time) (tenantRowID memberRowID : UUID)
         (ctx : Context) (req : CreateRequest) (w : World D) (dto : TenantDTO),
    snd (CreateTenant f now tenantRowID memberRowID ctx req w) = Ok dto ->
    let w' := fst (CreateTenant f now tenantRowID memberRowID ctx req w) in
    exists row,
      tenants w' = tenants w ++ [row]
      /\ dto = toDTO row (dtoDomainID dto)
      /\ tID row = tenantRowID
      /\ tCode row = TrimSpace (crCode req)
      /\ tName row = TrimSpace (crName req)
      /\ GetTenantByCode w' (TrimSpace (crCode req))
         = Ok (toDTO row (resolveDomainIDSafe (domains w') (tCode row)))
      /\ ((forall t, In t (tenants w) -> tID t <> tenantRowID) ->
          GetTenant w' tenantRowID
          = Ok (toDTO row (resolveDomainIDSafe (domains w') (tCode row)))).
Proof.
  intros f now tenantRowID memberRowID ctx req w dto Hok w'.
  destruct (CreateTenant_Ok_row _ _ _ _ _ _ _ Hok)
    as [row [Hrows [Hdto [Hid [Hcode [Hname [Hdel [Hfree _]]]]]]]].
  fold w' in Hrows. exists row.
  split; [exact Hrows|]. split; [exact Hdto|]. split; [exact Hid|].
  split; [exact Hcode|]. split; [exact Hname|]. split.
  - unfold GetTenantByCode. rewrite Hrows, filter_app. rewrite <- Hcode.
    rewrite (filter_none _ (tenants w)).
    + simpl. rewrite String.eqb_refl, Hdel. reflexivity.
    + intros t Ht. rewrite existsb_false_iff in Hfree.
      rewrite (Hfree t Ht). reflexivity.
  - intros Hfresh. unfold GetTenant, getTenant, Tenant_Get.
    rewrite Hrows, filter_app.
    rewrite (filter_none _ (tenants w)).
    + simpl. rewrite Hid, uuid_eqb_refl. reflexivity.
    + intros t Ht. apply Nat.eqb_neq. apply Hfresh. exact Ht.
Qed.

End WithDomainService.

Import scenario.

(** "acme" is deleted: the lookup by code fails, the lookup by id still
    shows the tenant and the memberships do not change.  When the update
    fails in the store nothing changes. *)
Lemma DeleteTenant_soft_witness :
  let out := WithFaults.DeleteTenant WithFaults.noStoreFaults 9
               (platformCtx (Some 1)) 100 bareWorld in
  let failed :=
    WithFaults.DeleteTenant
      {| WithFaults.tenantGetFails := false;
         WithFaults.softDeleteFails := true;
         WithFaults.membershipQueryFails := false;
         WithFaults.altQueryFails := false;
         WithFaults.promoteFails := false |}
      9 (platformCtx (Some 1)) 100 bareWorld in
  isOk (GetTenantByCode bareWorld "acme") = true
  /\ GetTenantByCode (fst out) "acme" = Err ErrTenantNotFound
  /\ (exists after, GetTenant (fst out) 100 = Ok after
                    /\ dtoCode after = "acme")
  /\ IsMember (fst out) 100 2 = Ok true
  /\ fst failed = bareWorld.
Proof.
  destruct (@DeleteTenant_soft _ mockWriter WithFaults.noStoreFaults 9
              (platformCtx (Some 1)) 100 bareWorld acmeRow eq_refl eq_refl)
    as [_ Hdone].
  destruct (Hdone eq_refl eq_refl)
    as [_ [_ [_ [_ [_ [_ [Hget [Hmember [Hcode _]]]]]]]]].
  destruct (@DeleteTenant_soft _ mockWriter
              {| WithFaults.tenantGetFails := false;
                 WithFaults.softDeleteFails := true;
                 WithFaults.membershipQueryFails := false;
                 WithFaults.altQueryFails := false;
                 WithFaults.promoteFails := false |} 9
              (platformCtx (Some 1)) 100 bareWorld acmeRow eq_refl eq_refl)
    as [Hfailed _].
  split; [reflexivity|]. split; [|split; [|split]].
  - apply Hcode. simpl. repeat constructor. simpl. tauto.
  - destruct Hget as [before [after [Hb [Ha [_ [Hc _]]]]]].
    exists after. split; [exact Ha|]. rewrite Hc.
    vm_compute in Hb. injection Hb as Hb. subst before. reflexivity.
  - rewrite Hmember. reflexivity.
  - apply Hfailed. right. reflexivity.
Defined.

(** "acme" is created on an empty installation: both lookups show what
    the call returned. *)
Lemma CreateTenant_then_get_witness :
  let out := CreateTenant noFaults 0 100 200 (platformCtx (Some 1))
               (mkCreate " acme " "Acme") world0 in
  exists dto,
    snd out = Ok dto /\ dtoCode dto = "acme"
    /\ GetTenantByCode (fst out) "acme" = Ok dto
    /\ GetTenant (fst out) 100 = Ok dto.
Proof.
  intros out.
  destruct (@CreateTenant_then_get decimalText _ mockWriter noFaults 0 100 200
              (platformCtx (Some 1)) (mkCreate " acme " "Acme") world0 _ eq_refl)
    as [row [Hrows [_ [_ [_ [_ [Hbycode Hbyid]]]]]]].
  vm_compute in Hrows. injection Hrows as Hrow. subst row.
  eexists. split; [reflexivity|]. split; [reflexivity|]. subst out. split.
  - etransitivity; [exact Hbycode | reflexivity].
  - rewrite Hbyid; [reflexivity | intros t []].
Defined.

End tenant_lifecycle_facts.

(** * More facts about memberships *)

Module member_facts.
Import tenant query_facts tenant_facts membership_facts tenant_lifecycle_facts.

Lemma pairUnique_eq (rows : list TenantUser) (tenantID userID : UUID)
    (a b : TenantUser) :
  pairUnique rows ->
  In a rows -> membershipOf tenantID userID a = true ->
  In b rows -> membershipOf tenantID userID b = true ->
  a = b.
Proof.
  intros Huniq Ha Hpa Hb Hpb. specialize (Huniq tenantID userID).
  assert (Hfa : In a (filter (membershipOf tenantID userID) rows))
    by (apply filter_In; auto).
  assert (Hfb : In b (filter (membershipOf tenantID userID) rows))
    by (apply filter_In; auto).
  destruct (filter (membershipOf tenantID userID) rows) as [|x [|y l]];
    simpl in *; [destruct Hfa | | lia].
  destruct Hfa as [Hfa|[]], Hfb as [Hfb|[]]. congruence.
Qed.

Section WithDomainService.
Context {codec : UUIDText} {D : Type} {domainSvc : DomainWriter D}.

(** X13.  Adding a user whose membership row of the tenant is deleted or
    inactive.  When the steps before the write go through (platform
    domain, tenant and user found, no other member with the same identity,
    the domain service accepts), [AddMember] returns nil and inserts
    nothing: it reactivates the old row.  The row keeps its id, its role,
    its default flag and its creation instant, whatever role the call
    asks for; with distinct row ids no other row changes. *)
Theorem AddMember_reactivates :
  forall (now : Time) (newID : UUID) (ctx : Context) (tenantID userID : UUID)
         (role : string) (w : World D) (t : Tenant) (u : UserInfo)
         (r : TenantUser),
    requirePlatformDomain ctx = Ok tt ->
    getTenant (tenants w) tenantID = Ok t ->
    GetUser (users w) userID = Ok u ->
    (forall m mu, ~ conflicting w tenantID userID u m mu) ->
    domainAccepts w t userID role ->
    First (filter (membershipOf tenantID userID) (tenantUsers w)) = Ok r ->
    isLive r = false ->
    let out := AddMember now newID ctx tenantID userID role w in
    snd out = Ok tt
    /\ tenantUsers (fst out)
       = updateWhere (fun x => uuid_eqb (tuID x) (tuID r))
                     (fun x => SetStatus StatusActive (SetDeletedAt None x))
                     (tenantUsers w)
    /\ List.length (tenantUsers (fst out)) = List.length (tenantUsers w)
    /\ (exists r',
          In r' (tenantUsers (fst out))
          /\ tuID r' = tuID r /\ tuTenantID r' = tenantID
          /\ tuUserID r' = userID /\ isLive r' = true
          /\ tuRole r' = tuRole r /\ tuIsDefault r' = tuIsDefault r
          /\ tuCreatedAt r' = tuCreatedAt r)
    /\ (NoDup (map tuID (tenantUsers w)) ->
        forall x, In x (tenantUsers w) -> x <> r -> In x (tenantUsers (fst out))).
Proof.
  intros now newID ctx tenantID userID role w t u r Hctx Ht Hu Hfree Hdom
         Hfirst Hlive out.
  assert (Hok : snd out = Ok tt).
  { subst out. eapply AddMember_succeeds; eassumption. }
  destruct (getTenant_Ok _ _ Ht) as [_ Htid].
  assert (Hrows : tenantUsers (fst out)
                  = updateWhere (fun x => uuid_eqb (tuID x) (tuID r))
                      (fun x => SetStatus StatusActive (SetDeletedAt None x))
                      (tenantUsers w)).
  { destruct out as [w1 res] eqn:Hout. simpl in Hok. subst res. subst out.
    destruct (AddMember_Ok_inv _ _ _ _ _ _ _ Hout)
      as [t' [u' [rows1 [_ [Ht' [_ [_ [Hens [_ [_ Hw1]]]]]]]]]].
    rewrite Ht in Ht'. inversion Ht'; subst t'; clear Ht'.
    simpl. rewrite Hw1. revert Hens. unfold ensureMembership.
    rewrite Htid, Hfirst. unfold isLive in Hlive. rewrite Hlive.
    intros H. inversion H. reflexivity. }
  assert (Hrin : In r (tenantUsers w)
                 /\ membershipOf tenantID userID r = true).
  { apply filter_In.
    destruct (filter (membershipOf tenantID userID) (tenantUsers w))
      as [|x l]; simpl in Hfirst; inversion Hfirst. left. reflexivity. }
  destruct Hrin as [Hrin Hpair].
  unfold membershipOf in Hpair. apply andb_true_iff in Hpair.
  destruct Hpair as [Hrt Hru].
  apply uuid_eqb_eq in Hrt. apply uuid_eqb_eq in Hru.
  split; [exact Hok|]. split; [exact Hrows|]. split; [|split].
  - rewrite Hrows. apply updateWhere_length.
  - exists (SetStatus StatusActive (SetDeletedAt None r)).
    split.
    + rewrite Hrows.
      pose proof (updateWhere_In (fun x => uuid_eqb (tuID x) (tuID r))
                    (fun x => SetStatus StatusActive (SetDeletedAt None x))
                    (tenantUsers w) r Hrin) as H.
      cbv beta in H. rewrite uuid_eqb_refl in H. exact H.
    + simpl. repeat split; assumption.
  - intros Hnd x Hx Hne. rewrite Hrows.
    pose proof (updateWhere_In (fun y => uuid_eqb (tuID y) (tuID r))
                  (fun y => SetStatus StatusActive (SetDeletedAt None y))
                  (tenantUsers w) x Hx) as H.
    cbv beta in H.
    destruct (uuid_eqb (tuID x) (tuID r)) eqn:Hid; [|exact H].
    apply uuid_eqb_eq in Hid. exfalso. apply Hne.
    eapply NoDup_map_eq; eauto.
Qed.

(** X14.  [RemoveMember] in the platform domain, on a tenant that exists
    and a table with at most one row per (tenant, user) pair.  Without a
    row of the pair that is not deleted the call fails with
    [ErrMemberNotFound] and changes nothing.  With one, it returns nil,
    whatever the domain service answers; tenants, users and roles stay;
    the row is deleted at [now]; a second [RemoveMember] fails with
    [ErrMemberNotFound]; [IsMember] answers no when the tenant resolves to
    no domain; and when the row was not the user's default and row ids are
    distinct, no other row has changed. *)
Theorem RemoveMember_effect :
  forall (now : Time) (ctx : Context) (tenantID userID : UUID) (w : World D)
         (t : Tenant),
    requirePlatformDomain ctx = Ok tt ->
    getTenant (tenants w) tenantID = Ok t ->
    pairUnique (tenantUsers w) ->
    let out := RemoveMember now ctx tenantID userID w in
    ((forall r, In r (tenantUsers w) -> membershipOf tenantID userID r = true ->
                tuDeletedAt r <> None) ->
     out = (w, Err ErrMemberNotFound))
    /\ (forall r,
          In r (tenantUsers w) -> membershipOf tenantID userID r = true ->
          tuDeletedAt r = None ->
          snd out = Ok tt
          /\ tenants (fst out) = tenants w /\ users (fst out) = users w
          /\ roles (fst out) = roles w
          /\ List.length (tenantUsers (fst out)) = List.length (tenantUsers w)
          /\ (forall x, In x (tenantUsers (fst out)) ->
                membershipOf tenantID userID x = true ->
                tuDeletedAt x = Some now)
          /\ (forall now',
                snd (RemoveMember now' ctx tenantID userID (fst out))
                = Err ErrMemberNotFound)
          /\ (resolveDomainIDSafe (domains w) (tCode t) = uuid_Nil ->
              IsMember (fst out) tenantID userID = Ok false)
          /\ (tuIsDefault r = false ->
              NoDup (map tuID (tenantUsers w)) ->
              forall x, In x (tenantUsers w) -> x <> r ->
                        In x (tenantUsers (fst out)))).
Proof.
  intros now ctx tenantID userID w t Hctx Ht Huniq out.
  destruct (getTenant_Ok _ _ Ht) as [_ Htid].
  split.
  - intros Hnone. subst out. unfold RemoveMember. rewrite Hctx, Ht, Htid.
    rewrite filter_none; [reflexivity|].
    intros r Hr. destruct (membershipOf tenantID userID r) eqn:Hp;
      [|reflexivity].
    specialize (Hnone r Hr Hp). destruct (tuDeletedAt r);
      [reflexivity | contradiction].
  - intros r Hr Hp Hlive.
    assert (Hfirst : filter (fun x => membershipOf tenantID userID x
                                      && IsZero (tuDeletedAt x))
                            (tenantUsers w) = [r]).
    { assert (Hin : In r (filter (fun x => membershipOf tenantID userID x
                                           && IsZero (tuDeletedAt x))
                                 (tenantUsers w))).
      { apply filter_In. split; [exact Hr|]. rewrite Hp, Hlive. reflexivity. }
      destruct (filter _ (tenantUsers w)) as [|a l] eqn:Hf;
        [destruct Hin|].
      assert (Ha : In a (filter (fun x => membershipOf tenantID userID x
                                          && IsZero (tuDeletedAt x))
                                (tenantUsers w)))
        by (rewrite Hf; left; reflexivity).
      apply filter_In in Ha.
      destruct Ha as [Ha Hpa]. apply andb_true_iff in Hpa.
      assert (a = r) by (eapply pairUnique_eq; eauto; apply Hpa). subst a.
      destruct l as [|b l]; [reflexivity|].
      assert (Hb : In b (filter (fun x => membershipOf tenantID userID x
                                          && IsZero (tuDeletedAt x))
                                (tenantUsers w)))
        by (rewrite Hf; right; left; reflexivity).
      apply filter_In in Hb.
      destruct Hb as [Hb Hpb]. apply andb_true_iff in Hpb.
      assert (b = r) by (eapply pairUnique_eq; eauto; apply Hpb). subst b.
      pose proof (Huniq tenantID userID) as Hlen.
      assert (Hsub : List.length (filter (fun x => membershipOf tenantID userID x
                                                   && IsZero (tuDeletedAt x))
                                         (tenantUsers w))
                     <= List.length (filter (membershipOf tenantID userID)
                                            (tenantUsers w))).
      { clear. induction (tenantUsers w) as [|x rows IH]; simpl; [lia|].
        destruct (membershipOf tenantID userID x); simpl;
          [destruct (IsZero (tuDeletedAt x)); simpl; lia | lia]. }
      rewrite Hf in Hsub. simpl in Hsub. lia. }
    (* the table after the call *)
    set (removed := updateWhere (fun x => uuid_eqb (tuID x) (tuID r))
                      (SetDeletedAt (Some now)) (tenantUsers w)).
    assert (Hout : snd out = Ok tt
                   /\ tenants (fst out) = tenants w
                   /\ users (fst out) = users w /\ roles (fst out) = roles w
                   /\ (resolveDomainIDSafe (domains w) (tCode t) = uuid_Nil ->
                       domains (fst out) = domains w)
                   /\ (tenantUsers (fst out) = removed
                       \/ (tuIsDefault r = true
                           /\ exists alt,
                                tenantUsers (fst out)
                                = updateWhere
                                    (fun x => uuid_eqb (tuID x) (tuID alt))
                                    (SetIsDefault true) removed))).
    { subst out. unfold RemoveMember. rewrite Hctx, Ht, Htid, Hfirst. simpl.
      fold removed.
      split; [reflexivity|]. split; [reflexivity|]. split; [reflexivity|].
      split; [reflexivity|]. split.
      - intros Hnil. rewrite Hnil. reflexivity.
      - destruct (tuIsDefault r); [|left; reflexivity].
        destruct (FirstOldest _) as [alt|e]; [|left; reflexivity].
        right. split; [reflexivity|]. exists alt. reflexivity. }
    destruct Hout as [Hok [Htenants [Husers [Hroles [Hdoms Hrows]]]]].
    assert (Hdeleted : forall x, In x (tenantUsers (fst out)) ->
                         membershipOf tenantID userID x = true ->
                         tuDeletedAt x = Some now).
    { assert (Hrem : forall x, In x removed ->
                       membershipOf tenantID userID x = true ->
                       tuDeletedAt x = Some now).
      { intros x Hx Hpx. apply In_updateWhere in Hx.
        destruct Hx as [x0 [Hx0 Hx]].
        assert (Hpx0 : membershipOf tenantID userID x0 = true).
        { destruct (uuid_eqb (tuID x0) (tuID r)); subst x; exact Hpx. }
        assert (x0 = r) by (eapply pairUnique_eq; eauto). subst x0.
        rewrite uuid_eqb_refl in Hx. subst x. reflexivity. }
      destruct Hrows as [Hrows|[_ [alt Hrows]]]; rewrite Hrows.
      - exact Hrem.
      - intros x Hx Hpx. apply In_updateWhere in Hx.
        destruct Hx as [x0 [Hx0 Hx]].
        destruct (uuid_eqb (tuID x0) (tuID alt)); subst x.
        + simpl. apply Hrem; [exact Hx0 | exact Hpx].
        + apply Hrem; assumption. }
    assert (Hnolive : filter (fun x => membershipOf tenantID userID x
                                       && IsZero (tuDeletedAt x))
                             (tenantUsers (fst out)) = []).
    { apply filter_none. intros x Hx.
      destruct (membershipOf tenantID userID x) eqn:Hpx; [|reflexivity].
      rewrite (Hdeleted x Hx Hpx). reflexivity. }
    split; [exact Hok|]. split; [exact Htenants|]. split; [exact Husers|].
    split; [exact Hroles|]. split; [|split; [exact Hdeleted|split; [|split]]].
    + destruct Hrows as [Hrows|[_ [alt Hrows]]]; rewrite Hrows;
        unfold removed; rewrite !updateWhere_length; reflexivity.
    + intros now'. unfold RemoveMember. rewrite Hctx, Htenants, Ht, Htid.
      rewrite Hnolive. reflexivity.
    + intros Hnil. unfold IsMember. rewrite Htenants, Ht, (Hdoms Hnil), Hnil.
      simpl. f_equal. apply existsb_false_iff. intros x Hx. rewrite Htid.
      destruct (membershipOf tenantID userID x) eqn:Hpx; [|reflexivity].
      rewrite (Hdeleted x Hx Hpx). reflexivity.
    + intros Hnotdef Hnd x Hx Hne.
      destruct Hrows as [Hrows|[Hdef _]]; [|congruence].
      rewrite Hrows. unfold removed.
      pose proof (updateWhere_In (fun y => uuid_eqb (tuID y) (tuID r))
                    (SetDeletedAt (Some now)) (tenantUsers w) x Hx) as H.
      cbv beta in H.
      destruct (uuid_eqb (tuID x) (tuID r)) eqn:Hid; [|exact H].
      apply uuid_eqb_eq in Hid. exfalso. apply Hne.
      eapply NoDup_map_eq; eauto.
Qed.

End WithDomainService.

Import scenario.

(** User 2, removed from "acme", is added again as "admin": the old row
    is back, with the role it had. *)
Lemma AddMember_reactivates_witness :
  let w := fst (RemoveMember 9 (platformCtx (Some 1)) 100 2 bareWorld) in
  let out := AddMember 10 400 (platformCtx (Some 1)) 100 2 "admin" w in
  snd out = Ok tt
  /\ List.length (tenantUsers (fst out)) = 2
  /\ exists r', In r' (tenantUsers (fst out)) /\ tuID r' = 301
                /\ isLive r' = true /\ tuRole r' = "member".
Proof.
  intros w out.
  assert (Hfree : forall m mu,
            ~ conflicting w 100 2
                {| uiID := 2; uiUsername := "bob"; uiEmail := "bob@example.com";
                   uiNickname := "bob"; uiStatus := "active" |} m mu).
  { intros m mu [Hin [Hact [Hne [Hfind Hsame]]]].
    simpl in Hin. destruct Hin as [Hin|[Hin|[]]]; subst m.
    - simpl in Hfind. inversion Hfind; subst mu. simpl in Hsame.
      destruct Hsame; discriminate.
    - simpl in Hact. discriminate. }
  destruct (@AddMember_reactivates _ mockWriter 10 400 (platformCtx (Some 1))
              100 2 "admin" w acmeRow _
              (SetDeletedAt (Some 9) (mkMember 301 100 2 true 2))
              eq_refl eq_refl eq_refl Hfree (or_introl eq_refl)
              eq_refl eq_refl)
    as [Hok [_ [Hlen [[r' [Hin [Hid [_ [_ [Hlive [Hrole _]]]]]]] _]]]].
  fold out in Hok, Hlen, Hin.
  split; [exact Hok|]. split; [rewrite Hlen; reflexivity|].
  exists r'. auto.
Defined.

(** User 2 leaves "acme": a second removal finds nothing, and the user is
    no member any more. *)
Lemma RemoveMember_effect_witness :
  let out := RemoveMember 9 (platformCtx (Some 1)) 100 2 bareWorld in
  snd out = Ok tt
  /\ snd (RemoveMember 10 (platformCtx (Some 1)) 100 2 (fst out))
     = Err ErrMemberNotFound
  /\ IsMember (fst out) 100 2 = Ok false
  /\ In (mkMember 300 100 1 true 1) (tenantUsers (fst out)).
Proof.
  destruct (proj2 (@RemoveMember_effect _ mockWriter 9 (platformCtx (Some 1))
                     100 2 bareWorld acmeRow eq_refl eq_refl
                     bareWorld_pairUnique)
              (mkMember 301 100 2 true 2))
    as [Hok [_ [_ [_ [_ [_ [Hagain [Hmember _]]]]]]]].
  - simpl. auto.
  - reflexivity.
  - reflexivity.
  - split; [exact Hok|]. split; [apply Hagain|].
    split; [apply Hmember; reflexivity|]. simpl. auto.
Defined.

End member_facts.

(** * Facts about tenant updates, parents and baseline roles *)

Module tenant_update_facts.
Import tenant query_facts tenant_facts membership_facts tenant_lifecycle_facts.

Lemma map_updateWhere {A B} (h : A -> B) (p : A -> bool) (g : A -> A)
    (l : list A) :
  (forall r, h (g r) = h r) -> map h (updateWhere p g l) = map h l.
Proof.
  intros Hg. unfold updateWhere. rewrite map_map. apply map_ext.
  intros r. destruct (p r); [apply Hg | reflexivity].
Qed.

Section WithCodec.
Context {codec : UUIDText}.

(** What [resolveParentTenantID] answers. *)
Lemma resolveParentTenantID_sound (fault : bool) (rows : list Tenant)
    (parentRef : string) (selfID : UUID) :
  match resolveParentTenantID fault rows parentRef selfID with
  | Ok (p, true) =>
      TrimSpace parentRef <> ""
      /\ (selfID <> uuid_Nil -> p <> selfID)
      /\ exists parent,
           In parent rows /\ tID parent = p /\ tDeletedAt parent = None
           /\ match uuid_Parse (TrimSpace parentRef) with
              | Some parentID => p = parentID
              | None => tCode parent = TrimSpace parentRef
              end
  | Ok (p, false) => p = uuid_Nil /\ TrimSpace parentRef = ""
  | Err e =>
      TrimSpace parentRef <> ""
      /\ (e = ErrParentTenantInvalid
          \/ exists cause, e = Wrap "resolve parent tenant" cause)
  end.
Proof.
  unfold resolveParentTenantID.
  destruct (String.eqb (TrimSpace parentRef) "") eqn:Hblank.
  { apply String.eqb_eq in Hblank. auto. }
  apply String.eqb_neq in Hblank.
  set (query := if fault then Err EntFault else _).
  assert (Hq : forall parentEntity, query = Ok parentEntity ->
            In parentEntity rows /\ tDeletedAt parentEntity = None
            /\ match uuid_Parse (TrimSpace parentRef) with
               | Some parentID => tID parentEntity = parentID
               | None => tCode parentEntity = TrimSpace parentRef
               end).
  { intros parentEntity. unfold query. destruct fault; [discriminate|].
    destruct (uuid_Parse (TrimSpace parentRef)) as [parentID|];
      intros Honly; apply Only_Ok in Honly.
    - assert (Hin : In parentEntity
                      (filter (fun t => uuid_eqb (tID t) parentID
                                        && IsZero (tDeletedAt t)) rows))
        by (rewrite Honly; left; reflexivity).
      apply filter_In in Hin. destruct Hin as [Hin Hp].
      apply andb_true_iff in Hp. destruct Hp as [Hid Hdel].
      apply uuid_eqb_eq in Hid.
      destruct (tDeletedAt parentEntity); [discriminate|]. auto.
    - assert (Hin : In parentEntity
                      (filter (fun t => String.eqb (tCode t) (TrimSpace parentRef)
                                        && IsZero (tDeletedAt t)) rows))
        by (rewrite Honly; left; reflexivity).
      apply filter_In in Hin. destruct Hin as [Hin Hp].
      apply andb_true_iff in Hp. destruct Hp as [Hcode Hdel].
      apply String.eqb_eq in Hcode.
      destruct (tDeletedAt parentEntity); [discriminate|]. auto. }
  destruct query as [parentEntity|e].
  - destruct (Hq parentEntity eq_refl) as [Hin [Hdel Hkey]].
    destruct (negb (uuid_eqb selfID uuid_Nil)
              && uuid_eqb (tID parentEntity) selfID) eqn:Hself.
    + split; [exact Hblank|]. left. reflexivity.
    + split; [exact Hblank|]. split.
      * intros Hnz Heq. apply andb_false_iff in Hself.
        destruct Hself as [Hself|Hself].
        -- apply negb_false_iff in Hself. apply uuid_eqb_eq in Hself.
           contradiction.
        -- rewrite Heq, uuid_eqb_refl in Hself. discriminate.
      * exists parentEntity. split; [exact Hin|]. split; [reflexivity|].
        split; [exact Hdel|].
        destruct (uuid_Parse (TrimSpace parentRef)); [exact Hkey | exact Hkey].
  - destruct (IsNotFound e); (split; [exact Hblank|]);
      [left; reflexivity | right; eexists; reflexivity].
Qed.

End WithCodec.

Section WithDomainService.
Context {codec : UUIDText} {D : Type} {domainSvc : DomainWriter D}.

(** X15.  What [UpdateTenant] can and cannot change.  It never touches
    memberships, users, roles or domains, and never the id, the code, the
    owner or the deletion mark of any tenant; a tenant with another id is
    left as it is; a failed call changes nothing.  A successful call
    answers for the tenant with the given id and its old code; the name it
    shows is the old name when the request carries none, and otherwise the
    trimmed name of the request, blank or not. *)
Theorem UpdateTenant_frame :
  forall (ctx : Context) (id : UUID) (req : UpdateRequest) (w : World D),
    let out := UpdateTenant ctx id req w in
    tenantUsers (fst out) = tenantUsers w /\ users (fst out) = users w
    /\ roles (fst out) = roles w /\ domains (fst out) = domains w
    /\ map tID (tenants (fst out)) = map tID (tenants w)
    /\ map tCode (tenants (fst out)) = map tCode (tenants w)
    /\ map tOwnerID (tenants (fst out)) = map tOwnerID (tenants w)
    /\ map tDeletedAt (tenants (fst out)) = map tDeletedAt (tenants w)
    /\ (forall x, In x (tenants (fst out)) -> tID x <> id -> In x (tenants w))
    /\ (forall e, snd out = Err e -> fst out = w)
    /\ (forall dto, snd out = Ok dto ->
          exists t,
            getTenant (tenants w) id = Ok t
            /\ dtoID dto = id /\ dtoCode dto = tCode t
            /\ dtoName dto = (if String.eqb (urName req) "" then tName t
                              else TrimSpace (urName req))
            /\ dtoDescription dto
               = (if String.eqb (urDescription req) "" then tDescription t
                  else urDescription req)
            /\ dtoStatus dto = (if String.eqb (urStatus req) "" then tStatus t
                                else urStatus req)).
Proof.
  intros ctx id req w out. subst out. unfold UpdateTenant.
  destruct (requirePlatformDomain ctx);
    [|repeat split; auto; intros; discriminate].
  destruct (getTenant (tenants w) id) as [t|e0] eqn:Ht;
    [|repeat split; auto; intros; discriminate].
  destruct (resolveParentTenantID _ _ _ _) as [parent|e0];
    [|repeat split; auto; intros; discriminate].
  destruct (getTenant_Ok _ _ Ht) as [_ Htid]. simpl.
  split; [reflexivity|]. split; [reflexivity|]. split; [reflexivity|].
  split; [reflexivity|].
  split; [apply map_updateWhere; reflexivity|].
  split; [apply map_updateWhere; reflexivity|].
  split; [apply map_updateWhere; reflexivity|].
  split; [apply map_updateWhere; reflexivity|].
  split; [|split; [intros; discriminate|]].
  - intros x Hx Hne. apply In_updateWhere in Hx. destruct Hx as [r [Hr Hx]].
    destruct (uuid_eqb (tID r) (tID t)) eqn:Hid.
    + subst x. simpl in Hne. apply uuid_eqb_eq in Hid. congruence.
    + subst x. exact Hr.
  - intros dto H. inversion H; subst dto; clear H. exists t.
    split; [reflexivity|]. simpl. split; [exact Htid|]. split; [reflexivity|].
    destruct (String.eqb (urName req) "");
      destruct (String.eqb (urDescription req) "");
      destruct (String.eqb (urStatus req) ""); auto.
Qed.

(** X16.  Parents are live tenants.  The row a successful [CreateTenant]
    appends has no parent when the request's reference is blank, and
    otherwise a parent that is a tenant of the table that is not deleted.
    A successful [UpdateTenant] with a reference that is not blank leaves
    the tenant with a parent that is not deleted and is not the tenant
    itself; with a blank reference it keeps the parent.  Both fail with
    [ErrParentTenantInvalid] or a wrapped store error, and write nothing,
    when the reference resolves to nothing such. *)
Theorem parent_is_live_tenant :
  forall (w : World D),
    (forall f now tenantRowID memberRowID ctx req dto,
       snd (CreateTenant f now tenantRowID memberRowID ctx req w) = Ok dto ->
       exists row,
         tenants (fst (CreateTenant f now tenantRowID memberRowID ctx req w))
         = tenants w ++ [row]
         /\ (TrimSpace (crParentTenantID req) = "" -> tParentTenantID row = None)
         /\ (TrimSpace (crParentTenantID req) <> "" ->
             exists parent,
               In parent (tenants w) /\ tDeletedAt parent = None
               /\ tParentTenantID row = Some (tID parent)))
    /\ (forall ctx id req dto t,
          snd (UpdateTenant ctx id req w) = Ok dto ->
          getTenant (tenants w) id = Ok t ->
          exists t',
            getTenant (tenants (fst (UpdateTenant ctx id req w))) id = Ok t'
            /\ (TrimSpace (urParentTenantID req) = "" ->
                tParentTenantID t' = tParentTenantID t)
            /\ (TrimSpace (urParentTenantID req) <> "" ->
                exists parent,
                  In parent (tenants w) /\ tDeletedAt parent = None
                  /\ (id <> uuid_Nil -> tID parent <> id)
                  /\ tParentTenantID t' = Some (tID parent))).
Proof.
  intros w. split.
  - intros f now tenantRowID memberRowID ctx req dto. unfold CreateTenant.
    destruct (requirePlatformDomain ctx) as [[]|e0]; [|discriminate].
    destruct (_ || _); [discriminate|].
    destruct (txBeginFails f); [discriminate|].
    pose proof (resolveParentTenantID_sound (parentQueryFails f) (tenants w)
                  (crParentTenantID req) uuid_Nil) as Hsound.
    destruct (resolveParentTenantID _ _ _ _) as [[p hasParent]|e0];
      [|discriminate].
    unfold Tenant_Save.
    destruct (existsb _ (tenants w)); [discriminate|].
    destruct (tenantSaveFails f); [discriminate|].
    destruct (EnsureDomain _ _ _ _) as [d1 [dom|e0]]; [|discriminate].
    destruct (SeedBaselineRoles _ _ _) as [roles1 [[]|e0]]; [|discriminate].
    assert (Hrow : forall row,
              tParentTenantID row = (if hasParent then Some p else None) ->
              (TrimSpace (crParentTenantID req) = "" -> tParentTenantID row = None)
              /\ (TrimSpace (crParentTenantID req) <> "" ->
                  exists parent,
                    In parent (tenants w) /\ tDeletedAt parent = None
                    /\ tParentTenantID row = Some (tID parent))).
    { intros row Hp. rewrite Hp. destruct hasParent.
      - destruct Hsound as [Hne [_ [parent [Hin [Hid [Hdel _]]]]]].
        split; [intros; contradiction|]. intros _. exists parent.
        subst p. auto.
      - destruct Hsound as [_ Hblank]. split; [reflexivity|].
        intros Hne. contradiction. }
    destruct (ctxUserID ctx) as [ownerID|]; simpl.
    + destruct (AddMembership _ _ _ _ _) as [d2 [[]|e0]]; [|discriminate].
      destruct (ensureMembershipTx _ _ _ _ _ _ _ _) as [txMembers|e0];
        [|discriminate].
      destruct (commitFails f); simpl; [discriminate|].
      intros _. eexists. split; [reflexivity|]. apply Hrow. reflexivity.
    + destruct (commitFails f); simpl; [discriminate|].
      intros _. eexists. split; [reflexivity|]. apply Hrow. reflexivity.
  - intros ctx id req dto t. unfold UpdateTenant.
    destruct (requirePlatformDomain ctx) as [[]|e0]; [|discriminate].
    intros Hok Ht. revert Hok. rewrite Ht.
    pose proof (resolveParentTenantID_sound false (tenants w)
                  (urParentTenantID req) id) as Hsound.
    destruct (resolveParentTenantID _ _ _ _) as [[p hasParent]|e0];
      [|discriminate].
    simpl. intros _.
    destruct (getTenant_Ok _ _ Ht) as [_ Htid].
    exists (applyUpdate req (p, hasParent) t). split.
    + rewrite Htid. apply getTenant_updateWhere; [reflexivity | exact Ht].
    + simpl. destruct hasParent.
      * destruct Hsound as [Hne [Hself [parent [Hin [Hid [Hdel _]]]]]].
        split; [intros; contradiction|]. intros _. exists parent.
        subst p. auto.
      * destruct Hsound as [_ Hblank]. split; [reflexivity|].
        intros Hne. contradiction.
Qed.

End WithDomainService.

(** X17.  [SeedBaselineRoles] on a store that answers.  It returns nil and
    only appends: every role added belongs to the domain, is a system role
    without permissions, and is "Owner"/"owner" or "Member"/"member".
    Afterwards the domain has a role with the code "owner" and one with
    the code "member"; and seeding the same domain again adds nothing. *)
Theorem SeedBaselineRoles_idempotent :
  forall (rs : list Role) (domainID : UUID),
    let out := SeedBaselineRoles None rs domainID in
    let has rows code :=
      existsb (fun r => uuid_eqb (rOwnerDomainID r) domainID
                        && String.eqb (rCode r) code) rows in
    snd out = Ok tt
    /\ (exists added,
          fst out = rs ++ added
          /\ List.length added <= 2
          /\ forall r, In r added ->
               rOwnerDomainID r = domainID /\ rIsSystem r = true
               /\ rPermissions r = []
               /\ ((rName r = "Owner" /\ rCode r = "owner" /\ has rs "owner" = false)
                   \/ (rName r = "Member" /\ rCode r = "member"
                       /\ has rs "member" = false)))
    /\ has (fst out) "owner" = true /\ has (fst out) "member" = true
    /\ SeedBaselineRoles None (fst out) domainID = (fst out, Ok tt).
Proof.
  intros rs domainID out has. subst out.
  unfold SeedBaselineRoles, baseline. simpl.
  assert (Hhas_app : forall rows r code,
            has (rows ++ [r]) code
            = has rows code
              || (uuid_eqb (rOwnerDomainID r) domainID
                  && String.eqb (rCode r) code)).
  { intros rows r code. unfold has. rewrite existsb_app. simpl.
    rewrite orb_false_r. reflexivity. }
  fold (has rs "owner").
  destruct (has rs "owner") eqn:Howner.
  - fold (has rs "member").
    destruct (has rs "member") eqn:Hmember; simpl.
    + split; [reflexivity|]. split.
      * exists []. rewrite app_nil_r. split; [reflexivity|].
        split; [simpl; lia|]. intros r [].
      * fold (has rs "owner"). fold (has rs "member").
        rewrite Howner, Hmember. auto.
    + split; [reflexivity|]. split.
      * eexists. split; [reflexivity|]. split; [simpl; lia|].
        intros r [Hr|[]]. subst r. simpl. auto 10.
      * match goal with
        | |- context [rs ++ [?r]] => set (row := r)
        end.
        fold (has (rs ++ [row]) "owner"). fold (has (rs ++ [row]) "member").
        rewrite !Hhas_app, Howner, Hmember. simpl.
        rewrite uuid_eqb_refl. simpl. auto.
  - match goal with
    | |- context [rs ++ [?r]] => set (owner := r)
    end.
    fold (has (rs ++ [owner]) "member").
    rewrite Hhas_app. simpl. rewrite andb_false_r, orb_false_r.
    destruct (has rs "member") eqn:Hmember; simpl.
    + split; [reflexivity|]. split.
      * eexists. split; [reflexivity|]. split; [simpl; lia|].
        intros r [Hr|[]]. subst r. simpl. auto 10.
      * fold (has (rs ++ [owner]) "owner"). fold (has (rs ++ [owner]) "member").
        rewrite !Hhas_app, Howner, Hmember. simpl.
        rewrite uuid_eqb_refl. simpl. auto.
    + match goal with
      | |- context [(rs ++ [owner]) ++ [?r]] => set (member := r)
      end.
      split; [reflexivity|]. split.
      * exists [owner; member]. split; [rewrite <- app_assoc; reflexivity|].
        split; [simpl; lia|].
        intros r [Hr|[Hr|[]]]; subst r; simpl; auto 10.
      * fold (has ((rs ++ [owner]) ++ [member]) "owner").
        fold (has ((rs ++ [owner]) ++ [member]) "member").
        rewrite !Hhas_app, Howner, Hmember. simpl.
        rewrite uuid_eqb_refl. simpl. auto.
Qed.

End tenant_update_facts.

(** * Facts about paging *)

Module paging_facts.
Import tenant query_facts order_facts.

Lemma wrapInt_small (z : Z) :
  (- 2 ^ 63 <= z < 2 ^ 63)%Z -> wrapInt z = z.
Proof. intros H. unfold wrapInt. rewrite Z.mod_small; lia. Qed.

Lemma pageOf_bound (page : Z) : (1 <= pageOf page)%Z.
Proof. unfold pageOf. destruct (Z.ltb_spec page 1); lia. Qed.

Lemma pageSizeOf_bound (pageSize : Z) : (1 <= pageSizeOf pageSize <= 100)%Z.
Proof.
  unfold pageSizeOf. destruct (Z.ltb_spec pageSize 1).
  - simpl. lia.
  - destruct (Z.gtb_spec pageSize 100); lia.
Qed.

(** Without overflow the offset of a page is what the formula says. *)
Lemma offset_exact (p s : Z) :
  (1 <= p)%Z -> (1 <= s)%Z -> ((p - 1) * s < 2 ^ 63)%Z ->
  int_mul (int_sub p 1) s = ((p - 1) * s)%Z.
Proof.
  intros Hp Hs Hbound. unfold int_mul, int_sub.
  rewrite (@wrapInt_small (p - 1)%Z) by nia.
  apply wrapInt_small. nia.
Qed.

(** The number of pages is the least number of pages of [s] rows that
    hold [total] rows. *)
Lemma totalPages_exact (total s : Z) :
  (0 <= total)%Z -> (1 <= s <= 100)%Z -> (total + 100 < 2 ^ 63)%Z ->
  int_div (int_sub (int_add total s) 1) s = ((total + s - 1) / s)%Z
  /\ (total <= ((total + s - 1) / s) * s < total + s)%Z.
Proof.
  intros Ht Hs Hbound.
  assert (Hceil : (total <= ((total + s - 1) / s) * s < total + s)%Z).
  { pose proof (Z.div_mod (total + s - 1) s ltac:(lia)) as Hdm.
    pose proof (Z.mod_pos_bound (total + s - 1) s ltac:(lia)) as Hb.
    nia. }
  split; [|exact Hceil].
  unfold int_div, int_sub, int_add.
  rewrite (@wrapInt_small (total + s)%Z) by lia.
  rewrite (@wrapInt_small (total + s - 1)%Z) by lia.
  rewrite Z.quot_div_nonneg by lia.
  apply wrapInt_small. nia.
Qed.

Lemma OffsetLimit_nonneg `{Dialect} {A} (offset limit : Z) (rows : list A) :
  (0 <= offset)%Z ->
  OffsetLimit offset limit rows
  = Ok (firstn (Z.to_nat limit) (skipn (Z.to_nat offset) rows)).
Proof.
  intros Hoff. unfold OffsetLimit.
  destruct (Z.ltb_spec offset 0); [lia | reflexivity].
Qed.

(** The first [n] pages of [s] rows are the first [n * s] rows. *)
Lemma pages_firstn {A} (s : nat) (rows : list A) (n : nat) :
  flat_map (fun k => firstn s (skipn (k * s) rows)) (seq 0 n)
  = firstn (n * s) rows.
Proof.
  induction n as [|n IH]; [reflexivity|].
  rewrite seq_S, flat_map_app, IH. simpl. rewrite app_nil_r.
  replace (s + n * s) with (n * s + s) by lia.
  rewrite <- (firstn_skipn (n * s) (firstn (n * s + s) rows)).
  f_equal.
  - rewrite firstn_firstn. f_equal. lia.
  - rewrite skipn_firstn_comm. f_equal. lia.
Qed.

Lemma In_firstn {A} (n : nat) (l : list A) (x : A) :
  In x (firstn n l) -> In x l.
Proof.
  intros H. rewrite <- (firstn_skipn n l). apply in_or_app. left. exact H.
Qed.

Lemma In_skipn {A} (n : nat) (l : list A) (x : A) :
  In x (skipn n l) -> In x l.
Proof.
  intros H. rewrite <- (firstn_skipn n l). apply in_or_app. right. exact H.
Qed.

Lemma map_flat_map {K A B} (f : A -> B) (g : K -> list A) (ks : list K) :
  map f (flat_map g ks) = flat_map (fun k => map f (g k)) ks.
Proof.
  induction ks as [|k ks IH]; simpl; [reflexivity|].
  rewrite map_app, IH. reflexivity.
Qed.

Lemma flat_map_ext_in {A B} (f g : A -> list B) (l : list A) :
  (forall x, In x l -> f x = g x) -> flat_map f l = flat_map g l.
Proof.
  intros H. induction l as [|x l IH]; simpl; [reflexivity|].
  rewrite (H x (or_introl eq_refl)), IH; [reflexivity|].
  intros y Hy. apply H. right. exact Hy.
Qed.

End paging_facts.

(** * Facts about the listings *)

Module listing_facts.
Import tenant query_facts order_facts tenant_facts paging_facts.

Lemma memberDTOs_app (a b : list (TenantUser * option User)) :
  memberDTOs (a ++ b) = memberDTOs a ++ memberDTOs b.
Proof.
  induction a as [|[item [u|]] a IH]; simpl; [reflexivity | |exact IH].
  rewrite IH. reflexivity.
Qed.

Lemma memberDTOs_length (l : list (TenantUser * option User)) :
  List.length (memberDTOs l) <= List.length l.
Proof.
  induction l as [|[item [u|]] l IH]; simpl; lia.
Qed.

Lemma memberDTOs_In (l : list (TenantUser * option User)) (d : MemberDTO) :
  In d (memberDTOs l) ->
  exists item u,
    In (item, Some u) l
    /\ d = {| mdID := uID u; mdUsername := uUsername u; mdEmail := uEmail u;
              mdNickname := uNickname u; mdStatus := uStatus u;
              mdRole := tuRole item; mdIsDefault := tuIsDefault item |}.
Proof.
  induction l as [|[item [u|]] l IH]; simpl; [intros [] | |].
  - intros [Hd|Hd].
    + exists item, u. split; [left; reflexivity | symmetry; exact Hd].
    + destruct (IH Hd) as [i [x [Hin Heq]]]. exists i, x. auto.
  - intros Hd. destruct (IH Hd) as [i [x [Hin Heq]]]. exists i, x. auto.
Qed.

Lemma memberDTOs_flat_map {K} (f : K -> list (TenantUser * option User))
    (ks : list K) :
  memberDTOs (flat_map f ks) = flat_map (fun k => memberDTOs (f k)) ks.
Proof.
  induction ks as [|k ks IH]; simpl; [reflexivity|].
  rewrite memberDTOs_app, IH. reflexivity.
Qed.

Section WithDomainService.
Context {codec : UUIDText} {D : Type} {domainSvc : DomainWriter D}.
Context {dialect : Dialect}.

(** The answer of [ListMembers] when its arithmetic does not overflow. *)
Lemma ListMembers_Ok ctx tenantID page pageSize (w : World D) t :
  requirePlatformDomain ctx = Ok tt ->
  getTenant (tenants w) tenantID = Ok t ->
  ((pageOf page - 1) * pageSizeOf pageSize < 2 ^ 63)%Z ->
  (Z.of_nat (List.length (tenantUsers w)) + 100 < 2 ^ 63)%Z ->
  let all := OrderBy newestFirst (filter (activeIn tenantID) (tenantUsers w)) in
  let total := Z.of_nat (List.length all) in
  ListMembers ctx tenantID page pageSize w
  = Ok {| Members := memberDTOs (map (withUser (users w))
                                     (pageRows page pageSize all));
          mlTotal := total; mlPage := pageOf page;
          mlPageSize := pageSizeOf pageSize;
          mlTotalPages := ((total + pageSizeOf pageSize - 1)
                           / pageSizeOf pageSize)%Z |}.
Proof.
  intros Hctx Ht Hoff Hrows all total.
  destruct (getTenant_Ok _ _ Ht) as [_ Htid].
  pose proof (pageOf_bound page) as Hp.
  pose proof (pageSizeOf_bound pageSize) as Hs.
  assert (Hlen : List.length all
                 = List.length (filter (activeIn tenantID) (tenantUsers w))).
  { apply Permutation_length, OrderBy_Permutation. }
  assert (Htotal : (0 <= total /\ total + 100 < 2 ^ 63)%Z).
  { unfold total. rewrite Hlen.
    pose proof (filter_length_le (activeIn tenantID) (tenantUsers w)). lia. }
  unfold ListMembers. rewrite Hctx, Ht, Htid. cbv zeta.
  change (if (page <? 1)%Z then 1%Z else page) with (pageOf page).
  change (if ((if (pageSize <? 1)%Z then 20%Z else pageSize) >? 100)%Z
          then 100%Z else (if (pageSize <? 1)%Z then 20%Z else pageSize))
    with (pageSizeOf pageSize).
  rewrite offset_exact by lia.
  rewrite OffsetLimit_nonneg by nia.
  fold all. rewrite <- Hlen. fold total.
  destruct (@totalPages_exact total (pageSizeOf pageSize)) as [Hpages _];
    try lia.
  rewrite Hpages. reflexivity.
Qed.

(** X18.  A page of [ListMembers], in the platform domain, for a tenant
    that exists and numbers that do not overflow.  The call succeeds; it
    reports the page and the page size it worked with (page 1 for a page
    below 1, 20 rows for a size below 1, 100 for a size above 100), the
    number of active memberships of the tenant, and the least number of
    pages that hold them.  It shows the members of that page of the
    memberships ordered by creation instant, newest first: at most a page
    size of them, none beyond the last page, and each one built from an
    active membership of the tenant and the user row of its user. *)
Theorem ListMembers_page :
  forall (ctx : Context) (tenantID : UUID) (page pageSize : Z) (w : World D)
         (t : Tenant),
    requirePlatformDomain ctx = Ok tt ->
    getTenant (tenants w) tenantID = Ok t ->
    ((pageOf page - 1) * pageSizeOf pageSize < 2 ^ 63)%Z ->
    (Z.of_nat (List.length (tenantUsers w)) + 100 < 2 ^ 63)%Z ->
    let all := OrderBy newestFirst
                 (filter (activeIn tenantID) (tenantUsers w)) in
    exists res,
      ListMembers ctx tenantID page pageSize w = Ok res
      /\ mlPage res = pageOf page /\ mlPageSize res = pageSizeOf pageSize
      /\ (1 <= mlPage res)%Z /\ (1 <= mlPageSize res <= 100)%Z
      /\ mlTotal res
         = Z.of_nat (List.length (filter (activeIn tenantID) (tenantUsers w)))
      /\ (mlTotal res <= mlTotalPages res * mlPageSize res
          < mlTotal res + mlPageSize res)%Z
      /\ Members res
         = memberDTOs (map (withUser (users w)) (pageRows page pageSize all))
      /\ (Z.of_nat (List.length (Members res)) <= mlPageSize res)%Z
      /\ ((mlTotalPages res < mlPage res)%Z -> Members res = [])
      /\ (forall d, In d (Members res) ->
            exists m u,
              In m (tenantUsers w) /\ activeIn tenantID m = true
              /\ find (fun x => uuid_eqb (uID x) (tuUserID m)) (users w)
                 = Some u
              /\ d = {| mdID := uID u; mdUsername := uUsername u;
                        mdEmail := uEmail u; mdNickname := uNickname u;
                        mdStatus := uStatus u; mdRole := tuRole m;
                        mdIsDefault := tuIsDefault m |}).
Proof.
  intros ctx tenantID page pageSize w t Hctx Ht Hoff Hrows all.
  pose proof (pageOf_bound page) as Hp.
  pose proof (pageSizeOf_bound pageSize) as Hs.
  assert (Hlen : List.length all
                 = List.length (filter (activeIn tenantID) (tenantUsers w))).
  { apply Permutation_length, OrderBy_Permutation. }
  assert (Htotal : (0 <= Z.of_nat (List.length all)
                    /\ Z.of_nat (List.length all) + 100 < 2 ^ 63)%Z).
  { rewrite Hlen.
    pose proof (filter_length_le (activeIn tenantID) (tenantUsers w)). lia. }
  destruct (@totalPages_exact (Z.of_nat (List.length all)) (pageSizeOf pageSize))
    as [_ Hceil]; try lia.
  eexists. split; [eapply ListMembers_Ok; eassumption|]. simpl. fold all.
  split; [reflexivity|]. split; [reflexivity|]. split; [exact Hp|].
  split; [exact Hs|]. split; [rewrite Hlen; reflexivity|].
  split; [exact Hceil|]. split; [reflexivity|]. split; [|split].
  - pose proof (memberDTOs_length
                  (map (withUser (users w)) (pageRows page pageSize all))) as H.
    rewrite length_map in H. unfold pageRows in H |- *.
    pose proof (firstn_le_length (Z.to_nat (pageSizeOf pageSize))
                  (skipn (Z.to_nat ((pageOf page - 1) * pageSizeOf pageSize))
                         all)) as H'.
    lia.
  - intros Hbeyond. unfold pageRows. rewrite skipn_all2; [|nia].
    rewrite firstn_nil. reflexivity.
  - intros d Hd. apply memberDTOs_In in Hd. destruct Hd as [m [u [Hin Hd]]].
    apply in_map_iff in Hin. destruct Hin as [m' [Hm' Hin]].
    unfold withUser in Hm'. inversion Hm'; subst m'; clear Hm'.
    unfold pageRows in Hin. apply In_firstn in Hin. apply In_skipn in Hin.
    unfold all in Hin. apply OrderBy_In in Hin. apply filter_In in Hin.
    exists m, u. destruct Hin as [Hin Hact]. auto.
Qed.

(** X19.  The pages of [ListMembers] cover the members.  For a tenant that
    exists, asked from the platform domain with one page size, the pages
    1 to [TotalPages] shown one after the other are the members of all
    active memberships of the tenant, newest first, each membership once. *)
Theorem ListMembers_pages_cover :
  forall (ctx : Context) (tenantID : UUID) (pageSize : Z) (w : World D)
         (t : Tenant) (first : MemberListResult),
    requirePlatformDomain ctx = Ok tt ->
    getTenant (tenants w) tenantID = Ok t ->
    (Z.of_nat (List.length (tenantUsers w)) + 100 < 2 ^ 63)%Z ->
    ListMembers ctx tenantID 1%Z pageSize w = Ok first ->
    flat_map
      (fun k => membersShown
                  (ListMembers ctx tenantID (Z.of_nat k + 1)%Z pageSize w))
      (seq 0 (Z.to_nat (mlTotalPages first)))
    = memberDTOs
        (map (withUser (users w))
             (OrderBy newestFirst (filter (activeIn tenantID) (tenantUsers w)))).
Proof.
  intros ctx tenantID pageSize w t first Hctx Ht Hrows Hfirst.
  set (all := OrderBy newestFirst (filter (activeIn tenantID) (tenantUsers w))).
  pose proof (pageSizeOf_bound pageSize) as Hs.
  assert (Hlen : List.length all
                 = List.length (filter (activeIn tenantID) (tenantUsers w))).
  { apply Permutation_length, OrderBy_Permutation. }
  assert (Htotal : (0 <= Z.of_nat (List.length all)
                    /\ Z.of_nat (List.length all) + 100 < 2 ^ 63)%Z).
  { rewrite Hlen.
    pose proof (filter_length_le (activeIn tenantID) (tenantUsers w)). lia. }
  destruct (@totalPages_exact (Z.of_nat (List.length all)) (pageSizeOf pageSize))
    as [_ Hceil]; try lia.
  set (pages := ((Z.of_nat (List.length all) + pageSizeOf pageSize - 1)
                 / pageSizeOf pageSize)%Z) in *.
  assert (Hpages : mlTotalPages first = pages).
  { rewrite (@ListMembers_Ok ctx tenantID 1%Z pageSize w t Hctx Ht) in Hfirst.
    - inversion Hfirst. reflexivity.
    - unfold pageOf. simpl. lia.
    - exact Hrows. }
  rewrite Hpages.
  rewrite (@flat_map_ext_in _ _
             (fun k => membersShown
                         (ListMembers ctx tenantID (Z.of_nat k + 1)%Z pageSize w))
             (fun k => memberDTOs
                         (map (withUser (users w))
                              (firstn (Z.to_nat (pageSizeOf pageSize))
                                 (skipn (k * Z.to_nat (pageSizeOf pageSize))
                                        all))))).
  - rewrite <- (@memberDTOs_flat_map _
                  (fun k => map (withUser (users w))
                              (firstn (Z.to_nat (pageSizeOf pageSize))
                                 (skipn (k * Z.to_nat (pageSizeOf pageSize)) all)))).
    rewrite <- (@map_flat_map _ _ _ (withUser (users w))
                  (fun k => firstn (Z.to_nat (pageSizeOf pageSize))
                              (skipn (k * Z.to_nat (pageSizeOf pageSize)) all))).
    rewrite pages_firstn. rewrite firstn_all2; [reflexivity|]. nia.
  - intros k Hk. apply in_seq in Hk.
    assert (Hkp : pageOf (Z.of_nat k + 1)%Z = (Z.of_nat k + 1)%Z).
    { unfold pageOf. destruct (Z.ltb_spec (Z.of_nat k + 1)%Z 1%Z); lia. }
    rewrite (@ListMembers_Ok ctx tenantID (Z.of_nat k + 1)%Z pageSize w t Hctx Ht).
    + simpl. unfold pageRows. rewrite Hkp.
      replace (Z.to_nat ((Z.of_nat k + 1 - 1) * pageSizeOf pageSize))
        with (k * Z.to_nat (pageSizeOf pageSize)) by nia.
      reflexivity.
    + rewrite Hkp. nia.
    + exact Hrows.
Qed.

End WithDomainService.

Import scenario.

Lemma ListMembers_page_witness :
  exists res,
    ListMembers (platformCtx (Some 1)) 100 2%Z 1%Z bareWorld = Ok res
    /\ mlTotal res = 2%Z /\ mlTotalPages res = 2%Z
    /\ map mdUsername (Members res) = ["alice"].
Proof.
  destruct (@ListMembers_page _ sqlite (platformCtx (Some 1))
              100 2%Z 1%Z bareWorld acmeRow eq_refl eq_refl)
    as [res [Hres [_ [Hsize [_ [_ [Htotal [Hceil [Hmembers _]]]]]]]]].
  - vm_compute. reflexivity.
  - vm_compute. reflexivity.
  - exists res. split; [exact Hres|].
    assert (Ht : mlTotal res = 2%Z) by (rewrite Htotal; reflexivity).
    assert (Hs : mlPageSize res = 1%Z) by (rewrite Hsize; reflexivity).
    split; [exact Ht|]. split; [lia|].
    rewrite Hmembers. reflexivity.
Defined.

Lemma ListMembers_pages_cover_witness :
  map mdUsername
      (flat_map
         (fun k => membersShown
                     (ListMembers (platformCtx (Some 1)) 100
                                  (Z.of_nat k + 1)%Z 1%Z bareWorld))
         (seq 0 2))
  = ["bob"; "alice"].
Proof.
  etransitivity.
  - apply (f_equal (map mdUsername)).
    exact (@ListMembers_pages_cover _ sqlite (platformCtx (Some 1)) 100 1%Z
             bareWorld acmeRow _ eq_refl eq_refl eq_refl eq_refl).
  - reflexivity.
Defined.

End listing_facts.

(** * Facts about the tenant listings *)

Module tenant_listing_facts.
Import tenant query_facts order_facts tenant_facts paging_facts.

Lemma Contains_empty (s : string) : Contains s "" = true.
Proof. destruct s; reflexivity. Qed.

Lemma ContainsFold_empty (column : string) : ContainsFold column "" = true.
Proof. unfold ContainsFold. simpl. apply Contains_empty. Qed.

(** ** [tenantMap] *)

Lemma tenantMapOf_rev (rows : list Tenant) : forall acc,
  fold_left (fun m t => (tID t, t) :: m) rows acc
  = rev (map (fun t => (tID t, t)) rows) ++ acc.
Proof.
  induction rows as [|t rows IH]; intros acc; simpl; [reflexivity|].
  rewrite IH, <- app_assoc. reflexivity.
Qed.

Lemma tenantMap_get_Some (rows : list Tenant) (id : UUID) (t : Tenant) :
  NoDup (map tID rows) ->
  (tenantMap_get (tenantMapOf rows) id = Some t <-> In t rows /\ tID t = id).
Proof.
  intros Hnd. unfold tenantMap_get, tenantMapOf.
  rewrite tenantMapOf_rev, app_nil_r. split.
  - destruct (find _ _) as [[k v]|] eqn:Hfind; simpl; [|discriminate].
    intros H. inversion H; subst v; clear H.
    apply find_some in Hfind. destruct Hfind as [Hin Hk]. simpl in Hk.
    apply uuid_eqb_eq in Hk. apply in_rev in Hin.
    apply in_map_iff in Hin. destruct Hin as [t' [Heq Hin]].
    inversion Heq; subst. auto.
  - intros [Hin Hid].
    destruct (find (fun e => uuid_eqb (fst e) id)
                   (rev (map (fun t => (tID t, t)) rows)))
      as [[k v]|] eqn:Hfind; simpl.
    + apply find_some in Hfind. destruct Hfind as [Hin' Hk]. simpl in Hk.
      apply uuid_eqb_eq in Hk. apply in_rev in Hin'.
      apply in_map_iff in Hin'. destruct Hin' as [t' [Heq Hin']].
      inversion Heq; subst k v. f_equal.
      eapply NoDup_map_eq; eauto. congruence.
    + exfalso.
      subst id.
      pose proof (find_none _ _ Hfind (tID t, t)) as Hnone.
      simpl in Hnone. rewrite uuid_eqb_refl in Hnone.
      assert (In (tID t, t) (rev (map (fun t => (tID t, t)) rows))).
      { apply in_rev. rewrite rev_involutive.
        apply in_map_iff. exists t. auto. }
      specialize (Hnone H). discriminate.
Qed.

(** ** The ids [ListMyTenants] collects *)

Lemma collectTenantIDs_In (memberships : list TenantUser) : forall acc id,
  In id (collectTenantIDs memberships acc) <->
  In id acc
  \/ (id <> uuid_Nil /\ exists m, In m memberships /\ tuTenantID m = id).
Proof.
  induction memberships as [|m rest IH]; intros acc id; simpl.
  - split; [auto|]. intros [H|[_ [m [[] _]]]]. exact H.
  - destruct (uuid_eqb (tuTenantID m) uuid_Nil) eqn:Hnil.
    + apply uuid_eqb_eq in Hnil. rewrite IH. split.
      * intros [H|[Hne [m' [Hm' Hid]]]]; [auto|]. right. split; [exact Hne|].
        exists m'. auto.
      * intros [H|[Hne [m' [[Hm'|Hm'] Hid]]]]; [auto| |].
        -- subst m'. congruence.
        -- right. split; [exact Hne|]. exists m'. auto.
    + assert (Hne : tuTenantID m <> uuid_Nil).
      { intros H. rewrite H in Hnil. rewrite uuid_eqb_refl in Hnil.
        discriminate. }
      destruct (existsb (uuid_eqb (tuTenantID m)) acc) eqn:Hseen; simpl.
      * apply existsb_exists in Hseen. destruct Hseen as [y [Hy Heq]].
        apply uuid_eqb_eq in Heq. subst y. rewrite IH. split.
        -- intros [H|[Hn [m' [Hm' Hid]]]]; [auto|]. right.
           split; [exact Hn|]. exists m'. auto.
        -- intros [H|[Hn [m' [[Hm'|Hm'] Hid]]]]; [auto| |].
           ++ subst m'. left. congruence.
           ++ right. split; [exact Hn|]. exists m'. auto.
      * rewrite IH, in_app_iff. simpl. split.
        -- intros [[H|[H|[]]]|[Hn [m' [Hm' Hid]]]]; [auto| |].
           ++ right. split; [congruence|]. exists m. auto.
           ++ right. split; [exact Hn|]. exists m'. auto.
        -- intros [H|[Hn [m' [[Hm'|Hm'] Hid]]]]; [auto| |].
           ++ subst m'. left. right. left. exact Hid.
           ++ right. split; [exact Hn|]. exists m'. auto.
Qed.

Lemma myTenantDTOs_In (tenantMap : list (UUID * Tenant))
    (memberships : list TenantUser) (d : MyTenantDTO) :
  In d (myTenantDTOs tenantMap memberships) <->
  exists m t,
    In m memberships /\ tenantMap_get tenantMap (tuTenantID m) = Some t
    /\ d = {| mtID := tID t; mtCode := tCode t; mtName := tName t;
              mtStatus := tStatus t; mtRole := tuRole m;
              mtIsDefault := tuIsDefault m |}.
Proof.
  induction memberships as [|m rest IH]; simpl.
  - split; [intros [] | intros [m [t [[] _]]]].
  - destruct (tenantMap_get tenantMap (tuTenantID m)) as [t|] eqn:Hget; simpl.
    + rewrite IH. split.
      * intros [Hd|[m' [t' [Hm' H]]]].
        -- exists m, t. auto.
        -- exists m', t'. tauto.
      * intros [m' [t' [[Hm'|Hm'] [Hg Hd]]]].
        -- subst m'. left. rewrite Hget in Hg. inversion Hg; subst t'.
           symmetry. exact Hd.
        -- right. exists m', t'. auto.
    + rewrite IH. split.
      * intros [m' [t' [Hm' H]]]. exists m', t'. tauto.
      * intros [m' [t' [[Hm'|Hm'] [Hg Hd]]]].
        -- subst m'. congruence.
        -- exists m', t'. auto.
Qed.

Lemma myTenantDTOs_length (tenantMap : list (UUID * Tenant))
    (memberships : list TenantUser) :
  List.length (myTenantDTOs tenantMap memberships) <= List.length memberships.
Proof.
  induction memberships as [|m rest IH]; simpl; [lia|].
  destruct (tenantMap_get tenantMap (tuTenantID m)); simpl; lia.
Qed.

(** ** Defaults come first *)

Lemma defaultFirst_total (a b : TenantUser) :
  defaultFirst a b = true \/ defaultFirst b a = true.
Proof.
  unfold defaultFirst.
  destruct (tuIsDefault a), (tuIsDefault b); simpl; auto.
  - destruct (Nat.leb_spec (tuCreatedAt b) (tuCreatedAt a)); [auto|].
    right. apply Nat.leb_le. lia.
  - destruct (Nat.leb_spec (tuCreatedAt b) (tuCreatedAt a)); [auto|].
    right. apply Nat.leb_le. lia.
Qed.

Lemma defaultFirst_flag (a b : TenantUser) :
  defaultFirst a b = true -> tuIsDefault a = false -> tuIsDefault b = false.
Proof.
  unfold defaultFirst. destruct (tuIsDefault a), (tuIsDefault b); simpl;
    intros; congruence.
Qed.

Lemma defaults_first_sorted (l : list TenantUser) :
  Sorted (fun a b => defaultFirst a b = true) l ->
  StronglySorted (fun a b => tuIsDefault a = false -> tuIsDefault b = false) l.
Proof.
  intros Hs. apply Sorted_StronglySorted.
  - intros x y z Hxy Hyz Hx. auto.
  - induction Hs as [|a l Hs IH Hhd]; constructor; [exact IH|].
    destruct Hhd as [|b l Hab]; constructor.
    apply defaultFirst_flag. exact Hab.
Qed.

Lemma myTenantDTOs_sorted (tenantMap : list (UUID * Tenant))
    (memberships : list TenantUser) :
  StronglySorted (fun a b => tuIsDefault a = false -> tuIsDefault b = false)
                 memberships ->
  StronglySorted (fun a b => mtIsDefault a = false -> mtIsDefault b = false)
                 (myTenantDTOs tenantMap memberships).
Proof.
  induction 1 as [|m rest Hs IH Hall]; simpl; [constructor|].
  destruct (tenantMap_get tenantMap (tuTenantID m)) as [t|]; [|exact IH].
  constructor; [exact IH|].
  apply Forall_forall. intros d Hd. apply myTenantDTOs_In in Hd.
  destruct Hd as [m' [t' [Hm' [_ Hd]]]]. subst d. simpl.
  rewrite Forall_forall in Hall. apply Hall. exact Hm'.
Qed.

Section WithDomainService.
Context {codec : UUIDText} {D : Type} {domainSvc : DomainWriter D}.
Context {dialect : Dialect}.

(** X20.  A page of [ListTenants], in the platform domain, for numbers
    that do not overflow.  The call succeeds and reports the page and page
    size it worked with, the number of tenants that pass the filters and
    the least number of pages that hold them.  It shows that page of the
    passing tenants, newest first: every tenant shown is a row of the
    table; it is not deleted unless deleted tenants were asked for; it has
    the status asked for, if any; and its code or its name contains the
    trimmed query, letter case apart, if a query was given.  A query of
    white space only filters nothing. *)
Theorem ListTenants_page :
  forall (createdAt : Tenant -> Time) (ctx : Context) (filters : ListFilters)
         (w : World D),
    requirePlatformDomain ctx = Ok tt ->
    ((pageOf (lfPage filters) - 1) * pageSizeOf (lfPageSize filters)
     < 2 ^ 63)%Z ->
    (Z.of_nat (List.length (tenants w)) + 100 < 2 ^ 63)%Z ->
    let all := OrderBy (fun a b => Nat.leb (createdAt b) (createdAt a))
                 (filter (matchesFilters filters) (tenants w)) in
    exists res,
      ListTenants createdAt ctx filters w = Ok res
      /\ lrPage res = pageOf (lfPage filters)
      /\ lrPageSize res = pageSizeOf (lfPageSize filters)
      /\ lrTotal res
         = Z.of_nat (List.length (filter (matchesFilters filters) (tenants w)))
      /\ (lrTotal res <= lrTotalPages res * lrPageSize res
          < lrTotal res + lrPageSize res)%Z
      /\ Tenants res
         = map (fun item =>
                  toDTO item (resolveDomainIDSafe (domains w) (tCode item)))
               (pageRows (lfPage filters) (lfPageSize filters) all)
      /\ (Z.of_nat (List.length (Tenants res)) <= lrPageSize res)%Z
      /\ (forall d, In d (Tenants res) ->
            exists t,
              In t (tenants w)
              /\ d = toDTO t (resolveDomainIDSafe (domains w) (tCode t))
              /\ (lfIncludeDeleted filters = false -> tDeletedAt t = None)
              /\ (lfStatus filters <> "" -> tStatus t = lfStatus filters)
              /\ (lfQuery filters <> "" ->
                  ContainsFold (tCode t) (TrimSpace (lfQuery filters))
                  || ContainsFold (tName t) (TrimSpace (lfQuery filters))
                  = true))
      /\ (TrimSpace (lfQuery filters) = "" ->
          forall t,
            matchesFilters filters t
            = matchesFilters
                {| lfPage := lfPage filters; lfPageSize := lfPageSize filters;
                   lfQuery := ""; lfStatus := lfStatus filters;
                   lfIncludeDeleted := lfIncludeDeleted filters |} t).
Proof.
  intros createdAt ctx filters w Hctx Hoff Hrows all.
  pose proof (pageOf_bound (lfPage filters)) as Hp.
  pose proof (pageSizeOf_bound (lfPageSize filters)) as Hs.
  assert (Hlen : List.length all
                 = List.length (filter (matchesFilters filters) (tenants w))).
  { apply Permutation_length, OrderBy_Permutation. }
  assert (Htotal : (0 <= Z.of_nat (List.length all)
                    /\ Z.of_nat (List.length all) + 100 < 2 ^ 63)%Z).
  { rewrite Hlen.
    pose proof (filter_length_le (matchesFilters filters) (tenants w)). lia. }
  destruct (@totalPages_exact (Z.of_nat (List.length all))
              (pageSizeOf (lfPageSize filters))) as [Hpages Hceil]; try lia.
  unfold ListTenants. rewrite Hctx. cbv zeta.
  change (if (lfPage filters <? 1)%Z then 1%Z else lfPage filters)
    with (pageOf (lfPage filters)).
  change (if ((if (lfPageSize filters <? 1)%Z then 20%Z
               else lfPageSize filters) >? 100)%Z
          then 100%Z
          else (if (lfPageSize filters <? 1)%Z then 20%Z
                else lfPageSize filters))
    with (pageSizeOf (lfPageSize filters)).
  rewrite offset_exact by lia.
  rewrite OffsetLimit_nonneg by nia.
  fold all. rewrite <- Hlen. rewrite Hpages.
  eexists. split; [reflexivity|]. simpl.
  split; [reflexivity|]. split; [reflexivity|]. split; [reflexivity|].
  split; [exact Hceil|]. split; [reflexivity|]. split; [|split].
  - rewrite length_map.
    pose proof (firstn_le_length (Z.to_nat (pageSizeOf (lfPageSize filters)))
                  (skipn (Z.to_nat ((pageOf (lfPage filters) - 1)
                                    * pageSizeOf (lfPageSize filters))) all))
      as H.
    unfold pageRows. lia.
  - intros d Hd. apply in_map_iff in Hd. destruct Hd as [t [Hd Hin]].
    unfold pageRows in Hin. apply In_firstn in Hin. apply In_skipn in Hin.
    unfold all in Hin. apply OrderBy_In in Hin. apply filter_In in Hin.
    destruct Hin as [Hin Hmatch]. exists t.
    split; [exact Hin|]. split; [symmetry; exact Hd|].
    unfold matchesFilters in Hmatch.
    apply andb_true_iff in Hmatch. destruct Hmatch as [Hmatch Hstatus].
    apply andb_true_iff in Hmatch. destruct Hmatch as [Hdel Hquery].
    split; [|split].
    + intros Hinc. rewrite Hinc in Hdel. simpl in Hdel.
      destruct (tDeletedAt t); [discriminate | reflexivity].
    + intros Hst. apply String.eqb_neq in Hst. rewrite Hst in Hstatus.
      simpl in Hstatus. apply String.eqb_eq. exact Hstatus.
    + intros Hq. apply String.eqb_neq in Hq. rewrite Hq in Hquery.
      simpl in Hquery. exact Hquery.
  - intros Hblank t. unfold matchesFilters. simpl. rewrite Hblank.
    rewrite ContainsFold_empty. simpl.
    destruct (negb (String.eqb (lfQuery filters) "")); reflexivity.
Qed.

(** X21.  What [ListMyTenants] shows, on a tenant table with distinct
    ids.  The call succeeds.  It shows one entry for every active
    membership of the user whose tenant id is not the zero id and is the
    id of a tenant row, deleted or not, with the tenant's id, code, name
    and status and the membership's role and default flag; and nothing
    else.  No default entry comes after an entry that is not a default. *)
Theorem ListMyTenants_entries :
  forall (w : World D) (userID : UUID),
    NoDup (map tID (tenants w)) ->
    exists result,
      ListMyTenants w userID = Ok result
      /\ (forall d, In d result <->
            exists m t,
              In m (tenantUsers w) /\ activeOf userID m = true
              /\ tuTenantID m <> uuid_Nil
              /\ In t (tenants w) /\ tID t = tuTenantID m
              /\ d = {| mtID := tID t; mtCode := tCode t; mtName := tName t;
                        mtStatus := tStatus t; mtRole := tuRole m;
                        mtIsDefault := tuIsDefault m |})
      /\ List.length result
         <= List.length (filter (activeOf userID) (tenantUsers w))
      /\ StronglySorted
           (fun a b => mtIsDefault a = false -> mtIsDefault b = false) result.
Proof.
  intros w userID Hnd. unfold ListMyTenants.
  set (memberships := OrderBy defaultFirst
                        (filter (activeOf userID) (tenantUsers w))).
  set (found := filter (fun t => existsb (uuid_eqb (tID t))
                                   (collectTenantIDs memberships []))
                       (tenants w)).
  assert (Hmem : forall m, In m memberships <->
                   In m (tenantUsers w) /\ activeOf userID m = true).
  { intros m. unfold memberships. rewrite OrderBy_In. apply filter_In. }
  assert (Hlen : List.length memberships
                 = List.length (filter (activeOf userID) (tenantUsers w))).
  { apply Permutation_length, OrderBy_Permutation. }
  assert (Hfound_nd : NoDup (map tID found)).
  { unfold found. clear -Hnd. induction (tenants w) as [|t rows IH]; simpl;
      [constructor|].
    simpl in Hnd. inversion Hnd as [|? ? Hnotin Hnd']; subst.
    destruct (existsb _ _); [|apply IH; exact Hnd'].
    simpl. constructor; [|apply IH; exact Hnd'].
    intros Hin. apply Hnotin. apply in_map_iff in Hin.
    destruct Hin as [x [Hx Hin]]. apply filter_In in Hin.
    apply in_map_iff. exists x. tauto. }
  assert (Hget : forall m t, In m memberships ->
            (tenantMap_get (tenantMapOf found) (tuTenantID m) = Some t <->
             tuTenantID m <> uuid_Nil /\ In t (tenants w)
             /\ tID t = tuTenantID m)).
  { intros m t Hm. rewrite (@tenantMap_get_Some found (tuTenantID m) t Hfound_nd).
    unfold found. rewrite filter_In, existsb_exists. split.
    - intros [[Hin [id [Hid Heq]]] Htid]. apply uuid_eqb_eq in Heq. subst id.
      apply collectTenantIDs_In in Hid.
      destruct Hid as [[]|[Hne _]]. split; [congruence|]. auto.
    - intros [Hne [Hin Htid]]. split; [|exact Htid]. split; [exact Hin|].
      exists (tID t). split; [|apply uuid_eqb_refl].
      apply collectTenantIDs_In. right. split; [congruence|].
      exists m. auto. }
  assert (Hresult :
            (forall d, In d (myTenantDTOs (tenantMapOf found) memberships) <->
               exists m t,
                 In m (tenantUsers w) /\ activeOf userID m = true
                 /\ tuTenantID m <> uuid_Nil
                 /\ In t (tenants w) /\ tID t = tuTenantID m
                 /\ d = {| mtID := tID t; mtCode := tCode t; mtName := tName t;
                           mtStatus := tStatus t; mtRole := tuRole m;
                           mtIsDefault := tuIsDefault m |})
            /\ List.length (myTenantDTOs (tenantMapOf found) memberships)
               <= List.length (filter (activeOf userID) (tenantUsers w))
            /\ StronglySorted
                 (fun a b => mtIsDefault a = false -> mtIsDefault b = false)
                 (myTenantDTOs (tenantMapOf found) memberships)).
  { split; [|split].
    - intros d. rewrite myTenantDTOs_In. split.
      + intros [m [t [Hm [Hg Hd]]]]. apply (Hget m t Hm) in Hg.
        apply Hmem in Hm. exists m, t. tauto.
      + intros [m [t [Hm [Hact [Hne [Hin [Htid Hd]]]]]]].
        assert (Hm' : In m memberships) by (apply Hmem; auto).
        exists m, t. split; [exact Hm'|]. split; [|exact Hd].
        apply (Hget m t Hm'). auto.
    - rewrite <- Hlen. apply myTenantDTOs_length.
    - apply myTenantDTOs_sorted. apply defaults_first_sorted.
      apply OrderBy_Sorted. apply defaultFirst_total. }
  destruct memberships as [|m0 rest] eqn:Hms.
  - exists []. split; [reflexivity|]. split; [|split].
    + intros d. split; [intros []|].
      intros [m [t [Hm [Hact _]]]].
      assert (H : In m []) by (apply Hmem; auto). destruct H.
    + simpl. lia.
    + constructor.
  - eexists. split; [reflexivity|]. exact Hresult.
Qed.

(** X22.  The platform domain is required before anything else.  Without
    an acting context, or with one that is not of the platform domain,
    [CreateTenant], [UpdateTenant], [DeleteTenant], [AddMember],
    [RemoveMember], [ListTenants] and [ListMembers] fail with
    [ErrPlatformDomainOnly], whatever their other arguments, and the five
    that write leave the world as it was. *)
Theorem platform_domain_required :
  forall (ctx : Context) (w : World D),
    acting ctx <> Some true ->
    (forall f now tenantRowID memberRowID req,
       CreateTenant f now tenantRowID memberRowID ctx req w
       = (w, Err ErrPlatformDomainOnly))
    /\ (forall id req,
          UpdateTenant ctx id req w = (w, Err ErrPlatformDomainOnly))
    /\ (forall now id,
          DeleteTenant now ctx id w = (w, Err ErrPlatformDomainOnly))
    /\ (forall now newID tenantID userID role,
          AddMember now newID ctx tenantID userID role w
          = (w, Err ErrPlatformDomainOnly))
    /\ (forall now tenantID userID,
          RemoveMember now ctx tenantID userID w
          = (w, Err ErrPlatformDomainOnly))
    /\ (forall createdAt filters,
          ListTenants createdAt ctx filters w = Err ErrPlatformDomainOnly)
    /\ (forall tenantID page pageSize,
          ListMembers ctx tenantID page pageSize w
          = Err ErrPlatformDomainOnly).
Proof.
  intros ctx w Hctx.
  assert (Hreq : requirePlatformDomain ctx = Err ErrPlatformDomainOnly).
  { unfold requirePlatformDomain. destruct (acting ctx) as [[|]|];
      [contradiction Hctx; reflexivity | reflexivity | reflexivity]. }
  repeat split; intros.
  - unfold CreateTenant. rewrite Hreq. reflexivity.
  - unfold UpdateTenant. rewrite Hreq. reflexivity.
  - unfold DeleteTenant. rewrite Hreq. reflexivity.
  - unfold AddMember. rewrite Hreq. reflexivity.
  - unfold RemoveMember. rewrite Hreq. reflexivity.
  - unfold ListTenants. rewrite Hreq. reflexivity.
  - unfold ListMembers. rewrite Hreq. reflexivity.
Qed.

End WithDomainService.

Import scenario.

Lemma ListTenants_page_witness :
  exists res,
    ListTenants tID (platformCtx (Some 1))
      {| lfPage := 0; lfPageSize := 0; lfQuery := "AC"; lfStatus := "";
         lfIncludeDeleted := false |} bareWorld = Ok res
    /\ lrPage res = 1%Z /\ lrPageSize res = 20%Z
    /\ lrTotal res = 1%Z /\ lrTotalPages res = 1%Z
    /\ List.length (Tenants res) = 1.
Proof.
  destruct (@ListTenants_page _ mockWriter sqlite tID (platformCtx (Some 1))
              {| lfPage := 0; lfPageSize := 0; lfQuery := "AC"; lfStatus := "";
                 lfIncludeDeleted := false |} bareWorld eq_refl)
    as [res [Hres [Hpage [Hsize [Htotal [Hceil [Hrows _]]]]]]].
  - vm_compute. reflexivity.
  - vm_compute. reflexivity.
  - exists res. split; [exact Hres|].
    assert (Hp : lrPage res = 1%Z) by (rewrite Hpage; reflexivity).
    assert (Hs : lrPageSize res = 20%Z) by (rewrite Hsize; reflexivity).
    assert (Ht : lrTotal res = 1%Z) by (rewrite Htotal; reflexivity).
    repeat split; [exact Hp | exact Hs | exact Ht | lia |].
    rewrite Hrows. reflexivity.
Defined.

Lemma ListMyTenants_entries_witness :
  exists result,
    ListMyTenants bareWorld 1 = Ok result
    /\ (forall d, In d result -> mtCode d = "acme" /\ mtRole d = "member").
Proof.
  destruct (@ListMyTenants_entries _ bareWorld 1) as [result [Hres [Hin _]]].
  - simpl. constructor; [intros [] | constructor].
  - exists result. split; [exact Hres|].
    intros d Hd. apply Hin in Hd.
    destruct Hd as [m [t [Hm [_ [_ [Ht [_ Hd]]]]]]]. subst d. simpl in *.
    destruct Ht as [Ht|[]]. subst t.
    destruct Hm as [Hm|[Hm|[]]]; subst m; split; reflexivity.
Defined.

Lemma platform_domain_required_witness :
  DeleteTenant 5
    {| acting := Some false; ctxUserID := Some 1; ctxDomainID := Some "7" |}
    100 bareWorld
  = (bareWorld, Err ErrPlatformDomainOnly).
Proof.
  apply (@platform_domain_required decimalText _ mockWriter sqlite
           {| acting := Some false; ctxUserID := Some 1;
              ctxDomainID := Some "7" |} bareWorld).
  simpl. discriminate.
Defined.

End tenant_listing_facts.

(** * Facts about the tenant handlers *)

Module tenant_handler_facts.
Import tenant query_facts tenant_facts tenant_lifecycle_facts paging_facts.

Lemma filter_id_single (rows : list Tenant) (t : Tenant) :
  NoDup (map tID rows) -> In t rows ->
  filter (fun x => uuid_eqb (tID x) (tID t)) rows = [t].
Proof.
  induction rows as [|x rows IH]; intros Hnd Hin; [destruct Hin|].
  simpl in Hnd. inversion Hnd as [|? ? Hnotin Hnd']; subst.
  simpl. destruct Hin as [Heq|Hin].
  - subst x. rewrite uuid_eqb_refl. f_equal. apply filter_none.
    intros y Hy. destruct (uuid_eqb (tID y) (tID t)) eqn:Hid; [|reflexivity].
    apply uuid_eqb_eq in Hid. exfalso. apply Hnotin. rewrite <- Hid.
    apply in_map. exact Hy.
  - destruct (uuid_eqb (tID x) (tID t)) eqn:Hid.
    + apply uuid_eqb_eq in Hid. exfalso. apply Hnotin. rewrite Hid.
      apply in_map. exact Hin.
    + apply IH; assumption.
Qed.

(** With distinct ids the lookup by id fails only for an id no row
    carries. *)
Lemma getTenant_table (rows : list Tenant) (id : UUID) :
  NoDup (map tID rows) ->
  if existsb (fun t => uuid_eqb (tID t) id) rows
  then exists t, getTenant rows id = Ok t /\ In t rows /\ tID t = id
  else getTenant rows id = Err ErrTenantNotFound.
Proof.
  intros Hnd. destruct (existsb _ rows) eqn:Hex.
  - apply existsb_exists in Hex. destruct Hex as [t [Hin Hid]].
    apply uuid_eqb_eq in Hid. subst id. exists t.
    unfold getTenant, Tenant_Get. rewrite (@filter_id_single rows t Hnd Hin).
    simpl. auto.
  - apply getTenant_absent. intros t Hin Hid.
    rewrite existsb_false_iff in Hex. specialize (Hex t Hin).
    rewrite Hid, uuid_eqb_refl in Hex. discriminate.
Qed.

Lemma requirePlatformDomain_Err (ctx : Context) :
  acting ctx <> Some true ->
  requirePlatformDomain ctx = Err ErrPlatformDomainOnly.
Proof.
  unfold requirePlatformDomain. destruct (acting ctx) as [[|]|]; intros H;
    [contradiction H; reflexivity | reflexivity | reflexivity].
Qed.

Lemma requirePlatformDomain_Ok (ctx : Context) :
  acting ctx = Some true -> requirePlatformDomain ctx = Ok tt.
Proof. unfold requirePlatformDomain. intros H. rewrite H. reflexivity. Qed.

Section WithDomainService.
Context {codec : UUIDText} {D : Type} {domainSvc : DomainWriter D}.
Context {dialect : Dialect}.

(** A parent reference that names no undeleted tenant is refused. *)
Lemma resolveParentTenantID_absent (rows : list Tenant) (parentRef : string)
    (selfID : UUID) :
  TrimSpace parentRef <> "" ->
  (forall t, In t rows -> tDeletedAt t = None ->
     match uuid_Parse (TrimSpace parentRef) with
     | Some parentID => tID t <> parentID
     | None => tCode t <> TrimSpace parentRef
     end) ->
  resolveParentTenantID false rows parentRef selfID = Err ErrParentTenantInvalid.
Proof.
  intros Hblank Habsent. unfold resolveParentTenantID. cbv zeta.
  apply String.eqb_neq in Hblank. rewrite Hblank.
  destruct (uuid_Parse (TrimSpace parentRef)) as [parentID|].
  - rewrite filter_none; [reflexivity|].
    intros t Hin. destruct (uuid_eqb (tID t) parentID) eqn:Hid; [|reflexivity].
    apply uuid_eqb_eq in Hid. simpl.
    destruct (tDeletedAt t) eqn:Hdel; [reflexivity|].
    exfalso. exact (Habsent t Hin Hdel Hid).
  - rewrite filter_none; [reflexivity|].
    intros t Hin.
    destruct (String.eqb (tCode t) (TrimSpace parentRef)) eqn:Hcode;
      [|reflexivity].
    apply String.eqb_eq in Hcode. simpl.
    destruct (tDeletedAt t) eqn:Hdel; [reflexivity|].
    exfalso. exact (Habsent t Hin Hdel Hcode).
Qed.

Lemma mapTenantError_not_OK {A} (msg : string) (err : Error) (result : A) :
  Handler.mapTenantError msg err <> OK result.
Proof.
  unfold Handler.mapTenantError.
  destruct (errors_Is err ErrTenantNotFound); [discriminate|].
  destruct (errors_Is err ErrTenantCodeExists); [discriminate|].
  destruct (errors_Is err ErrInvalidTenant || errors_Is err ErrParentTenantInvalid);
    [discriminate|].
  destruct (errors_Is err ErrPlatformDomainOnly); discriminate.
Qed.

Lemma mapTenantError_not_Unauthorized {A} (msg : string) (err : Error)
    (m : string) :
  @Handler.mapTenantError A msg err <> Unauthorized m.
Proof.
  unfold Handler.mapTenantError.
  destruct (errors_Is err ErrTenantNotFound); [discriminate|].
  destruct (errors_Is err ErrTenantCodeExists); [discriminate|].
  destruct (errors_Is err ErrInvalidTenant || errors_Is err ErrParentTenantInvalid);
    [discriminate|].
  destruct (errors_Is err ErrPlatformDomainOnly); discriminate.
Qed.

(** X23.  The answers of the handler [CreateTenant].  A body that does
    not decode is a bind error.  For a decoded body, in this order: outside
    the platform domain the answer is forbidden, whatever the body says; a
    code or a name that is blank after trimming is a bad request; a
    transaction that cannot be started is a database error; a parent
    reference that names no undeleted tenant is a bad request; and, with
    no parent given, a code that a row of the tenant table carries already
    is a conflict.  All of these leave the world as it was.  [OK] carries the result of a successful service call, and the
    handler never answers unauthorized. *)
Theorem Handler_CreateTenant_responses :
  forall (f : Faults) (now : Time) (tenantRowID memberRowID : UUID)
         (ctx : Context) (body : option CreateRequest) (w : World D),
    let out :=
      Handler.CreateTenant f now tenantRowID memberRowID ctx body w in
    (body = None -> out = (w, BindError))
    /\ (forall req, body = Some req ->
          (acting ctx <> Some true ->
           out = (w, Forbidden "Platform domain required"))
          /\ (acting ctx = Some true ->
              TrimSpace (crCode req) = "" \/ TrimSpace (crName req) = "" ->
              out = (w, BadRequest "Invalid tenant data"))
          /\ (acting ctx = Some true ->
              TrimSpace (crCode req) <> "" -> TrimSpace (crName req) <> "" ->
              (txBeginFails f = true ->
               out = (w, DatabaseError "Failed to create tenant"))
              /\ (txBeginFails f = false -> parentQueryFails f = false ->
                  TrimSpace (crParentTenantID req) <> "" ->
                  (forall t, In t (tenants w) -> tDeletedAt t = None ->
                     match uuid_Parse (TrimSpace (crParentTenantID req)) with
                     | Some parentID => tID t <> parentID
                     | None => tCode t <> TrimSpace (crParentTenantID req)
                     end) ->
                  out = (w, BadRequest "Invalid tenant data"))
              /\ (txBeginFails f = false ->
                  TrimSpace (crParentTenantID req) = "" ->
                  (exists t, In t (tenants w)
                             /\ tCode t = TrimSpace (crCode req)) ->
                  out = (w, Conflict "Tenant code already exists"))))
    /\ (forall result, snd out = OK result ->
          exists req,
            body = Some req
            /\ tenant.CreateTenant f now tenantRowID memberRowID ctx req w
               = (fst out, Ok result))
    /\ (forall msg, snd out <> Unauthorized msg).
Proof.
  intros f now tenantRowID memberRowID ctx body w out. subst out.
  unfold Handler.CreateTenant.
  split; [intros Hbody; rewrite Hbody; reflexivity|]. split; [|split].
  - intros req Hbody. rewrite Hbody. split; [|split].
    + intros Hctx. unfold tenant.CreateTenant.
      rewrite (@requirePlatformDomain_Err ctx Hctx). reflexivity.
    + intros Hctx Hblank. unfold tenant.CreateTenant.
      rewrite (@requirePlatformDomain_Ok ctx Hctx).
      assert (Hb : String.eqb (TrimSpace (crCode req)) ""
                   || String.eqb (TrimSpace (crName req)) "" = true).
      { apply orb_true_iff. destruct Hblank as [H|H]; rewrite H; auto. }
      cbv zeta. rewrite Hb. reflexivity.
    + intros Hctx Hcode Hname.
      apply String.eqb_neq in Hcode. apply String.eqb_neq in Hname.
      split; [|split].
      * intros Htx. unfold tenant.CreateTenant.
        rewrite (@requirePlatformDomain_Ok ctx Hctx). cbv zeta.
        rewrite Hcode, Hname, Htx. reflexivity.
      * intros Htx Hfault Hparent Habsent. unfold tenant.CreateTenant.
        rewrite (@requirePlatformDomain_Ok ctx Hctx). cbv zeta.
        rewrite Hcode, Hname, Htx, Hfault.
        rewrite (@resolveParentTenantID_absent (tenants w) (crParentTenantID req) uuid_Nil Hparent Habsent).
        reflexivity.
      * intros Htx Hparent [t [Hin Htaken]]. unfold tenant.CreateTenant.
        rewrite (@requirePlatformDomain_Ok ctx Hctx). cbv zeta.
        rewrite Hcode, Hname, Htx.
        unfold resolveParentTenantID. cbv zeta. rewrite Hparent.
        cbn [String.eqb orb fst snd]. unfold Tenant_Save.
        assert (Hex : existsb
                        (fun x => String.eqb (tCode x) (TrimSpace (crCode req)))
                        (tenants w) = true).
        { apply existsb_exists. exists t. split; [exact Hin|].
          apply String.eqb_eq. exact Htaken. }
        cbn [tCode]. rewrite Hex. reflexivity.
  - intros result Hok. destruct body as [req|]; [|discriminate Hok].
    destruct (tenant.CreateTenant f now tenantRowID memberRowID ctx req w)
      as [w' [r|err]] eqn:Hcall; simpl in Hok |- *.
    + inversion Hok; subst r. exists req. auto.
    + exfalso. exact (@mapTenantError_not_OK _ _ _ _ Hok).
  - intros msg Hun. destruct body as [req|]; [|discriminate Hun].
    destruct (tenant.CreateTenant f now tenantRowID memberRowID ctx req w)
      as [w' [r|err]] eqn:Hcall; simpl in Hun; [discriminate Hun|].
    exact (@mapTenantError_not_Unauthorized _ _ _ _ Hun).
Qed.

(** X24.  The answers of the handler [AddMember], in the order of its
    checks.  A tenant id in the URL that is no identifier is a bad
    request, before the body is read; a body that does not decode is a
    bind error; a user id in the body that is no identifier is a bad
    request.  Then: outside the platform domain the answer is forbidden;
    an id that no tenant carries is not found; a user id that no user row
    carries is a database error, not a not-found; and a member of the
    tenant with the user's username or email is a conflict.  All of these
    leave the world as it was.  [OK] is answered only for a successful
    service call, and the handler never answers unauthorized. *)
Theorem Handler_AddMember_responses :
  forall (now : Time) (newID : UUID) (ctx : Context) (id : string)
         (body : option AddMemberRequest) (w : World D),
    let out := Handler.AddMember now newID ctx id body w in
    (uuid_Parse id = None -> out = (w, BadRequest "Invalid tenant ID"))
    /\ (forall tenantID, uuid_Parse id = Some tenantID ->
          (body = None -> out = (w, BindError))
          /\ (forall req, body = Some req ->
                (uuid_Parse (amUserID req) = None ->
                 out = (w, BadRequest "Invalid user ID"))
                /\ (forall userID, uuid_Parse (amUserID req) = Some userID ->
                      (acting ctx <> Some true ->
                       out = (w, Forbidden "Platform domain required"))
                      /\ (acting ctx = Some true ->
                          (forall t, In t (tenants w) -> tID t <> tenantID) ->
                          out = (w, NotFound "Tenant not found"))
                      /\ (forall t,
                            acting ctx = Some true ->
                            getTenant (tenants w) tenantID = Ok t ->
                            ((forall u, In u (users w) -> uID u <> userID) ->
                             out = (w, DatabaseError "Failed to add member"))
                            /\ (forall u,
                                  GetUser (users w) userID = Ok u ->
                                  (exists m mu,
                                     conflicting w tenantID userID u m mu) ->
                                  out = (w, Conflict "User is already a member"))))))
    /\ (forall msg, snd out = OK msg ->
          msg = "Member added successfully"
          /\ exists tenantID req userID,
               uuid_Parse id = Some tenantID /\ body = Some req
               /\ uuid_Parse (amUserID req) = Some userID
               /\ tenant.AddMember now newID ctx tenantID userID (amRole req) w
                  = (fst out, Ok tt))
    /\ (forall msg, snd out <> Unauthorized msg).
Proof.
  intros now newID ctx id body w out. subst out. unfold Handler.AddMember.
  split; [intros Hid; rewrite Hid; reflexivity|]. split; [|split].
  - intros tenantID Hid. rewrite Hid.
    split; [intros Hbody; rewrite Hbody; reflexivity|].
    intros req Hbody. rewrite Hbody.
    split; [intros Huid; rewrite Huid; reflexivity|].
    intros userID Huid. rewrite Huid. split; [|split].
    + intros Hctx. unfold tenant.AddMember.
      rewrite (@requirePlatformDomain_Err ctx Hctx). reflexivity.
    + intros Hctx Habsent. unfold tenant.AddMember.
      rewrite (@requirePlatformDomain_Ok ctx Hctx).
      rewrite (@getTenant_absent (tenants w) tenantID Habsent). reflexivity.
    + intros t Hctx Htenant. split.
      * intros Hnouser. unfold tenant.AddMember.
        rewrite (@requirePlatformDomain_Ok ctx Hctx), Htenant.
        unfold GetUser. rewrite filter_none; [reflexivity|].
        intros u Hu. destruct (uuid_eqb (uID u) userID) eqn:Heq; [|reflexivity].
        apply uuid_eqb_eq in Heq. exfalso. exact (Hnouser u Hu Heq).
      * intros u Huser Hconf.
        destruct (@getTenant_Ok (tenants w) tenantID t Htenant) as [_ Htid].
        subst tenantID. apply conflicting_iff in Hconf.
        unfold tenant.AddMember.
        rewrite (@requirePlatformDomain_Ok ctx Hctx), Htenant, Huser.
        cbv zeta. rewrite Hconf. reflexivity.
  - intros msg Hok.
    destruct (uuid_Parse id) as [tenantID|]; [|discriminate Hok].
    destruct body as [req|]; [|discriminate Hok].
    destruct (uuid_Parse (amUserID req)) as [userID|] eqn:Huid;
      [|discriminate Hok].
    destruct (tenant.AddMember now newID ctx tenantID userID (amRole req) w)
      as [w' [[]|err]] eqn:Hcall; simpl in Hok |- *.
    + inversion Hok. split; [reflexivity|].
      exists tenantID, req, userID. repeat split; [exact Huid | exact Hcall].
    + exfalso.
      destruct (errors_Is err ErrPlatformDomainOnly); [discriminate Hok|].
      destruct (errors_Is err ErrTenantNotFound); [discriminate Hok|].
      destruct (errors_Is err ErrMemberExists); discriminate Hok.
  - intros msg Hun.
    destruct (uuid_Parse id) as [tenantID|]; [|discriminate Hun].
    destruct body as [req|]; [|discriminate Hun].
    destruct (uuid_Parse (amUserID req)) as [userID|]; [|discriminate Hun].
    destruct (tenant.AddMember now newID ctx tenantID userID (amRole req) w)
      as [w' [[]|err]] eqn:Hcall; simpl in Hun; [discriminate Hun|].
    destruct (errors_Is err ErrPlatformDomainOnly); [discriminate Hun|].
    destruct (errors_Is err ErrTenantNotFound); [discriminate Hun|].
    destruct (errors_Is err ErrMemberExists); discriminate Hun.
Qed.

Lemma First_filter_existsb {A} (p : A -> bool) (l : list A) :
  if existsb p l then exists x, First (filter p l) = Ok x
  else First (filter p l) = Err EntNotFound.
Proof.
  destruct (existsb p l) eqn:Hex.
  - apply existsb_exists in Hex. destruct Hex as [x [Hin Hp]].
    assert (Hf : In x (filter p l)) by (apply filter_In; auto).
    destruct (filter p l) as [|y rest]; [destruct Hf|]. exists y. reflexivity.
  - rewrite filter_none; [reflexivity|]. apply existsb_false_iff. exact Hex.
Qed.

(** X25.  The handlers [RemoveMember] and [DeleteTenant] on a tenant
    table with distinct ids, the failures of the store included: the
    answer is decided by the texts of the ids, the context, the tables and
    the step at which the store fails.  [RemoveMember] reads the tenant id
    before the user id; outside the platform domain it answers forbidden
    even for a tenant that does not exist; a tenant that does not exist is
    reported before a membership that does not; and a lookup of the
    tenant, a query for the membership or an update of the row that fails
    is a database error.  Once the row is marked the answer is [OK],
    whatever becomes of the removal from the domain and of the new
    default.  [DeleteTenant] answers [OK] for every tenant row with the
    id, deleted already or not, unless the lookup or the update fails,
    which is a database error.  An answer other than [OK] leaves the world
    as it was. *)
Theorem Handler_removals_decided :
  forall (f : WithFaults.StoreFaults) (now : Time) (ctx : Context)
         (id userId : string) (w : World D),
    NoDup (map tID (tenants w)) ->
    let removed := Handler.RemoveMember f now ctx id userId w in
    let deleted := Handler.DeleteTenant f now ctx id w in
    snd removed
    = match uuid_Parse id, uuid_Parse userId with
      | None, _ => BadRequest "Invalid tenant ID"
      | Some _, None => BadRequest "Invalid user ID"
      | Some tenantID, Some userID =>
          match acting ctx with
          | Some true =>
              if WithFaults.tenantGetFails f
              then DatabaseError "Failed to remove member"
              else if existsb (fun t => uuid_eqb (tID t) tenantID) (tenants w)
              then
                if WithFaults.membershipQueryFails f
                then DatabaseError "Failed to remove member"
                else if existsb (fun r => membershipOf tenantID userID r
                                          && IsZero (tuDeletedAt r))
                                (tenantUsers w)
                then
                  if WithFaults.softDeleteFails f
                  then DatabaseError "Failed to remove member"
                  else OK "Member removed successfully"
                else NotFound "Membership not found"
              else NotFound "Tenant not found"
          | _ => Forbidden "Platform domain required"
          end
      end
    /\ snd deleted
       = match uuid_Parse id with
         | None => BadRequest "Invalid tenant ID"
         | Some tenantID =>
             match acting ctx with
             | Some true =>
                 if WithFaults.tenantGetFails f
                 then DatabaseError "Failed to delete tenant"
                 else if existsb (fun t => uuid_eqb (tID t) tenantID)
                                 (tenants w)
                 then
                   if WithFaults.softDeleteFails f
                   then DatabaseError "Failed to delete tenant"
                   else OK "Tenant deleted successfully"
                 else NotFound "Tenant not found"
             | _ => Forbidden "Platform domain required"
             end
         end
    /\ ((forall msg, snd removed <> OK msg) -> fst removed = w)
    /\ ((forall msg, snd deleted <> OK msg) -> fst deleted = w).
Proof.
  intros f now ctx id userId w Hnd removed deleted. subst removed deleted.
  unfold Handler.RemoveMember, Handler.DeleteTenant.
  destruct (uuid_Parse id) as [tenantID|];
    [|repeat split; reflexivity].
  assert (Hdeleted :
            let out :=
              match WithFaults.DeleteTenant f now ctx tenantID w with
              | (w', Err err) =>
                  (w', Handler.mapTenantError "Failed to delete tenant" err)
              | (w', Ok _) => (w', OK "Tenant deleted successfully")
              end in
            snd out
            = match acting ctx with
              | Some true =>
                  if WithFaults.tenantGetFails f
                  then DatabaseError "Failed to delete tenant"
                  else if existsb (fun t => uuid_eqb (tID t) tenantID)
                                  (tenants w)
                  then
                    if WithFaults.softDeleteFails f
                    then DatabaseError "Failed to delete tenant"
                    else OK "Tenant deleted successfully"
                  else NotFound "Tenant not found"
              | _ => Forbidden "Platform domain required"
              end
            /\ ((forall msg, snd out <> OK msg) -> fst out = w)).
  { unfold WithFaults.DeleteTenant, requirePlatformDomain.
    destruct (acting ctx) as [[|]|]; [|simpl; auto|simpl; auto].
    destruct (WithFaults.tenantGetFails f) eqn:Hget.
    { rewrite (@getTenant_fails f (tenants w) tenantID Hget). simpl. auto. }
    rewrite (@getTenant_answers f (tenants w) tenantID Hget).
    pose proof (@getTenant_table (tenants w) tenantID Hnd) as Htable.
    destruct (existsb (fun t => uuid_eqb (tID t) tenantID) (tenants w)).
    - destruct Htable as [t [Ht _]]. rewrite Ht.
      destruct (WithFaults.softDeleteFails f); simpl; [auto|].
      split; [reflexivity|]. intros Hno. exfalso. exact (Hno _ eq_refl).
    - rewrite Htable. simpl. auto. }
  assert (Hremoved :
            forall userID,
            let out :=
              match WithFaults.RemoveMember f now ctx tenantID userID w with
              | (w', Err err) =>
                  (w',
                   if errors_Is err ErrPlatformDomainOnly
                   then Forbidden "Platform domain required"
                   else if errors_Is err ErrTenantNotFound
                   then NotFound "Tenant not found"
                   else if errors_Is err ErrMemberNotFound
                   then NotFound "Membership not found"
                   else DatabaseError "Failed to remove member")
              | (w', Ok _) => (w', OK "Member removed successfully")
              end in
            snd out
            = match acting ctx with
              | Some true =>
                  if WithFaults.tenantGetFails f
                  then DatabaseError "Failed to remove member"
                  else if existsb (fun t => uuid_eqb (tID t) tenantID)
                                  (tenants w)
                  then
                    if WithFaults.membershipQueryFails f
                    then DatabaseError "Failed to remove member"
                    else if existsb (fun r => membershipOf tenantID userID r
                                              && IsZero (tuDeletedAt r))
                                    (tenantUsers w)
                    then
                      if WithFaults.softDeleteFails f
                      then DatabaseError "Failed to remove member"
                      else OK "Member removed successfully"
                    else NotFound "Membership not found"
                  else NotFound "Tenant not found"
              | _ => Forbidden "Platform domain required"
              end
            /\ ((forall msg, snd out <> OK msg) -> fst out = w)).
  { intros userID. unfold WithFaults.RemoveMember, requirePlatformDomain.
    destruct (acting ctx) as [[|]|]; [|simpl; auto|simpl; auto].
    destruct (WithFaults.tenantGetFails f) eqn:Hget.
    { rewrite (@getTenant_fails f (tenants w) tenantID Hget). simpl. auto. }
    rewrite (@getTenant_answers f (tenants w) tenantID Hget).
    pose proof (@getTenant_table (tenants w) tenantID Hnd) as Htable.
    destruct (existsb (fun t => uuid_eqb (tID t) tenantID) (tenants w)).
    - destruct Htable as [t [Ht [_ Htid]]]. rewrite Ht. subst tenantID.
      destruct (WithFaults.membershipQueryFails f); [simpl; auto|].
      pose proof (First_filter_existsb
                    (fun r => membershipOf (tID t) userID r
                              && IsZero (tuDeletedAt r))
                    (tenantUsers w)) as Hfirst.
      destruct (existsb _ (tenantUsers w)).
      + destruct Hfirst as [m Hm]. rewrite Hm.
        destruct (WithFaults.softDeleteFails f); simpl; [auto|].
        split; [reflexivity|]. intros Hno. exfalso. exact (Hno _ eq_refl).
      + rewrite Hfirst. simpl. auto.
    - rewrite Htable. simpl. auto. }
  destruct (uuid_Parse userId) as [userID|].
  - destruct (Hremoved userID) as [Hr1 Hr2]. destruct Hdeleted as [Hd1 Hd2].
    repeat split; assumption.
  - destruct Hdeleted as [Hd1 Hd2]. repeat split; auto.
Qed.

Lemma ListTenants_Ok (createdAt : Tenant -> Time) (ctx : Context)
    (filters : ListFilters) (w : World D) :
  requirePlatformDomain ctx = Ok tt ->
  ((pageOf (lfPage filters) - 1) * pageSizeOf (lfPageSize filters)
   < 2 ^ 63)%Z ->
  exists res, ListTenants createdAt ctx filters w = Ok res.
Proof.
  intros Hctx Hoff.
  pose proof (pageOf_bound (lfPage filters)) as Hp.
  pose proof (pageSizeOf_bound (lfPageSize filters)) as Hs.
  unfold ListTenants. rewrite Hctx. cbv zeta.
  change (if (lfPage filters <? 1)%Z then 1%Z else lfPage filters)
    with (pageOf (lfPage filters)).
  change (if ((if (lfPageSize filters <? 1)%Z then 20%Z
               else lfPageSize filters) >? 100)%Z
          then 100%Z
          else (if (lfPageSize filters <? 1)%Z then 20%Z
                else lfPageSize filters))
    with (pageSizeOf (lfPageSize filters)).
  rewrite offset_exact by lia.
  rewrite OffsetLimit_nonneg by nia.
  eexists. reflexivity.
Qed.

(** X26.  The answers of the handlers that read.  [ListMyTenants] needs a
    user in the context and nothing else: without one it answers
    unauthorized, with one it answers [OK] with the service's list, in any
    domain.  [GetTenant] and [ListMembers] answer a bad request for an id
    that is no identifier.  [GetTenant] answers not found for an id no
    tenant carries and [OK] for every tenant row found, deleted or not,
    in any domain.  [ListTenants] and [ListMembers] answer forbidden
    outside the platform domain, [ListMembers] even for a tenant that does
    not exist; in the platform domain [ListMembers] answers not found for
    an id no tenant carries, and both answer [OK] with the service's
    result when the offset does not overflow.  [ListTenants] includes
    deleted tenants only for the text true. *)
Theorem Handler_read_responses :
  forall (createdAt : Tenant -> Time) (ctx : Context) (id : string)
         (page pageSize : Z) (query status includeDeleted : string)
         (w : World D),
    (ctxUserID ctx = None ->
     Handler.ListMyTenants ctx w = Unauthorized "Missing user context")
    /\ (forall userID, ctxUserID ctx = Some userID ->
          exists result,
            tenant.ListMyTenants w userID = Ok result
            /\ Handler.ListMyTenants ctx w = OK result)
    /\ (uuid_Parse id = None ->
        Handler.GetTenant id w = BadRequest "Invalid tenant ID"
        /\ Handler.ListMembers ctx id page pageSize w
           = BadRequest "Invalid tenant ID")
    /\ (forall tenantID, uuid_Parse id = Some tenantID ->
          ((forall t, In t (tenants w) -> tID t <> tenantID) ->
           Handler.GetTenant id w = NotFound "Tenant not found")
          /\ (forall t, getTenant (tenants w) tenantID = Ok t ->
                Handler.GetTenant id w
                = OK (toDTO t (resolveDomainIDSafe (domains w) (tCode t))))
          /\ (acting ctx <> Some true ->
              Handler.ListMembers ctx id page pageSize w
              = Forbidden "Platform domain required")
          /\ (acting ctx = Some true ->
              (forall t, In t (tenants w) -> tID t <> tenantID) ->
              Handler.ListMembers ctx id page pageSize w
              = NotFound "Tenant not found")
          /\ (forall t,
                acting ctx = Some true ->
                getTenant (tenants w) tenantID = Ok t ->
                ((pageOf page - 1) * pageSizeOf pageSize < 2 ^ 63)%Z ->
                (Z.of_nat (List.length (tenantUsers w)) + 100 < 2 ^ 63)%Z ->
                exists result,
                  tenant.ListMembers ctx tenantID page pageSize w = Ok result
                  /\ Handler.ListMembers ctx id page pageSize w = OK result))
    /\ (acting ctx <> Some true ->
        Handler.ListTenants createdAt ctx page pageSize query status
          includeDeleted w
        = Forbidden "Platform domain required")
    /\ (acting ctx = Some true ->
        ((pageOf page - 1) * pageSizeOf pageSize < 2 ^ 63)%Z ->
        exists result,
          tenant.ListTenants createdAt ctx
            {| lfPage := page; lfPageSize := pageSize; lfQuery := query;
               lfStatus := status;
               lfIncludeDeleted := String.eqb includeDeleted "true" |} w
          = Ok result
          /\ Handler.ListTenants createdAt ctx page pageSize query status
               includeDeleted w
             = OK result).
Proof.
  intros createdAt ctx id page pageSize query status includeDeleted w.
  split; [|split; [|split; [|split; [|split]]]].
  - intros Huser. unfold Handler.ListMyTenants. rewrite Huser. reflexivity.
  - intros userID Huser. unfold Handler.ListMyTenants. rewrite Huser.
    unfold tenant.ListMyTenants.
    destruct (OrderBy defaultFirst (filter (activeOf userID) (tenantUsers w)));
      eexists; split; reflexivity.
  - intros Hid. unfold Handler.GetTenant, Handler.ListMembers.
    rewrite Hid. split; reflexivity.
  - intros tenantID Hid. unfold Handler.GetTenant, Handler.ListMembers.
    rewrite Hid. split; [|split; [|split; [|split]]].
    + intros Habsent. unfold tenant.GetTenant.
      rewrite (@getTenant_absent (tenants w) tenantID Habsent). reflexivity.
    + intros t Ht. unfold tenant.GetTenant. rewrite Ht. reflexivity.
    + intros Hctx. unfold tenant.ListMembers.
      rewrite (@requirePlatformDomain_Err ctx Hctx). reflexivity.
    + intros Hctx Habsent. unfold tenant.ListMembers.
      rewrite (@requirePlatformDomain_Ok ctx Hctx).
      rewrite (@getTenant_absent (tenants w) tenantID Habsent). reflexivity.
    + intros t Hctx Ht Hoff Hrows.
      rewrite (@listing_facts.ListMembers_Ok _ _ ctx tenantID page pageSize w t
                 (@requirePlatformDomain_Ok ctx Hctx) Ht Hoff Hrows).
      eexists. split; reflexivity.
  - intros Hctx. unfold Handler.ListTenants, tenant.ListTenants.
    rewrite (@requirePlatformDomain_Err ctx Hctx). reflexivity.
  - intros Hctx Hoff. unfold Handler.ListTenants.
    destruct (@ListTenants_Ok createdAt ctx
                {| lfPage := page; lfPageSize := pageSize; lfQuery := query;
                   lfStatus := status;
                   lfIncludeDeleted := String.eqb includeDeleted "true" |} w
                (@requirePlatformDomain_Ok ctx Hctx) Hoff) as [res Hres].
    exists res. rewrite Hres. split; reflexivity.
Qed.

End WithDomainService.

Import scenario.

Lemma Handler_removals_decided_witness :
  let updateFails :=
    {| WithFaults.tenantGetFails := false;
       WithFaults.softDeleteFails := true;
       WithFaults.membershipQueryFails := false;
       WithFaults.altQueryFails := false;
       WithFaults.promoteFails := false |} in
  snd (Handler.RemoveMember WithFaults.noStoreFaults 9 (platformCtx (Some 1))
         "100" "7" bareWorld)
  = NotFound "Membership not found"
  /\ snd (Handler.RemoveMember WithFaults.noStoreFaults 9
            (platformCtx (Some 1)) "100" "2" bareWorld)
     = OK "Member removed successfully"
  /\ Handler.RemoveMember updateFails 9 (platformCtx (Some 1)) "100" "2"
       bareWorld
     = (bareWorld, DatabaseError "Failed to remove member")
  /\ snd (Handler.DeleteTenant WithFaults.noStoreFaults 9
            (platformCtx (Some 1)) "100" bareWorld)
     = OK "Tenant deleted successfully".
Proof.
  intros updateFails.
  assert (Hnd : NoDup (map tID (tenants bareWorld))).
  { simpl. constructor; [intros [] | constructor]. }
  destruct (@Handler_removals_decided decimalText _ mockWriter
              WithFaults.noStoreFaults 9
              (platformCtx (Some 1)) "100" "7" bareWorld Hnd)
    as [Hmissing [Hdeleted _]].
  destruct (@Handler_removals_decided decimalText _ mockWriter
              WithFaults.noStoreFaults 9
              (platformCtx (Some 1)) "100" "2" bareWorld Hnd)
    as [Hremoved _].
  destruct (@Handler_removals_decided decimalText _ mockWriter updateFails 9
              (platformCtx (Some 1)) "100" "2" bareWorld Hnd)
    as [Hanswer _].
  split; [rewrite Hmissing; reflexivity|].
  split; [rewrite Hremoved; reflexivity|].
  split; [|rewrite Hdeleted; reflexivity].
  rewrite (surjective_pairing
             (Handler.RemoveMember updateFails 9 (platformCtx (Some 1))
                "100" "2" bareWorld)).
  rewrite Hanswer. reflexivity.
Defined.

End tenant_handler_facts.
